(** * mec-connect: the SQLite data layer and its transactional operations

    A shallow embedding of [src/lib/db/schema.ts], [src/lib/db/init.ts] and
    the operations of [src/lib/operations/] (bills, enrollments, students,
    departments, bill-items), over a small executable model of the part of
    SQLite those operations use.

    Conventions of the model:
    - a JavaScript [number] is an integer in [Z] (amounts, ids, counts); the
      places where the source can produce [NaN] or an infinity carry their own
      types ([option Z] with [None] for [NaN], and [jsnum]);
    - a thrown [Error] is its message; every asynchronous call is a step of a
      state-and-exception monad over the database connection;
    - [CURRENT_TIMESTAMP] is read from the connection state ([now]);
    - indexes are left out of the catalog (they do not change any result). *)

From Stdlib Require Import ZArith List String Ascii Bool Lia DecimalString.
From Stdlib Require Import Permutation Sorted.
Import ListNotations.
Open Scope string_scope.
Open Scope Z_scope.

(** ** Strings and SQL values *)

Definition string_of_Z (z : Z) : string := NilZero.string_of_int (Z.to_int z).

Definition lower (c : ascii) : ascii :=
  let n := nat_of_ascii c in
  if (Nat.leb 65 n && Nat.leb n 90)%bool then ascii_of_nat (n + 32) else c.

Fixpoint lowercase (s : string) : string :=
  match s with
  | EmptyString => EmptyString
  | String c s' => String (lower c) (lowercase s')
  end.

(** SQLite compares table and column names without regard to ASCII case. *)
Definition ieq (a b : string) : bool := String.eqb (lowercase a) (lowercase b).

Inductive value : Type :=
| VNull
| VNum (n : Z)
| VText (s : string).

Definition is_null (v : value) : bool :=
  match v with VNull => true | _ => false end.

(** SQL [a = b]: a comparison with NULL is never true. *)
Definition sql_eq (a b : value) : bool :=
  match a, b with
  | VNum x, VNum y => x =? y
  | VText x, VText y => String.eqb x y
  | _, _ => false
  end.

(** A row: its columns in the order of the table definition. *)
Definition row : Type := list (string * value).

(** A column reference inside a statement. *)
Fixpoint col (r : row) (c : string) : value :=
  match r with
  | [] => VNull
  | (k, v) :: r' => if ieq k c then v else col r' c
  end.

Fixpoint has_col (r : row) (c : string) : bool :=
  match r with
  | [] => false
  | (k, _) :: r' => ieq k c || has_col r' c
  end.

(** A property of the object that [getFirstAsync]/[getAllAsync] return for a
    row: [None] is [undefined]. *)
Fixpoint prop (r : row) (k : string) : option value :=
  match r with
  | [] => None
  | (k', v) :: r' => if String.eqb k' k then Some v else prop r' k
  end.

(** ** The catalog: [createTablesSQL] *)

Inductive default : Type :=
| NoDefault
| Default (v : value)
| CURRENT_TIMESTAMP.

Record column : Type := mkColumn {
  c_name : string;
  c_type : string;
  c_notnull : bool;
  c_default : default
}.

(** [FOREIGN KEY (fk_col) REFERENCES fk_table (id) ON DELETE CASCADE] *)
Record fkey : Type := mkFkey {
  fk_col : string;
  fk_table : string
}.

(** Every table of the schema starts with
    [id INTEGER PRIMARY KEY AUTOINCREMENT]; it is the first entry of
    [ts_cols]. *)
Record tschema : Type := mkSchema {
  ts_name : string;
  ts_cols : list column;
  ts_fks : list fkey;
  ts_unique : list (list string)
}.

Definition id_column : column :=
  mkColumn "id" "INTEGER PRIMARY KEY AUTOINCREMENT" false NoDefault.
Definition isActive_column : column :=
  mkColumn "isActive" "BOOLEAN" false (Default (VNum 1)).
Definition createdAt_column : column :=
  mkColumn "createdAt" "TEXT" false CURRENT_TIMESTAMP.
Definition updatedAt_column : column :=
  mkColumn "updatedAt" "TEXT" false CURRENT_TIMESTAMP.

Definition students_table : tschema :=
  mkSchema "students"
    [ id_column;
      mkColumn "firstname" "TEXT" true NoDefault;
      mkColumn "othernames" "TEXT" true NoDefault;
      mkColumn "phone" "TEXT" true NoDefault;
      mkColumn "address" "TEXT" true NoDefault;
      mkColumn "status" "TEXT" false (Default (VText "active"));
      isActive_column; createdAt_column; updatedAt_column ]
    [] [].

Definition departments_table : tschema :=
  mkSchema "departments"
    [ id_column;
      mkColumn "name" "TEXT" true NoDefault;
      mkColumn "term" "TEXT" true NoDefault;
      mkColumn "year" "TEXT" true NoDefault;
      mkColumn "description" "TEXT" false NoDefault;
      mkColumn "startDate" "TEXT" false NoDefault;
      mkColumn "endDate" "TEXT" false NoDefault;
      isActive_column; createdAt_column; updatedAt_column ]
    [] [].

Definition student_departments_table : tschema :=
  mkSchema "student_departments"
    [ id_column;
      mkColumn "studentId" "INTEGER" true NoDefault;
      mkColumn "departmentId" "INTEGER" true NoDefault;
      mkColumn "enrollmentDate" "TEXT" false CURRENT_TIMESTAMP;
      mkColumn "status" "TEXT" false (Default (VText "active"));
      isActive_column; createdAt_column; updatedAt_column ]
    [ mkFkey "studentId" "students"; mkFkey "departmentId" "departments" ]
    [ ["studentId"; "departmentId"] ].

Definition bill_items_table : tschema :=
  mkSchema "bill_items"
    [ id_column;
      mkColumn "name" "TEXT" true NoDefault;
      mkColumn "amount" "REAL" true NoDefault;
      mkColumn "departmentId" "INTEGER" true NoDefault;
      mkColumn "description" "TEXT" false NoDefault;
      mkColumn "category" "TEXT" false NoDefault;
      mkColumn "isRequired" "BOOLEAN" false (Default (VNum 0));
      isActive_column; createdAt_column; updatedAt_column ]
    [ mkFkey "departmentId" "departments" ]
    [].

Definition bills_table : tschema :=
  mkSchema "bills"
    [ id_column;
      mkColumn "name" "TEXT" true NoDefault;
      mkColumn "studentId" "INTEGER" true NoDefault;
      mkColumn "departmentId" "INTEGER" true NoDefault;
      mkColumn "totalAmount" "REAL" true NoDefault;
      mkColumn "dueDate" "TEXT" false NoDefault;
      mkColumn "status" "TEXT" false (Default (VText "pending"));
      mkColumn "discount" "REAL" false (Default (VNum 0));
      mkColumn "note" "TEXT" false NoDefault;
      isActive_column; createdAt_column; updatedAt_column ]
    [ mkFkey "studentId" "students"; mkFkey "departmentId" "departments" ]
    [].

Definition bill_item_relations_table : tschema :=
  mkSchema "bill_item_relations"
    [ id_column;
      mkColumn "billId" "INTEGER" true NoDefault;
      mkColumn "billItemId" "INTEGER" true NoDefault;
      mkColumn "amount" "REAL" true NoDefault;
      mkColumn "quantity" "INTEGER" false (Default (VNum 1));
      mkColumn "discount" "REAL" false (Default (VNum 0));
      isActive_column; createdAt_column; updatedAt_column ]
    [ mkFkey "billId" "bills"; mkFkey "billItemId" "bill_items" ]
    [].

Definition payments_table : tschema :=
  mkSchema "payments"
    [ id_column;
      mkColumn "billId" "INTEGER" true NoDefault;
      mkColumn "studentId" "INTEGER" true NoDefault;
      mkColumn "amount" "REAL" true NoDefault;
      mkColumn "paymentDate" "TEXT" true NoDefault;
      mkColumn "method" "TEXT" false NoDefault;
      mkColumn "reference" "TEXT" false NoDefault;
      mkColumn "receivedBy" "TEXT" false NoDefault;
      mkColumn "note" "TEXT" false NoDefault;
      mkColumn "status" "TEXT" false (Default (VText "completed"));
      isActive_column; createdAt_column; updatedAt_column ]
    [ mkFkey "billId" "bills"; mkFkey "studentId" "students" ]
    [].

(** The [CREATE TABLE IF NOT EXISTS] statements of [createTablesSQL], in
    order. *)
Definition createTablesSQL : list tschema :=
  [ students_table; departments_table; student_departments_table;
    bill_items_table; bills_table; bill_item_relations_table;
    payments_table ].

(** ** The connection state *)

(** A table: its definition, its rows in rowid order, and its entry in
    [sqlite_sequence] (the largest rowid ever handed out). *)
Record table : Type := mkTable {
  t_schema : tschema;
  t_rows : list row;
  t_seq : Z
}.

Definition t_name (t : table) : string := ts_name (t_schema t).

Record DB : Type := mkDB {
  tables : list table;
  (** the snapshot taken by [BEGIN TRANSACTION], while one is open *)
  txn : option (list table);
  (** [PRAGMA foreign_keys] of this connection *)
  foreign_keys : bool;
  user_version : Z;
  (** the value of [CURRENT_TIMESTAMP] *)
  now : string
}.

Definition with_tables (ts : list table) (db : DB) : DB :=
  mkDB ts (txn db) (foreign_keys db) (user_version db) (now db).

Definition find_table (n : string) (ts : list table) : option table :=
  find (fun t => ieq (t_name t) n) ts.

Definition set_table (t' : table) (ts : list table) : list table :=
  map (fun t => if ieq (t_name t) (t_name t') then t' else t) ts.

Definition rows (n : string) (db : DB) : list row :=
  match find_table n (tables db) with
  | Some t => t_rows t
  | None => []
  end.

(** ** The monad of database calls *)

Inductive result (A : Type) : Type :=
| Ok (a : A)
| Err (message : string).
Arguments Ok {A} a.
Arguments Err {A} message.

Definition M (A : Type) : Type := DB -> result A * DB.

Definition ret {A} (a : A) : M A := fun db => (Ok a, db).

Definition throw {A} (message : string) : M A := fun db => (Err message, db).

Definition bind {A B} (m : M A) (k : A -> M B) : M B :=
  fun db =>
    match m db with
    | (Ok a, db') => k a db'
    | (Err e, db') => (Err e, db')
    end.

(** [try { m } catch (error) { h error }] *)
Definition try_catch {A} (m : M A) (h : string -> M A) : M A :=
  fun db =>
    match m db with
    | (Ok a, db') => (Ok a, db')
    | (Err e, db') => h e db'
    end.

Declare Scope db_scope.
Delimit Scope db_scope with db.
Notation "x <- c1 ;; c2" := (bind c1 (fun x => c2))
  (at level 61, c1 at next level, right associativity) : db_scope.
Notation "c1 ;;; c2" := (bind c1 (fun _ => c2))
  (at level 61, right associativity) : db_scope.
Open Scope db_scope.

(** [for (const x of xs) { body }], threading the variables the body
    updates. *)
Fixpoint for_of {A S} (xs : list A) (body : A -> S -> M S) (s : S) : M S :=
  match xs with
  | [] => ret s
  | x :: xs' => s' <- body x s ;; for_of xs' body s'
  end.

(** ** Statements *)

Definition no_such_table (n : string) : string := "no such table: " ++ n.

(** [db.execAsync('BEGIN TRANSACTION')] *)
Definition BEGIN_TRANSACTION : M unit := fun db =>
  match txn db with
  | Some _ => (Err "cannot start a transaction within a transaction", db)
  | None =>
      (Ok tt, mkDB (tables db) (Some (tables db)) (foreign_keys db)
                   (user_version db) (now db))
  end.

(** [db.execAsync('COMMIT')] *)
Definition COMMIT : M unit := fun db =>
  match txn db with
  | None => (Err "cannot commit - no transaction is active", db)
  | Some _ =>
      (Ok tt, mkDB (tables db) None (foreign_keys db) (user_version db)
                   (now db))
  end.

(** [db.execAsync('ROLLBACK')]: every table, and [sqlite_sequence] with
    them, goes back to the snapshot. *)
Definition ROLLBACK : M unit := fun db =>
  match txn db with
  | None => (Err "cannot rollback - no transaction is active", db)
  | Some snapshot =>
      (Ok tt, mkDB snapshot None (foreign_keys db) (user_version db) (now db))
  end.

(** [SELECT * FROM n WHERE cond], rows in rowid order. *)
Definition sql_select (n : string) (cond : row -> bool) : M (list row) :=
  fun db =>
    match find_table n (tables db) with
    | None => (Err (no_such_table n), db)
    | Some t => (Ok (filter cond (t_rows t)), db)
    end.

(** [getFirstAsync]: the first row of the result, or [null]. *)
Definition getFirstAsync (n : string) (cond : row -> bool)
  : M (option row) :=
  rs <- sql_select n cond ;; ret (hd_error rs).

Definition getAllAsync (n : string) (cond : row -> bool) : M (list row) :=
  sql_select n cond.

(** [SELECT a.* FROM n1 a JOIN n2 b ON on WHERE cond]: one copy of the
    [n1] row for each matching [n2] row. *)
Definition sql_select_join (n1 n2 : string) (on_ cond : row -> row -> bool)
  : M (list row) :=
  fun db =>
    match find_table n1 (tables db) with
    | None => (Err (no_such_table n1), db)
    | Some t1 =>
        match find_table n2 (tables db) with
        | None => (Err (no_such_table n2), db)
        | Some t2 =>
            (Ok (flat_map
                   (fun a =>
                      map (fun _ => a)
                          (filter (fun b => on_ a b && cond a b) (t_rows t2)))
                   (t_rows t1)), db)
        end
    end.

Fixpoint assigned (vals : list (string * value)) (c : string)
  : option value :=
  match vals with
  | [] => None
  | (k, v) :: vals' => if ieq k c then Some v else assigned vals' c
  end.

Definition default_value (d : default) (ts : string) : value :=
  match d with
  | NoDefault => VNull
  | Default v => v
  | CURRENT_TIMESTAMP => VText ts
  end.

Definition max_rowid (rs : list row) : Z :=
  fold_right (fun r m => match col r "id" with VNum i => Z.max i m | _ => m end)
             0 rs.

(** The rowid of a new row: the given [id], or with AUTOINCREMENT one more
    than the largest rowid the table has ever held. *)
Definition next_rowid (t : table) (vals : list (string * value)) : Z :=
  match assigned vals "id" with
  | Some (VNum i) => i
  | _ => Z.max (max_rowid (t_rows t)) (t_seq t) + 1
  end.

(** An omitted column takes its DEFAULT; a column bound to NULL stays NULL. *)
Definition new_row (s : tschema) (vals : list (string * value)) (rowid : Z)
           (ts : string) : row :=
  map (fun c =>
         (c_name c,
          if ieq (c_name c) "id" then VNum rowid
          else match assigned vals (c_name c) with
               | Some v => v
               | None => default_value (c_default c) ts
               end))
      (ts_cols s).

Definition unknown_column (s : tschema) (vals : list (string * value))
  : option (string * value) :=
  find (fun kv => negb (existsb (fun c => ieq (c_name c) (fst kv)) (ts_cols s)))
       vals.

Definition notnull_violation (s : tschema) (r : row) : option column :=
  find (fun c => c_notnull c && is_null (col r (c_name c))) (ts_cols s).

Definition same_key (u : list string) (r r' : row) : bool :=
  forallb (fun c => sql_eq (col r' c) (col r c)) u.

Definition unique_violation (s : tschema) (rs : list row) (r : row)
  : option (list string) :=
  find (fun u => existsb (same_key u r) rs) (ts_unique s).

Definition has_rowid (rs : list row) (v : value) : bool :=
  existsb (fun r => sql_eq (col r "id") v) rs.

Definition parent_has (ts : list table) (parent : string) (v : value)
  : bool :=
  match find_table parent ts with
  | Some p => has_rowid (t_rows p) v
  | None => false
  end.

Definition fk_violation (s : tschema) (ts : list table) (r : row) : bool :=
  existsb (fun fk => negb (is_null (col r (fk_col fk)))
                     && negb (parent_has ts (fk_table fk) (col r (fk_col fk))))
          (ts_fks s).

Definition qualified (s : tschema) (cs : list string) : string :=
  String.concat ", " (map (fun c => ts_name s ++ "." ++ c) cs).

(** [INSERT INTO n (columns of vals) VALUES (values of vals)]; the result is
    [lastInsertRowId].  A statement that fails changes nothing and leaves an
    open transaction open. *)
Definition sql_insert (n : string) (vals : list (string * value)) : M Z :=
  fun db =>
    match find_table n (tables db) with
    | None => (Err (no_such_table n), db)
    | Some t =>
        let s := t_schema t in
        match unknown_column s vals with
        | Some kv =>
            (Err ("table " ++ n ++ " has no column named " ++ fst kv), db)
        | None =>
            let rowid := next_rowid t vals in
            let r := new_row s vals rowid (now db) in
            match notnull_violation s r with
            | Some c =>
                (Err ("NOT NULL constraint failed: "
                        ++ qualified s [c_name c]), db)
            | None =>
                if has_rowid (t_rows t) (VNum rowid) then
                  (Err ("UNIQUE constraint failed: " ++ qualified s ["id"]), db)
                else
                match unique_violation s (t_rows t) r with
                | Some u =>
                    (Err ("UNIQUE constraint failed: " ++ qualified s u), db)
                | None =>
                    if foreign_keys db && fk_violation s (tables db) r then
                      (Err "FOREIGN KEY constraint failed", db)
                    else
                      (Ok rowid,
                       with_tables
                         (set_table
                            (mkTable s (t_rows t ++ [r])
                                     (Z.max (t_seq t) rowid))
                            (tables db))
                         db)
                end
            end
        end
    end.

(** [SET] applied to one row. *)
Definition assign (vals : list (string * value)) (r : row) : row :=
  map (fun kv => (fst kv,
                  match assigned vals (fst kv) with
                  | Some v => v
                  | None => snd kv
                  end)) r.

Definition is_assigned (vals : list (string * value)) (c : string) : bool :=
  match assigned vals c with Some _ => true | None => false end.

Fixpoint duplicate_key (u : list string) (rs : list row) : bool :=
  match rs with
  | [] => false
  | r :: rs' => existsb (same_key u r) rs' || duplicate_key u rs'
  end.

(** [UPDATE n SET vals WHERE cond]; the result is [changes].  Only the
    constraints on assigned columns are checked again. *)
Definition sql_update (n : string) (vals : list (string * value))
           (cond : row -> bool) : M Z :=
  fun db =>
    match find_table n (tables db) with
    | None => (Err (no_such_table n), db)
    | Some t =>
        let s := t_schema t in
        match unknown_column s vals with
        | Some kv => (Err ("no such column: " ++ fst kv), db)
        | None =>
            let hit := filter cond (t_rows t) in
            let rows' :=
              map (fun r => if cond r then assign vals r else r) (t_rows t) in
            match hit with
            | [] => (Ok 0, db)
            | r0 :: _ =>
                match find (fun c => c_notnull c && is_assigned vals (c_name c)
                                     && is_null (col (assign vals r0) (c_name c)))
                           (ts_cols s) with
                | Some c =>
                    (Err ("NOT NULL constraint failed: "
                            ++ qualified s [c_name c]), db)
                | None =>
                    match find (fun u => existsb (is_assigned vals) u
                                         && duplicate_key u rows')
                               (ts_unique s) with
                    | Some u =>
                        (Err ("UNIQUE constraint failed: " ++ qualified s u),
                         db)
                    | None =>
                        if foreign_keys db
                           && existsb
                                (fun fk =>
                                   is_assigned vals (fk_col fk)
                                   && negb (is_null (col (assign vals r0)
                                                         (fk_col fk)))
                                   && negb (parent_has (tables db) (fk_table fk)
                                              (col (assign vals r0)
                                                   (fk_col fk))))
                                (ts_fks s)
                        then (Err "FOREIGN KEY constraint failed", db)
                        else
                          (Ok (Z.of_nat (List.length hit)),
                           with_tables
                             (set_table (mkTable s rows' (t_seq t))
                                        (tables db))
                             db)
                    end
                end
            end
        end
    end.

(** Removing the rows [dead] of table [n] and, through
    [ON DELETE CASCADE], the rows of other tables that refer to them.  The
    references of the catalog form no cycle, so a fuel of the number of
    tables reaches every level. *)
Fixpoint delete_rows (fuel : nat) (n : string) (dead : row -> bool)
         (cascade : bool) (ts : list table) : list table :=
  match fuel with
  | O => ts
  | S fuel' =>
      match find_table n ts with
      | None => ts
      | Some t =>
          let gone := map (fun r => col r "id") (filter dead (t_rows t)) in
          let ts1 :=
            set_table
              (mkTable (t_schema t)
                       (filter (fun r => negb (dead r)) (t_rows t))
                       (t_seq t))
              ts in
          if cascade then
            fold_left
              (fun acc child =>
                 fold_left
                   (fun acc' fk =>
                      if ieq (fk_table fk) n then
                        delete_rows fuel' (ts_name child)
                          (fun r => existsb (sql_eq (col r (fk_col fk))) gone)
                          cascade acc'
                      else acc')
                   (ts_fks child) acc)
              (map t_schema ts) ts1
          else ts1
      end
  end.

(** [DELETE FROM n WHERE cond]; the result is [changes], the number of
    rows the statement itself removed. *)
Definition sql_delete (n : string) (cond : row -> bool) : M Z :=
  fun db =>
    match find_table n (tables db) with
    | None => (Err (no_such_table n), db)
    | Some t =>
        (Ok (Z.of_nat (List.length (filter cond (t_rows t)))),
         with_tables
           (delete_rows (S (List.length (tables db))) n cond (foreign_keys db)
                        (tables db))
           db)
    end.

(** ** [src/lib/db/init.ts] *)

Definition DATABASE_VERSION : Z := 1.

(** [CREATE TABLE IF NOT EXISTS] *)
Definition create_table_if_not_exists (s : tschema) (ts : list table)
  : list table :=
  match find_table (ts_name s) ts with
  | Some _ => ts
  | None => ts ++ [mkTable s [] 0]
  end.

Definition exec_createTablesSQL : M unit := fun db =>
  (Ok tt,
   with_tables
     (fold_left (fun ts s => create_table_if_not_exists s ts) createTablesSQL
                (tables db))
     db).

(** [PRAGMA foreign_keys = ON] is a no-op inside a transaction. *)
Definition PRAGMA_foreign_keys_ON : M unit := fun db =>
  (Ok tt,
   match txn db with
   | Some _ => db
   | None => mkDB (tables db) (txn db) true (user_version db) (now db)
   end).

Definition PRAGMA_user_version : M Z := fun db => (Ok (user_version db), db).

Definition PRAGMA_set_user_version (v : Z) : M unit := fun db =>
  (Ok tt, mkDB (tables db) (txn db) (foreign_keys db) v (now db)).

(** [initDatabase]: the pragmas and the tables are set up only when the
    stored version is below [DATABASE_VERSION]; [journal_mode = WAL] has no
    effect on the model. *)
Definition initDatabase : M unit :=
  try_catch
    (currentDbVersion <- PRAGMA_user_version ;;
     if DATABASE_VERSION <=? currentDbVersion then ret tt
     else
       PRAGMA_foreign_keys_ON ;;;
       exec_createTablesSQL ;;;
       PRAGMA_set_user_version DATABASE_VERSION)
    (fun error => throw error).

(** A database file that was never opened before. *)
Definition new_database (ts : string) : DB := mkDB [] None false 0 ts.

(** The catalog of a database that [initDatabase] has set up. *)
Definition initialized (db : DB) : Prop :=
  map t_schema (tables db) = createTablesSQL.

(** ** JavaScript helpers *)

(** [x || d] on an optional number: [undefined] and [0] are both falsy. *)
Definition or_default (x : option Z) (d : Z) : Z :=
  match x with
  | None | Some 0 => d
  | Some n => n
  end.

(** [x ?? d] *)
Definition nullish (x : option Z) (d : Z) : Z :=
  match x with
  | None => d
  | Some n => n
  end.

(** [s || null] as a bound parameter: the empty string is falsy. *)
Definition text_or_null (s : option string) : value :=
  match s with
  | None | Some "" => VNull
  | Some t => VText t
  end.

(** [s ?? null] as a bound parameter *)
Definition text_nullish (s : option string) : value :=
  match s with
  | None => VNull
  | Some t => VText t
  end.

(** [b ?? null] as a bound parameter; a boolean is bound as 1 or 0. *)
Definition bool_nullish (b : option bool) : value :=
  match b with
  | None => VNull
  | Some true => VNum 1
  | Some false => VNum 0
  end.

(** [Number(v)], [None] being [NaN].  Text is taken as not numeric, except
    the empty string: a REAL column converts numeric text to a number when
    it is stored. *)
Definition Number (v : value) : option Z :=
  match v with
  | VNum n => Some n
  | VNull => Some 0
  | VText "" => Some 0
  | VText _ => None
  end.

Definition nan_lift (f : Z -> Z -> Z) (a b : option Z) : option Z :=
  match a, b with
  | Some x, Some y => Some (f x y)
  | _, _ => None
  end.

(** A number bound as a parameter: SQLite stores [NaN] as NULL. *)
Definition bind_number (a : option Z) : value :=
  match a with
  | Some n => VNum n
  | None => VNull
  end.

Inductive jsnum : Type :=
| JNum (z : Z)
| JNaN
| JInfinity
| JNegInfinity.

(** [Math.ceil(a / b)] *)
Definition ceil_div (a b : Z) : jsnum :=
  if b =? 0 then
    if a =? 0 then JNaN else if 0 <? a then JInfinity else JNegInfinity
  else JNum (- ((- a) / b)).

Definition id_is (i : Z) (r : row) : bool := sql_eq (col r "id") (VNum i).

(** ** [src/lib/operations/students.ts]: [addStudent] *)

Record Student : Type := mkStudent {
  s_id : option Z;
  s_firstname : string;
  s_othernames : string;
  s_phone : string;
  s_address : string;
  s_status : option string
}.

Definition addStudent (student : Student) : M Student :=
  try_catch
    (lastInsertRowId <-
       sql_insert "students"
         [ ("firstname", VText (s_firstname student));
           ("othernames", VText (s_othernames student));
           ("phone", VText (s_phone student));
           ("address", VText (s_address student));
           ("status", VText (match s_status student with
                             | None | Some "" => "active"
                             | Some st => st
                             end)) ] ;;
     (* { id: result.lastInsertRowId, ...student } *)
     ret (mkStudent (match s_id student with
                     | Some i => Some i
                     | None => Some lastInsertRowId
                     end)
                    (s_firstname student) (s_othernames student)
                    (s_phone student) (s_address student) (s_status student)))
    (fun error => throw error).

(** ** [lib/operations/bill-items.ts]: [addBillItem] *)

Record NewBillItem : Type := mkNewBillItem {
  nb_name : string;
  nb_amount : Z;
  nb_departmentId : Z;
  nb_description : option string;
  nb_category : option string;
  nb_isRequired : option bool
}.

Record BillItem : Type := mkBillItem {
  bi_id : Z;
  bi_item : NewBillItem
}.

Definition addBillItem (billItem : NewBillItem) : M BillItem :=
  try_catch
    (lastInsertRowId <-
       sql_insert "bill_items"
         [ ("name", VText (nb_name billItem));
           ("amount", VNum (nb_amount billItem));
           ("departmentId", VNum (nb_departmentId billItem));
           ("description", text_nullish (nb_description billItem));
           ("category", text_nullish (nb_category billItem));
           ("isRequired", bool_nullish (nb_isRequired billItem)) ] ;;
     ret (mkBillItem lastInsertRowId billItem))
    (fun error => throw error).

(** ** [lib/operations/departments.ts] *)

(** An entry of the [billItems] array of a department. *)
Record DepartmentBillItem : Type := mkDepartmentBillItem {
  di_name : string;
  di_amount : Z;
  di_description : option string;
  di_category : option string;
  di_isRequired : option bool
}.

Record Department : Type := mkDepartment {
  d_id : option Z;
  d_name : string;
  d_term : string;
  d_year : string;
  d_description : option string;
  d_startDate : option string;
  d_endDate : option string;
  d_billItems : option (list DepartmentBillItem)
}.

Definition addDepartment (department : Department) : M Department :=
  try_catch
    (lastInsertRowId <-
       sql_insert "departments"
         [ ("name", VText (d_name department));
           ("term", VText (d_term department));
           ("year", VText (d_year department));
           ("description", text_nullish (d_description department));
           ("startDate", text_nullish (d_startDate department));
           ("endDate", text_nullish (d_endDate department)) ] ;;
     ret (mkDepartment (match d_id department with
                        | Some i => Some i
                        | None => Some lastInsertRowId
                        end)
                       (d_name department) (d_term department)
                       (d_year department) (d_description department)
                       (d_startDate department) (d_endDate department)
                       (d_billItems department)))
    (fun error => throw error).

Definition departmentId_is (i : Z) (r : row) : bool :=
  sql_eq (col r "departmentId") (VNum i).

(** The parameters of the UPDATE of [updateDepartment]. *)
Definition department_assignments (department : Department)
  : list (string * value) :=
  [ ("name", VText (d_name department));
    ("term", VText (d_term department));
    ("year", VText (d_year department));
    ("description", text_or_null (d_description department));
    ("startDate", text_or_null (d_startDate department));
    ("endDate", text_or_null (d_endDate department)) ].

(** The body of the loop of [updateDepartment] for one bill item. *)
Definition add_department_item (id : Z) (item : DepartmentBillItem) (_ : unit)
  : M unit :=
  addBillItem
    (mkNewBillItem (di_name item) (di_amount item) id (di_description item)
                   (di_category item) (di_isRequired item)) ;;;
  ret tt.

Definition updateDepartment (department : Department) : M Department :=
  match d_id department with
  | None | Some 0 => throw "Department ID is required for update"
  | Some id =>
      BEGIN_TRANSACTION ;;;
      try_catch
        ((* 1. Update department *)
         sql_update "departments" (department_assignments department)
                    (id_is id) ;;;
         (* 2. If bill items are provided, update them *)
         match d_billItems department with
         | Some billItems =>
             (* First, delete existing bill items *)
             sql_delete "bill_items" (departmentId_is id) ;;;
             (* Then, add new bill items *)
             for_of billItems (add_department_item id) tt
         | None => ret tt
         end ;;;
         COMMIT ;;;
         ret department)
        (fun error => ROLLBACK ;;; throw error)
  end.

(** [getStudentsInDepartmentById]: the query names the junction table
    [student_department]. *)
Definition getStudentsInDepartmentById (departmentId : Z) : M (list row) :=
  try_catch
    (sql_select_join "students" "student_department"
       (fun s sd => sql_eq (col s "id") (col sd "studentId"))
       (fun _ sd => sql_eq (col sd "departmentId") (VNum departmentId)))
    (fun error => throw error).

(** ** [src/lib/operations/enrollments.ts] *)

Record StudentError : Type := mkStudentError {
  studentId : Z;
  error : string
}.

Record BulkEnrollmentResult : Type := mkBulkEnrollmentResult {
  successCount : Z;
  errors : list StudentError
}.

Definition push_error (result : BulkEnrollmentResult) (sid : Z)
           (message : string) : BulkEnrollmentResult :=
  mkBulkEnrollmentResult (successCount result)
                         (errors result ++ [mkStudentError sid message]).

Definition department_not_found (departmentId : Z) : string :=
  "Department with ID " ++ string_of_Z departmentId ++ " not found".

Definition enrollment_is (sid did : Z) (r : row) : bool :=
  sql_eq (col r "studentId") (VNum sid)
  && sql_eq (col r "departmentId") (VNum did).

(** The body of the loop of [bulkEnroll] for one [studentId]. *)
Definition enroll_student (departmentId studentId : Z)
           (result : BulkEnrollmentResult) : M BulkEnrollmentResult :=
  try_catch
    ((* Verify student exists *)
     student <- getFirstAsync "students" (id_is studentId) ;;
     match student with
     | None => ret (push_error result studentId "Student not found")
     | Some _ =>
         (* Check if already enrolled *)
         existingEnrollment <-
           getFirstAsync "student_departments"
             (enrollment_is studentId departmentId) ;;
         match existingEnrollment with
         | Some _ => ret (push_error result studentId "Already enrolled")
         | None =>
             sql_insert "student_departments"
               [ ("studentId", VNum studentId);
                 ("departmentId", VNum departmentId);
                 ("status", VText "active");
                 ("isActive", VNum 1) ] ;;;
             ret (mkBulkEnrollmentResult (successCount result + 1)
                                         (errors result))
         end
     end)
    (fun error => ret (push_error result studentId error)).

Definition bulkEnroll (departmentId : Z) (studentIds : list Z)
  : M BulkEnrollmentResult :=
  BEGIN_TRANSACTION ;;;
  try_catch
    ((* Verify department exists *)
     department <- getFirstAsync "departments" (id_is departmentId) ;;
     match department with
     | None => throw (department_not_found departmentId)
     | Some _ =>
         result <- for_of studentIds (enroll_student departmentId)
                     (mkBulkEnrollmentResult 0 []) ;;
         COMMIT ;;;
         ret result
     end)
    (fun error => ROLLBACK ;;; throw error).

(** [getEnrollmentsByDepartment]: the students with an active enrollment. *)
Definition getEnrollmentsByDepartment (departmentId : Z) : M (list row) :=
  sql_select_join "students" "student_departments"
    (fun s sd => sql_eq (col s "id") (col sd "studentId"))
    (fun _ sd => sql_eq (col sd "departmentId") (VNum departmentId)
                 && sql_eq (col sd "isActive") (VNum 1)).

Definition CURRENT_TIMESTAMP_value : M value :=
  fun db => (Ok (VText (now db)), db).

(** [unenrollStudent]: the soft delete; the row stays.  (SQLite reads the
    double-quoted ["withdrawn"] as a string, no column having that name.) *)
Definition unenrollStudent (studentId departmentId : Z) : M bool :=
  try_catch
    (ts <- CURRENT_TIMESTAMP_value ;;
     changes <-
       sql_update "student_departments"
         [ ("isActive", VNum 0); ("status", VText "withdrawn");
           ("updatedAt", ts) ]
         (enrollment_is studentId departmentId) ;;
     ret (0 <? changes))
    (fun _ => ret false).

(** ** [src/lib/operations/bills.ts] *)

Record BillItemRequest : Type := mkBillItemRequest {
  rq_billItemId : Z;
  rq_amount : option Z;
  rq_quantity : option Z
}.

Record ItemRelation : Type := mkItemRelation {
  ir_billItemId : Z;
  ir_amount : value;
  ir_quantity : Z
}.

Record BulkBillResult : Type := mkBulkBillResult {
  billsCreated : Z;
  bb_totalAmount : option Z;
  bb_errors : list StudentError
}.

Definition bill_item_not_found (billItemId : Z) : string :=
  "BillItem with ID " ++ string_of_Z billItemId
    ++ " not found or has no amount".

(** [SELECT amount FROM billItems WHERE id = ?]: the row object has the one
    property [amount]. *)
Definition select_amount_from_billItems (billItemId : Z) : M (option row) :=
  billItem <- getFirstAsync "billItems" (id_is billItemId) ;;
  ret (option_map (fun r => [("amount", col r "amount")]) billItem).

(** The amount of one requested item: the caller's, else the stored one. *)
Definition resolve_amount (item : BillItemRequest) : M value :=
  match rq_amount item with
  | Some amount => ret (VNum amount)
  | None =>
      billItem <- select_amount_from_billItems (rq_billItemId item) ;;
      match billItem with
      | None => throw (bill_item_not_found (rq_billItemId item))
      | Some r =>
          match prop r "amount" with
          | None => throw (bill_item_not_found (rq_billItemId item))
          | Some amount => ret amount
          end
      end
  end.

(** The inner loop over [billItems]: [studentTotal] and [itemRelations]. *)
Definition price_item (item : BillItemRequest)
           (acc : option Z * list ItemRelation)
  : M (option Z * list ItemRelation) :=
  amount <- resolve_amount item ;;
  let quantity := nullish (rq_quantity item) 1 in
  ret (nan_lift Z.add (fst acc)
                (nan_lift Z.mul (Number amount) (Some quantity)),
       (snd acc ++ [mkItemRelation (rq_billItemId item) amount quantity])%list).

(** The body of the loop of [createBillsForDepartment] for one student. *)
Definition bill_student (departmentId : Z) (billItems : list BillItemRequest)
           (billName : string) (student : row) (result : BulkBillResult)
  : M BulkBillResult :=
  try_catch
    (match prop student "id" with
     | None => throw "Student ID is undefined"
     | Some sid =>
         (* Calculate total amount *)
         priced <- for_of billItems price_item (Some 0, []) ;;
         let studentTotal := fst priced in
         (* Create bill *)
         billId <-
           sql_insert "bills"
             [ ("name", VText billName); ("studentId", sid);
               ("departmentId", VNum departmentId);
               ("totalAmount", bind_number studentTotal);
               ("status", VText "pending") ] ;;
         (* Add bill items *)
         for_of (snd priced)
           (fun relation _ =>
              sql_insert "billItemRelations"
                [ ("billId", VNum billId);
                  ("billItemId", VNum (ir_billItemId relation));
                  ("amount", ir_amount relation);
                  ("quantity", VNum (ir_quantity relation)) ] ;;;
              ret tt)
           tt ;;;
         ret (mkBulkBillResult (billsCreated result + 1)
                (nan_lift Z.add (bb_totalAmount result) studentTotal)
                (bb_errors result))
     end)
    (fun error =>
       (* studentId: student.id || 0, the id being the integer key *)
       ret (mkBulkBillResult (billsCreated result) (bb_totalAmount result)
              (bb_errors result
                 ++ [mkStudentError
                       (match prop student "id" with
                        | Some (VNum sid) => sid
                        | _ => 0
                        end)
                       error]))).

Definition createBillsForDepartment (departmentId : Z)
           (billItems : list BillItemRequest) (billName : string)
  : M BulkBillResult :=
  BEGIN_TRANSACTION ;;;
  try_catch
    ((* 1. Verify department exists *)
     department <- getAllAsync "departments" (id_is departmentId) ;;
     match department with
     | [] => throw (department_not_found departmentId)
     | _ :: _ =>
         (* 2. Get all enrolled students *)
         students <-
           sql_select_join "students" "studentDepartments"
             (fun s sd => sql_eq (col s "id") (col sd "studentId"))
             (fun _ sd => sql_eq (col sd "departmentId") (VNum departmentId)
                          && sql_eq (col sd "isActive") (VNum 1)) ;;
         (* 3. Process each student *)
         result <- for_of students
                     (bill_student departmentId billItems billName)
                     (mkBulkBillResult 0 (Some 0) []) ;;
         COMMIT ;;;
         ret result
     end)
    (fun error => ROLLBACK ;;; throw error).

Record BillLine : Type := mkBillLine {
  ln_billItemId : Z;
  ln_amount : option Z;
  ln_quantity : option Z;
  ln_discount : option Z
}.

Record CreateBillWithItemsPayload : Type := mkCreateBillWithItemsPayload {
  p_studentId : Z;
  p_departmentId : Z;
  p_name : string;
  p_dueDate : option string;
  p_items : list BillLine;
  p_note : option string
}.

Record Bill : Type := mkBill {
  b_id : Z;
  b_name : string;
  b_studentId : Z;
  b_departmentId : Z;
  b_totalAmount : Z;
  b_dueDate : option string;
  b_note : option string
}.

(** The body of the loop of [createBillWithItems] for one item. *)
Definition add_line (billId : Z) (item : BillLine) (totalAmount : Z) : M Z :=
  let itemAmount := or_default (ln_amount item) 0 in
  let quantity := or_default (ln_quantity item) 1 in
  let discount := or_default (ln_discount item) 0 in
  sql_insert "bill_item_relations"
    [ ("billId", VNum billId); ("billItemId", VNum (ln_billItemId item));
      ("amount", VNum itemAmount); ("quantity", VNum quantity);
      ("discount", VNum discount) ] ;;;
  ret (totalAmount + (itemAmount * quantity - discount)).

Definition createBillWithItems (bill : CreateBillWithItemsPayload) : M Bill :=
  try_catch
    (BEGIN_TRANSACTION ;;;
     billId <-
       sql_insert "bills"
         [ ("name", VText (p_name bill)); ("studentId", VNum (p_studentId bill));
           ("departmentId", VNum (p_departmentId bill));
           ("totalAmount", VNum 0);
           ("dueDate", text_or_null (p_dueDate bill));
           ("note", text_or_null (p_note bill)) ] ;;
     totalAmount <- for_of (p_items bill) (add_line billId) 0 ;;
     sql_update "bills" [ ("totalAmount", VNum totalAmount) ] (id_is billId) ;;;
     COMMIT ;;;
     ret (mkBill billId (p_name bill) (p_studentId bill) (p_departmentId bill)
                 totalAmount (p_dueDate bill) (p_note bill)))
    (fun error => ROLLBACK ;;; throw error).

(** [getBillById] *)
Definition getBillById (id : Z) : M (option row) :=
  try_catch (getFirstAsync "bills" (id_is id)) (fun error => throw error).

(** ** [src/lib/operations/students.ts]: [searchStudents] *)

Inductive SortOrder : Type := asc | desc.

Record SearchOptions : Type := mkSearchOptions {
  so_query : string;
  so_fields : list string;
  (** [Record<string, any>]: [None] is [undefined], [VNull] is [null] *)
  so_filters : option (list (string * option value));
  so_sortBy : option string;
  so_sortOrder : option SortOrder
}.

Record PaginationOptions : Type := mkPaginationOptions {
  page : Z;
  pageSize : Z
}.

Record SearchStudentsOptions : Type := mkSearchStudentsOptions {
  searchOptions : option SearchOptions;
  pagination : option PaginationOptions;
  includeInactive : option bool
}.

Record PaginatedResult : Type := mkPaginatedResult {
  data : list row;
  total : Z;
  pr_page : Z;
  pr_pageSize : Z;
  totalPages : jsnum
}.

(** The entries of [whereConditions]; each carries its bound parameter. *)
Inductive condition : Type :=
| IsActive                                  (* isActive = 1 *)
| LikeAny (likeParam : string)              (* firstname LIKE ? OR ... *)
| FieldEquals (field : string) (v : value). (* field = ? *)

Definition is_space (c : ascii) : bool :=
  let n := nat_of_ascii c in
  (Nat.eqb n 32 || (Nat.leb 9 n && Nat.leb n 13))%bool.

Fixpoint trim_start (s : string) : string :=
  match s with
  | EmptyString => EmptyString
  | String c s' => if is_space c then trim_start s' else s
  end.

Fixpoint trim_end (s : string) : string :=
  match s with
  | EmptyString => EmptyString
  | String c s' =>
      match trim_end s' with
      | EmptyString => if is_space c then EmptyString else String c EmptyString
      | t => String c t
      end
  end.

(** [s.trim()], on ASCII white space *)
Definition trim (s : string) : string := trim_end (trim_start s).

Definition truthy (s : string) : bool :=
  match s with EmptyString => false | _ => true end.

(** SQLite's [LIKE]: [%] is any run of characters, [_] any one character,
    letters match without regard to ASCII case. *)
Fixpoint like (p t : string) : bool :=
  match p with
  | EmptyString => negb (truthy t)
  | String c p' =>
      if Ascii.eqb c "%" then
        (fix star (u : string) : bool :=
           like p' u || match u with
                        | EmptyString => false
                        | String _ u' => star u'
                        end) t
      else
        match t with
        | EmptyString => false
        | String d t' =>
            (Ascii.eqb c "_" || Ascii.eqb (lower c) (lower d)) && like p' t'
        end
  end.

Definition like_value (p : string) (v : value) : bool :=
  match v with
  | VText s => like p s
  | VNum n => like p (string_of_Z n)
  | VNull => false
  end.

Definition buildSearchConditions (so : SearchOptions) : list condition :=
  ((if truthy (so_query so) && truthy (trim (so_query so))
    then [LikeAny ("%" ++ trim (so_query so) ++ "%")] else [])
   ++ match so_filters so with
      | Some filters =>
          flat_map
            (fun fv =>
               match snd fv with
               | None | Some VNull | Some (VText "") => []
               | Some v => [FieldEquals (fst fv) v]
               end)
            filters
      | None => []
      end)%list.

Definition holds (c : condition) (r : row) : bool :=
  match c with
  | IsActive => sql_eq (col r "isActive") (VNum 1)
  | LikeAny p =>
      like_value p (col r "firstname") || like_value p (col r "othernames")
      || like_value p (col r "phone") || like_value p (col r "address")
  | FieldEquals f v => sql_eq (col r f) v
  end.

Definition known_column (s : tschema) (c : string) : bool :=
  existsb (fun k => ieq (c_name k) c) (ts_cols s).

Definition unknown_field (s : tschema) (conds : list condition)
  : option string :=
  match find (fun c => match c with
                       | FieldEquals f _ => negb (known_column s f)
                       | _ => false
                       end) conds with
  | Some (FieldEquals f _) => Some f
  | _ => None
  end.

(** The order of SQLite on stored values: NULL, then numbers, then text. *)
Definition value_leb (a b : value) : bool :=
  match a, b with
  | VNull, _ => true
  | _, VNull => false
  | VNum x, VNum y => x <=? y
  | VNum _, VText _ => true
  | VText _, VNum _ => false
  | VText x, VText y => String.leb x y
  end.

Definition before (c : string) (o : SortOrder) (r r' : row) : bool :=
  match o with
  | asc => value_leb (col r c) (col r' c)
  | desc => value_leb (col r' c) (col r c)
  end.

Fixpoint insert_sorted (le : row -> row -> bool) (r : row) (l : list row)
  : list row :=
  match l with
  | [] => [r]
  | h :: l' => if le r h then r :: l else h :: insert_sorted le r l'
  end.

(** [ORDER BY c o]; rows with equal keys stay in rowid order. *)
Definition order_by (c : string) (o : SortOrder) (l : list row) : list row :=
  fold_right (insert_sorted (before c o)) [] l.

(** [LIMIT ? OFFSET ?]: a negative limit is no limit, a negative offset is
    no offset. *)
Definition limit_offset (limit offset : Z) (l : list row) : list row :=
  let rest := skipn (Z.to_nat offset) l in
  if limit <? 0 then rest else firstn (Z.to_nat limit) rest.

(** [SELECT * FROM students WHERE ... ORDER BY ... LIMIT ? OFFSET ?] *)
Definition select_students (conds : list condition)
           (order : option (string * SortOrder)) (lim : option (Z * Z))
  : M (list row) :=
  fun db =>
    match find_table "students" (tables db) with
    | None => (Err (no_such_table "students"), db)
    | Some t =>
        match unknown_field (t_schema t) conds with
        | Some f => (Err ("no such column: " ++ f), db)
        | None =>
            let matching :=
              filter (fun r => forallb (fun c => holds c r) conds) (t_rows t) in
            match order with
            | Some (c, o) =>
                if known_column (t_schema t) c then
                  (Ok (match lim with
                       | Some (l, off) => limit_offset l off (order_by c o matching)
                       | None => order_by c o matching
                       end), db)
                else (Err ("no such column: " ++ c), db)
            | None =>
                (Ok (match lim with
                     | Some (l, off) => limit_offset l off matching
                     | None => matching
                     end), db)
            end
        end
    end.

(** [SELECT COUNT( * ) as total FROM students WHERE ...] *)
Definition count_students (conds : list condition) : M Z :=
  rs <- select_students conds None None ;;
  ret (Z.of_nat (List.length rs)).

Definition searchStudents (options : SearchStudentsOptions)
  : M PaginatedResult :=
  try_catch
    (let whereConditions :=
       ((match includeInactive options with
         | Some true => []
         | _ => [IsActive]
         end)
        ++ match searchOptions options with
           | Some so =>
               if truthy (so_query so) then buildSearchConditions so else []
           | None => []
           end)%list in
     let order :=
       match searchOptions options with
       | Some so =>
           match so_sortBy so with
           | Some c =>
               if truthy c
               then Some (c, match so_sortOrder so with
                             | Some o => o
                             | None => asc
                             end)
               else None
           | None => None
           end
       | None => None
       end in
     match pagination options with
     | Some p =>
         let offset := (page p - 1) * pageSize p in
         students <-
           select_students whereConditions order (Some (pageSize p, offset)) ;;
         total <- count_students whereConditions ;;
         ret (mkPaginatedResult students total (page p) (pageSize p)
                                (ceil_div total (pageSize p)))
     | None =>
         students <- select_students whereConditions order None ;;
         ret (mkPaginatedResult students (Z.of_nat (List.length students)) 1
                                (Z.of_nat (List.length students)) (JNum 1))
     end)
    (fun error => throw error).

(** ** Notions used in the statements *)

(** The connection apart from the tables. *)
Definition same_connection (db db' : DB) : Prop :=
  txn db' = txn db /\ foreign_keys db' = foreign_keys db
  /\ user_version db' = user_version db /\ now db' = now db.

(** [db] is inside the transaction that [BEGIN TRANSACTION] opened on
    [db0]. *)
Definition in_transaction_of (db0 db : DB) : Prop :=
  txn db = Some (tables db0) /\ foreign_keys db = foreign_keys db0
  /\ user_version db = user_version db0 /\ now db = now db0.

(** The state after [COMMIT]. *)
Definition committed (db : DB) : DB :=
  mkDB (tables db) None (foreign_keys db) (user_version db) (now db).

(** The final state of a call. *)
Definition exec {A} (m : M A) (db : DB) : DB := snd (m db).

(** The row carries exactly the columns of the table definition. *)
Definition conforms (s : tschema) (r : row) : Prop :=
  map fst r = map c_name (ts_cols s).

(** [SELECT cs FROM ...]: the row restricted to the columns [cs]. *)
Definition project (cs : list string) (r : row) : row :=
  map (fun c => (c, col r c)) cs.

Definition sum_over {A} (f : A -> Z) (l : list A) : Z :=
  fold_right (fun x acc => f x + acc) 0 l.

(** *** Bills *)

(** What [createBillWithItems] adds to the total for one line. *)
Definition line_total (item : BillLine) : Z :=
  or_default (ln_amount item) 0 * or_default (ln_quantity item) 1
  - or_default (ln_discount item) 0.

(** The line total in the words of the specification:
    amount x quantity - discount, where a missing amount is 0, a missing
    quantity is 1 and a missing discount is 0. *)
Definition specified_line_total (item : BillLine) : Z :=
  nullish (ln_amount item) 0 * nullish (ln_quantity item) 1
  - nullish (ln_discount item) 0.

(** *** Enrollment *)

(** The number of distinct student ids that have an entry in [errors]. *)
Definition distinct_error_ids (r : BulkEnrollmentResult) : nat :=
  List.length (nodup Z.eq_dec (map studentId (errors r))).

(** One more success. *)
Definition enrolled (result : BulkEnrollmentResult) : BulkEnrollmentResult :=
  mkBulkEnrollmentResult (successCount result + 1) (errors result).

(** The entry of [errors] that a second, identical call of [bulkEnroll]
    reports for a student id. *)
Definition second_call_error (db : DB) (sid : Z) : StudentError :=
  mkStudentError sid
    (if has_rowid (rows "students" db) (VNum sid)
     then "Already enrolled" else "Student not found").

(** Idempotence in the words of the specification: after a first call
    that returned, the same call again returns [successCount = 0] and an
    "Already enrolled" entry for every id. *)
Definition second_call_all_already_enrolled (d : Z) (ids : list Z) (db : DB)
  : Prop :=
  forall r1 db1,
    bulkEnroll d ids db = (Ok r1, db1) ->
    exists r2 db2,
      bulkEnroll d ids db1 = (Ok r2, db2)
      /\ successCount r2 = 0
      /\ forall sid, In sid ids ->
                     In (mkStudentError sid "Already enrolled") (errors r2).

(** The [SET] list of [unenrollStudent]. *)
Definition withdrawal (db : DB) : list (string * value) :=
  [ ("isActive", VNum 0); ("status", VText "withdrawn");
    ("updatedAt", VText (now db)) ].

(** *** Departments *)

(** The columns bound by [addBillItem], and the values bound for one entry
    of a department's [billItems]. *)
Definition supplied_columns : list string :=
  ["name"; "amount"; "departmentId"; "description"; "category"; "isRequired"].

Definition supplied_values (id : Z) (item : DepartmentBillItem)
  : list (string * value) :=
  [ ("name", VText (di_name item));
    ("amount", VNum (di_amount item));
    ("departmentId", VNum id);
    ("description", text_nullish (di_description item));
    ("category", text_nullish (di_category item));
    ("isRequired", bool_nullish (di_isRequired item)) ].

Definition other_department (id : Z) (r : row) : bool :=
  negb (departmentId_is id r).

(** *** Search *)

(** The same search without its [pagination]. *)
Definition without_pagination (options : SearchStudentsOptions)
  : SearchStudentsOptions :=
  mkSearchStudentsOptions (searchOptions options) None
                          (includeInactive options).

(** The boundary rule in the words of the specification: a search whose
    pagination has [pageSize = 0] or [page = 0] fails. *)
Definition rejects_invalid_pagination (options : SearchStudentsOptions)
           (db : DB) : Prop :=
  forall p, pagination options = Some p ->
            pageSize p = 0 \/ page p = 0 ->
            exists e, fst (searchStudents options db) = Err e.

(** ** A small school, set up with the operations themselves

    One department (id 1) with the bill items Tuition (id 1, amount 100) and
    Books (id 2, amount 20), and two students (ids 1 and 2). *)

Definition opened_db : DB :=
  Eval vm_compute in exec initDatabase (new_database "2025-01-01 00:00:00").

Definition school_db : DB :=
  Eval vm_compute in
    exec (addStudent (mkStudent None "Esi" "Owusu" "0200000002" "Tema" None))
      (exec (addStudent
               (mkStudent None "Kofi" "Mensah" "0200000001" "Accra" None))
         (exec (addBillItem (mkNewBillItem "Books" 20 1 None None None))
            (exec (addBillItem (mkNewBillItem "Tuition" 100 1 None None None))
               (exec (addDepartment
                        (mkDepartment None "D" "Term1" "2025" None None None
                                      None))
                  opened_db)))).

(** Both students enrolled in the department. *)
Definition enrolled_db : DB :=
  Eval vm_compute in exec (bulkEnroll 1 [1; 2]) school_db.

(** Student 2 enrolled in the department. *)
Definition partly_enrolled_db : DB :=
  Eval vm_compute in exec (bulkEnroll 1 [2]) school_db.

(** Student 1 enrolled after student 2. *)
Definition later_enrolled_db : DB :=
  Eval vm_compute in exec (bulkEnroll 1 [1; 2; 7]) partly_enrolled_db.

(** The school after [bulkEnroll 1 [1; 7; 2]], student 7 not existing. *)
Definition enrolled_around_7_db : DB :=
  Eval vm_compute in exec (bulkEnroll 1 [1; 7; 2]) school_db.

(** A bill for student 1 whose single line has quantity 0. *)
Definition zero_quantity_bill : CreateBillWithItemsPayload :=
  mkCreateBillWithItemsPayload 1 1 "Term1" None
    [mkBillLine 1 (Some 100) (Some 0) None] None.

(** A bill whose second line names a bill item that does not exist. *)
Definition dangling_item_bill : CreateBillWithItemsPayload :=
  mkCreateBillWithItemsPayload 1 1 "Term1" None
    [mkBillLine 1 (Some 100) None None; mkBillLine 9 (Some 5) None None] None.

(** An update of department 1 that supplies one bill item. *)
Definition lab_update : Department :=
  mkDepartment (Some 1) "D" "Term2" "2025" None None None
    (Some [mkDepartmentBillItem "Lab" 50 None None (Some true)]).

Definition lab_updated_db : DB :=
  Eval vm_compute in exec (updateDepartment lab_update) enrolled_db.

(** Searches with a page size of 0 and with a page number of 0. *)
Definition page_size_zero : SearchStudentsOptions :=
  mkSearchStudentsOptions None (Some (mkPaginationOptions 1 0)) None.

Definition page_zero : SearchStudentsOptions :=
  mkSearchStudentsOptions None (Some (mkPaginationOptions 0 1)) None.


(** * Further operations of the data layer *)

(** [SELECT * FROM n WHERE cond ORDER BY c o] *)
Definition sql_select_ordered (n : string) (cond : row -> bool) (c : string)
           (o : SortOrder) : M (list row) :=
  fun db =>
    match find_table n (tables db) with
    | None => (Err (no_such_table n), db)
    | Some t =>
        if known_column (t_schema t) c
        then (Ok (order_by c o (filter cond (t_rows t))), db)
        else (Err ("no such column: " ++ c), db)
    end.

Definition every_row (_ : row) : bool := true.

(** [x || null] on an optional number, as a bound parameter. *)
Definition number_or_null (x : option Z) : value :=
  match x with
  | None | Some 0 => VNull
  | Some n => VNum n
  end.

(** [name LIKE ?] with the parameter [`%${searchTerm}%`] *)
Definition name_like (searchTerm : string) (r : row) : bool :=
  like_value ("%" ++ searchTerm ++ "%") (col r "name").

(** ** [src/lib/operations/students.ts] *)

Definition getAllStudents : M (list row) :=
  try_catch (sql_select_ordered "students" every_row "firstname" asc)
            (fun error => throw error).

Definition getStudentById (id : Z) : M (option row) :=
  try_catch (getFirstAsync "students" (id_is id)) (fun error => throw error).

(** [student.status || 'active'] *)
Definition status_or_active (student : Student) : string :=
  match s_status student with
  | None | Some "" => "active"
  | Some st => st
  end.

Definition student_assignments (student : Student) : list (string * value) :=
  [ ("firstname", VText (s_firstname student));
    ("othernames", VText (s_othernames student));
    ("phone", VText (s_phone student));
    ("address", VText (s_address student));
    ("status", VText (status_or_active student)) ].

Definition updateStudent (student : Student) : M bool :=
  try_catch
    (match s_id student with
     | None | Some 0 => throw "Student ID is required for update"
     | Some id =>
         changes <- sql_update "students" (student_assignments student)
                               (id_is id) ;;
         ret (0 <? changes)
     end)
    (fun error => throw error).

(** [deleteStudent]: the soft delete. *)
Definition deleteStudent (id : Z) : M bool :=
  try_catch
    (changes <- sql_update "students" [ ("isActive", VNum 0) ] (id_is id) ;;
     ret (0 <? changes))
    (fun error => throw error).

(** ** [lib/operations/departments.ts] *)

Definition getAllDepartments : M (list row) :=
  try_catch (sql_select_ordered "departments" every_row "name" asc)
            (fun error => throw error).

Definition getDepartmentById (id : Z) : M (option row) :=
  try_catch (getFirstAsync "departments" (id_is id))
            (fun error => throw error).

(** [deleteDepartment]: the hard delete. *)
Definition deleteDepartment (id : Z) : M bool :=
  try_catch
    (changes <- sql_delete "departments" (id_is id) ;;
     ret (0 <? changes))
    (fun error => throw error).

Definition searchDepartments (searchTerm : string) : M (list row) :=
  try_catch
    (sql_select_ordered "departments" (name_like searchTerm) "name" asc)
    (fun error => throw error).

Record CreateDepartmentPayload : Type := mkCreateDepartmentPayload {
  cp_name : string;
  cp_term : string;
  cp_year : string;
  cp_description : option string;
  cp_startDate : option string;
  cp_endDate : option string;
  cp_billItems : option (list DepartmentBillItem)
}.

Record DepartmentWithBillItems : Type := mkDepartmentWithBillItems {
  dw_id : Z;
  dw_name : string;
  dw_term : string;
  dw_year : string;
  dw_description : option string;
  dw_startDate : option string;
  dw_endDate : option string;
  dw_billItems : list BillItem;
  dw_totalAmount : Z
}.

(** The body of the loop of [createDepartment] for one bill item:
    [billItems.push(billItem); totalAmount += item.amount]. *)
Definition create_department_item (departmentId : Z)
           (item : DepartmentBillItem) (acc : list BillItem * Z)
  : M (list BillItem * Z) :=
  billItem <-
    addBillItem
      (mkNewBillItem (di_name item) (di_amount item) departmentId
                     (di_description item) (di_category item)
                     (di_isRequired item)) ;;
  ret ((fst acc ++ [billItem])%list, snd acc + di_amount item).

Definition createDepartment (department : CreateDepartmentPayload)
  : M DepartmentWithBillItems :=
  BEGIN_TRANSACTION ;;;
  try_catch
    ((* 1. Create department *)
     departmentId <-
       sql_insert "departments"
         [ ("name", VText (cp_name department));
           ("term", VText (cp_term department));
           ("year", VText (cp_year department));
           ("description", text_nullish (cp_description department));
           ("startDate", text_nullish (cp_startDate department));
           ("endDate", text_nullish (cp_endDate department)) ] ;;
     (* 2. Create bill items if provided *)
     created <-
       match cp_billItems department with
       | Some (item :: items) =>
           for_of (item :: items) (create_department_item departmentId)
                  ([], 0)
       | _ => ret ([], 0)
       end ;;
     COMMIT ;;;
     ret (mkDepartmentWithBillItems departmentId (cp_name department)
            (cp_term department) (cp_year department)
            (cp_description department) (cp_startDate department)
            (cp_endDate department) (fst created) (snd created)))
    (fun error => ROLLBACK ;;; throw error).




(** ** [lib/operations/bill-items.ts] *)

Definition getAllBillItems : M (list row) :=
  try_catch (sql_select_ordered "bill_items" every_row "name" asc)
            (fun error => throw error).

Definition getBillItemById (id : Z) : M (option row) :=
  try_catch (getFirstAsync "bill_items" (id_is id)) (fun error => throw error).

Record BillItemUpdate : Type := mkBillItemUpdate {
  bu_id : Z;
  bu_name : string;
  bu_amount : Z;
  bu_departmentId : Z;
  bu_description : option string;
  bu_category : option string;
  bu_isRequired : option bool;
  bu_isActive : option bool
}.

Definition bill_item_assignments (billItem : BillItemUpdate)
  : list (string * value) :=
  [ ("name", VText (bu_name billItem));
    ("amount", VNum (bu_amount billItem));
    ("departmentId", VNum (bu_departmentId billItem));
    ("description", text_nullish (bu_description billItem));
    ("category", text_nullish (bu_category billItem));
    ("isRequired", bool_nullish (bu_isRequired billItem));
    ("isActive", bool_nullish (bu_isActive billItem)) ].

(** [updateBillItem] returns its argument, whatever [changes] is. *)
Definition updateBillItem (billItem : BillItemUpdate) : M BillItemUpdate :=
  try_catch
    (sql_update "bill_items" (bill_item_assignments billItem)
                (id_is (bu_id billItem)) ;;;
     ret billItem)
    (fun error => throw error).

(** [deleteBillItem]: a hard delete. *)
Definition deleteBillItem (id : Z) : M unit :=
  try_catch (sql_delete "bill_items" (id_is id) ;;; ret tt)
            (fun error => throw error).

Definition searchBillItems (searchTerm : string) : M (list row) :=
  try_catch
    (sql_select_ordered "bill_items" (name_like searchTerm) "name" asc)
    (fun error => throw error).



Record NewBillItemRelation : Type := mkNewBillItemRelation {
  nr_billId : Z;
  nr_billItemId : Z;
  nr_amount : option Z
}.

Record BillItemRelation : Type := mkBillItemRelation {
  br_id : Z;
  br_billId : Z;
  br_billItemId : Z;
  br_amount : Z
}.

Definition addBillItemRelation (relation : NewBillItemRelation)
  : M BillItemRelation :=
  try_catch
    (let amount := nullish (nr_amount relation) 0 in
     lastInsertRowId <-
       sql_insert "bill_item_relations"
         [ ("billId", VNum (nr_billId relation));
           ("billItemId", VNum (nr_billItemId relation));
           ("amount", VNum amount) ] ;;
     ret (mkBillItemRelation lastInsertRowId (nr_billId relation)
                             (nr_billItemId relation) amount))
    (fun error => throw error).

Definition getAllBillItemRelations : M (list row) :=
  try_catch (sql_select_ordered "bill_item_relations" every_row "billId" asc)
            (fun error => throw error).

Definition getBillItemRelationById (id : Z) : M (option row) :=
  try_catch (getFirstAsync "bill_item_relations" (id_is id))
            (fun error => throw error).

(** ** [src/lib/operations/bills.ts] *)

Definition getAllBills : M (list row) :=
  try_catch (sql_select_ordered "bills" every_row "name" asc)
            (fun error => throw error).

(** The [Bill] objects that [updateBill] receives. *)
Record BillData : Type := mkBillData {
  bd_id : option Z;
  bd_name : string;
  bd_studentId : Z;
  bd_departmentId : Z;
  bd_totalAmount : Z;
  bd_dueDate : option string;
  bd_status : option string;
  bd_discount : option Z;
  bd_note : option string
}.

Definition bill_assignments (bill : BillData) : list (string * value) :=
  [ ("name", VText (bd_name bill));
    ("studentId", VNum (bd_studentId bill));
    ("departmentId", VNum (bd_departmentId bill));
    ("totalAmount", VNum (bd_totalAmount bill));
    ("dueDate", text_or_null (bd_dueDate bill));
    ("status", text_or_null (bd_status bill));
    ("discount", number_or_null (bd_discount bill));
    ("note", text_or_null (bd_note bill)) ].

Definition updateBill (bill : BillData) : M bool :=
  try_catch
    (match bd_id bill with
     | None | Some 0 => throw "Bill ID is required for update"
     | Some id =>
         changes <- sql_update "bills" (bill_assignments bill) (id_is id) ;;
         ret (0 <? changes)
     end)
    (fun error => throw error).

(** [deleteBill]: a hard delete. *)
Definition deleteBill (id : Z) : M bool :=
  try_catch
    (changes <- sql_delete "bills" (id_is id) ;;
     ret (0 <? changes))
    (fun error => throw error).

Definition searchBills (searchTerm : string) : M (list row) :=
  try_catch (sql_select_ordered "bills" (name_like searchTerm) "name" asc)
            (fun error => throw error).

Definition getBillsByStudentId (studentId : Z) : M (list row) :=
  try_catch
    (getAllAsync "bills"
       (fun r => sql_eq (col r "studentId") (VNum studentId)))
    (fun error => throw error).

(** ** [src/lib/operations/enrollments.ts]: [getStudentDepartments] *)

Definition getStudentDepartments (studentId : Z) : M (list row) :=
  sql_select_join "departments" "student_departments"
    (fun d sd => sql_eq (col d "id") (col sd "departmentId"))
    (fun _ sd => sql_eq (col sd "studentId") (VNum studentId)
                 && sql_eq (col sd "isActive") (VNum 1)).

(** ** [src/lib/db/schema.ts]: the query builders *)

Record BuiltQuery : Type := mkBuiltQuery {
  bq_text : string;
  bq_params : list value
}.

(** [parts.join(sep)] *)
Definition join (sep : string) (parts : list string) : string :=
  String.concat sep parts.

(** The loop of [buildFilter] over [Object.entries(criteria)]; a value of
    [None] is [undefined]. *)
Fixpoint filter_parts (exclude : list string)
         (criteria : list (string * option value))
  : list string * list value :=
  match criteria with
  | [] => ([], [])
  | (key, v) :: rest =>
      let (whereParts, params) := filter_parts exclude rest in
      if existsb (String.eqb key) exclude then (whereParts, params)
      else match v with
           | Some x => ((key ++ " = ?") :: whereParts, x :: params)
           | None => (whereParts, params)
           end
  end.

Definition default_exclude : list string := ["id"; "createdAt"; "updatedAt"].

(** [buildFilter]: [bq_text] is [whereClause]. *)
Definition buildFilter (criteria : list (string * option value))
           (exclude : list string) : BuiltQuery :=
  let (whereParts, params) := filter_parts exclude criteria in
  mkBuiltQuery
    (match whereParts with
     | [] => ""
     | _ => "WHERE " ++ join " AND " whereParts
     end)
    params.

Record PaginatedQuery : Type := mkPaginatedQuery {
  paginatedQuery : string;
  countQuery : string;
  pq_params : list value
}.

Definition applyPagination (query : string) (p : PaginationOptions)
           (totalCountQuery : string) : PaginatedQuery :=
  let offset := (page p - 1) * pageSize p in
  mkPaginatedQuery (query ++ " LIMIT ? OFFSET ?") totalCountQuery
                   [VNum (pageSize p); VNum offset].

Definition sort_order_text (o : SortOrder) : string :=
  match o with asc => "asc" | desc => "desc" end.

(** [buildSearchQuery]: [bq_text] is [searchQuery]. *)
Definition buildSearchQuery (so : SearchOptions) (baseQuery : string)
  : BuiltQuery :=
  let search :=
    if truthy (so_query so) && negb (Nat.eqb (List.length (so_fields so)) 0)
    then ([ "(" ++ join " OR " (map (fun field => field ++ " LIKE ?")
                                    (so_fields so)) ++ ")" ],
          repeat (VText ("%" ++ so_query so ++ "%"))
                 (List.length (so_fields so)))
    else ([], []) in
  let filters :=
    match so_filters so with
    | Some entries => filter_parts [] entries
    | None => ([], [])
    end in
  let conditions := (fst search ++ fst filters)%list in
  let params := (snd search ++ snd filters)%list in
  let whereClause :=
    match conditions with
    | [] => ""
    | _ => "WHERE " ++ join " AND " conditions
    end in
  let orderClause :=
    match so_sortBy so with
    | None | Some "" => ""
    | Some sortBy =>
        "ORDER BY " ++ sortBy ++ " "
          ++ match so_sortOrder so with
             | Some o => sort_order_text o
             | None => "ASC"
             end
    end in
  mkBuiltQuery (baseQuery ++ " " ++ whereClause ++ " " ++ orderClause) params.

(** ** Further notions used in the statements *)

(** The number of [?] placeholders of a statement. *)
Fixpoint placeholders (s : string) : nat :=
  match s with
  | EmptyString => 0
  | String c s' => (if Ascii.eqb c "?" then 1 else 0) + placeholders s'
  end.


(** The ids of some rows, and the rows whose column [c] holds one of some
    ids. *)
Definition ids_of (rs : list row) : list value :=
  map (fun r => col r "id") rs.

Definition refers (c : string) (ids : list value) (r : row) : bool :=
  existsb (sql_eq (col r c)) ids.

Definition not_referring (c : string) (ids : list value) (r : row) : bool :=
  negb (refers c ids r).

Definition column_is (c : string) (i : Z) (r : row) : bool :=
  sql_eq (col r c) (VNum i).

Definition column_is_not (c : string) (i : Z) (r : row) : bool :=
  negb (column_is c i r).





(** The UPDATE of [updateBillItem] is refused: a bill item has the id, the
    connection enforces foreign keys, and no department has the
    [departmentId] given. *)
Definition update_blocked (billItem : BillItemUpdate) (db : DB) : bool :=
  has_rowid (rows "bill_items" db) (VNum (bu_id billItem))
  && foreign_keys db
  && negb (has_rowid (rows "departments" db)
                     (VNum (bu_departmentId billItem))).

(** The tables [ns] hold the same rows in [db'] as in [db]. *)
Definition unchanged (ns : list string) (db db' : DB) : Prop :=
  Forall (fun n => rows n db' = rows n db) ns.

(** The parameters that [addBillItem] binds. *)
Definition bill_item_values (billItem : NewBillItem) : list (string * value) :=
  [ ("name", VText (nb_name billItem));
    ("amount", VNum (nb_amount billItem));
    ("departmentId", VNum (nb_departmentId billItem));
    ("description", text_nullish (nb_description billItem));
    ("category", text_nullish (nb_category billItem));
    ("isRequired", bool_nullish (nb_isRequired billItem)) ].





(** The message of a refused foreign key. *)
Definition foreign_key_failed : string := "FOREIGN KEY constraint failed".

(** The UPDATE of [updateBill] is refused: a bill has the id, the connection
    enforces foreign keys, and the student or the department given does not
    exist. *)
Definition bill_update_blocked (bill : BillData) (id : Z) (db : DB) : bool :=
  has_rowid (rows "bills" db) (VNum id)
  && foreign_keys db
  && negb (has_rowid (rows "students" db) (VNum (bd_studentId bill))
           && has_rowid (rows "departments" db) (VNum (bd_departmentId bill))).

(** [l] lists the rows of table [n] in ascending order of column [c]. *)
Definition listing (n c : string) (db : DB) (l : list row) : Prop :=
  Permutation l (rows n db)
  /\ Sorted (fun a b => value_leb (col a c) (col b c) = true) l.

(** No row of table [n] has a NULL [name]. *)
Definition names_present (n : string) (db : DB) : Prop :=
  Forall (fun r => col r "name" <> VNull) (rows n db).
(** ** Further sample data *)



(** The students that [getEnrollmentsByDepartment 1] lists once both are
    enrolled. *)
Definition enrolled_students : list row :=
  Eval vm_compute in
    match fst (getEnrollmentsByDepartment 1 enrolled_db) with
    | Ok l => l
    | Err _ => []
    end.

(** A bill of student 1 with two lines, and the school once it is
    stored. *)
Definition term_bill : CreateBillWithItemsPayload :=
  mkCreateBillWithItemsPayload 1 1 "Term1" None
    [mkBillLine 1 (Some 100) None None; mkBillLine 2 (Some 20) (Some 2) None]
    None.

Definition billed_db : DB :=
  Eval vm_compute in exec (createBillWithItems term_bill) enrolled_db.

(** The school inside an open transaction that has added a student. *)
Definition open_transaction_db : DB :=
  Eval vm_compute in
    exec (addStudent (mkStudent None "Yaw" "Darko" "0200000004" "Ho" None))
         (exec BEGIN_TRANSACTION school_db).



(** * Properties of the model *)

Open Scope list_scope.

(** ** Lists *)

Lemma hd_error_filter_existsb {A} (f : A -> bool) (l : list A) :
  hd_error (filter f l) = None <-> existsb f l = false.
Proof.
  induction l as [|a l IH]; simpl; [tauto|].
  destruct (f a); simpl; [split; discriminate | exact IH].
Qed.

Lemma hd_error_filter_some {A} (f : A -> bool) (l : list A) (a : A) :
  hd_error (filter f l) = Some a -> existsb f l = true.
Proof.
  intros H. destruct (existsb f l) eqn:E; [reflexivity|].
  apply hd_error_filter_existsb in E. congruence.
Qed.

Lemma first_row_exists (cond : row -> bool) (rs : list row) :
  existsb cond rs = true -> exists r, hd_error (filter cond rs) = Some r.
Proof.
  intros H. destruct (hd_error (filter cond rs)) as [r|] eqn:E; [eauto|].
  apply hd_error_filter_existsb in E. congruence.
Qed.

Lemma existsb_pointwise {A} (f g : A -> bool) (l : list A) :
  (forall a, f a = g a) -> existsb f l = existsb g l.
Proof.
  intros H. induction l as [|a l IH]; simpl; [reflexivity|].
  now rewrite H, IH.
Qed.

Lemma existsb_map_same {A} (f : A -> bool) (g : A -> A) (l : list A) :
  (forall a, f (g a) = f a) -> existsb f (map g l) = existsb f l.
Proof.
  intros H. induction l as [|a l IH]; simpl; [reflexivity|].
  now rewrite H, IH.
Qed.

Lemma filter_filter_negb {A} (f : A -> bool) (l : list A) :
  filter f (filter (fun a => negb (f a)) l) = [].
Proof.
  induction l as [|a l IH]; simpl; [reflexivity|].
  destruct (f a) eqn:E; simpl; [exact IH | now rewrite E].
Qed.

Lemma filter_idempotent {A} (f : A -> bool) (l : list A) :
  filter f (filter f l) = filter f l.
Proof.
  induction l as [|a l IH]; simpl; [reflexivity|].
  destruct (f a) eqn:E; simpl; [rewrite E; now f_equal | exact IH].
Qed.

Lemma filter_all {A} (f : A -> bool) (l : list A) :
  forallb f l = true ->
  filter f l = l /\ filter (fun a => negb (f a)) l = [].
Proof.
  induction l as [|a l IH]; simpl; [now split|].
  intros H. apply andb_true_iff in H. destruct H as (Ha & Hl).
  rewrite Ha. simpl. destruct (IH Hl) as (-> & ->). now split.
Qed.

Lemma find_pointwise {A} (f g : A -> bool) (l : list A) :
  (forall a, In a l -> f a = g a) -> find f l = find g l.
Proof.
  induction l as [|a l IH]; simpl; intros H; [reflexivity|].
  rewrite (H a) by now left.
  destruct (g a); [reflexivity|]. apply IH. intros x Hx. apply H. now right.
Qed.

Lemma map_if_none {A} (f : A -> bool) (g : A -> A) (l : list A) :
  filter f l = [] -> map (fun a => if f a then g a else a) l = l.
Proof.
  induction l as [|a l IH]; simpl; [reflexivity|].
  destruct (f a); [discriminate|]. intros H. now rewrite IH.
Qed.

Lemma sum_over_pointwise {A} (f g : A -> Z) (l : list A) :
  (forall a, In a l -> f a = g a) -> sum_over f l = sum_over g l.
Proof.
  induction l as [|a l IH]; simpl; intros H; [reflexivity|].
  rewrite (H a) by now left. rewrite IH; [reflexivity|].
  intros x Hx. apply H. now right.
Qed.

(** ** Names *)

Lemma ieq_lowercase (a b : string) :
  ieq a b = true <-> lowercase a = lowercase b.
Proof. unfold ieq. apply String.eqb_eq. Qed.

Lemma ieq_refl (a : string) : ieq a a = true.
Proof. apply ieq_lowercase. reflexivity. Qed.

Lemma ieq_sym (a b : string) : ieq a b = ieq b a.
Proof. unfold ieq. apply String.eqb_sym. Qed.

Lemma ieq_trans (a b c : string) :
  ieq a b = true -> ieq b c = true -> ieq a c = true.
Proof.
  rewrite !ieq_lowercase. intros H1 H2. now rewrite H1.
Qed.

Lemma ieq_true_false (a b c : string) :
  ieq a b = true -> ieq a c = false -> ieq b c = false.
Proof.
  intros Hab Hac. destruct (ieq b c) eqn:Hbc; [|reflexivity].
  rewrite (ieq_trans a b c Hab Hbc) in Hac. discriminate.
Qed.

(** ** Tables *)

Lemma find_table_name (n : string) (ts : list table) (t : table) :
  find_table n ts = Some t -> ieq (t_name t) n = true.
Proof. intros H. apply find_some in H. apply H. Qed.

Lemma find_table_In (n : string) (ts : list table) (t : table) :
  find_table n ts = Some t -> In t ts.
Proof. intros H. apply find_some in H. apply H. Qed.

(** Looking a table up is looking its definition up in the catalog. *)
Lemma find_table_catalog (n : string) (ts : list table) :
  option_map t_schema (find_table n ts)
  = find (fun s => ieq (ts_name s) n) (map t_schema ts).
Proof.
  unfold find_table, t_name. induction ts as [|t ts IH]; simpl; [reflexivity|].
  destruct (ieq (ts_name (t_schema t)) n); [reflexivity | exact IH].
Qed.

Lemma initialized_find (db : DB) (n : string) (s : tschema) :
  initialized db ->
  find (fun s => ieq (ts_name s) n) createTablesSQL = Some s ->
  exists t, find_table n (tables db) = Some t /\ t_schema t = s.
Proof.
  unfold initialized. intros Hi Hf.
  pose proof (find_table_catalog n (tables db)) as H.
  rewrite Hi, Hf in H.
  destruct (find_table n (tables db)) as [t|]; [|discriminate].
  exists t. split; [reflexivity|]. simpl in H. congruence.
Qed.

Lemma initialized_find_none (db : DB) (n : string) :
  initialized db ->
  find (fun s => ieq (ts_name s) n) createTablesSQL = None ->
  find_table n (tables db) = None.
Proof.
  unfold initialized. intros Hi Hf.
  pose proof (find_table_catalog n (tables db)) as H.
  rewrite Hi, Hf in H.
  destruct (find_table n (tables db)); [discriminate | reflexivity].
Qed.

Lemma find_set_table_same (n : string) (t t' : table) (ts : list table) :
  find_table n ts = Some t -> ieq (t_name t') n = true ->
  find_table n (set_table t' ts) = Some t'.
Proof.
  unfold find_table, set_table. intros Hf Hn.
  induction ts as [|a ts IH]; simpl in *; [discriminate|].
  destruct (ieq (t_name a) n) eqn:Ea.
  - assert (Hat : ieq (t_name a) (t_name t') = true).
    { apply (ieq_trans _ n); [exact Ea | now rewrite ieq_sym]. }
    rewrite Hat. simpl. now rewrite Hn.
  - destruct (ieq (t_name a) (t_name t')) eqn:Eat; simpl.
    + rewrite (ieq_trans _ _ _ Eat Hn) in Ea. discriminate.
    + rewrite Ea. now apply IH.
Qed.

Lemma find_set_table_other (n : string) (t' : table) (ts : list table) :
  ieq (t_name t') n = false ->
  find_table n (set_table t' ts) = find_table n ts.
Proof.
  unfold find_table, set_table. intros Hn.
  induction ts as [|a ts IH]; simpl; [reflexivity|].
  destruct (ieq (t_name a) (t_name t')) eqn:Eat; simpl.
  - rewrite Hn. rewrite ieq_sym in Eat.
    rewrite (ieq_true_false _ _ _ Eat Hn). exact IH.
  - destruct (ieq (t_name a) n); [reflexivity | exact IH].
Qed.

Lemma set_table_schemas (t' : table) (ts : list table) :
  (forall t, In t ts -> ieq (t_name t) (t_name t') = true ->
             t_schema t = t_schema t') ->
  map t_schema (set_table t' ts) = map t_schema ts.
Proof.
  unfold set_table. induction ts as [|a ts IH]; simpl; intros H;
    [reflexivity|].
  rewrite IH by (intros t Ht; apply H; now right). f_equal.
  destruct (ieq (t_name a) (t_name t')) eqn:E; [|reflexivity].
  symmetry. apply H; [now left | exact E].
Qed.

Lemma catalog_names_distinct (s1 s2 : tschema) :
  In s1 createTablesSQL -> In s2 createTablesSQL ->
  ieq (ts_name s1) (ts_name s2) = true -> s1 = s2.
Proof.
  unfold createTablesSQL. simpl.
  intros H1 H2 E.
  repeat (destruct H1 as [H1|H1]; [|]); try contradiction;
    repeat (destruct H2 as [H2|H2]; [|]); try contradiction;
    subst s1 s2; try reflexivity; vm_compute in E; discriminate E.
Qed.

Lemma initialized_set_table (db : DB) (n : string) (t t' : table) :
  initialized db -> find_table n (tables db) = Some t ->
  t_schema t' = t_schema t ->
  initialized (with_tables (set_table t' (tables db)) db).
Proof.
  unfold initialized. intros Hi Hf Hs. simpl.
  rewrite set_table_schemas; [exact Hi|].
  intros a Ha E. apply catalog_names_distinct.
  - rewrite <- Hi. now apply in_map.
  - rewrite Hs, <- Hi. apply in_map. eapply find_table_In; eauto.
  - exact E.
Qed.

Lemma rows_set_table_same (db : DB) (n : string) (t t' : table) :
  find_table n (tables db) = Some t -> t_schema t' = t_schema t ->
  rows n (with_tables (set_table t' (tables db)) db) = t_rows t'.
Proof.
  intros Hf Hs. unfold rows. simpl.
  rewrite (find_set_table_same n t t'); [reflexivity | exact Hf |].
  unfold t_name. rewrite Hs. eapply find_table_name; eauto.
Qed.

Lemma rows_set_table_other (db : DB) (n m : string) (t t' : table) :
  find_table n (tables db) = Some t -> t_schema t' = t_schema t ->
  ieq n m = false ->
  rows m (with_tables (set_table t' (tables db)) db) = rows m db.
Proof.
  intros Hf Hs Hm. unfold rows. simpl.
  rewrite find_set_table_other; [reflexivity|].
  unfold t_name. rewrite Hs.
  pose proof (find_table_name _ _ _ Hf) as Hn. unfold t_name in Hn.
  rewrite ieq_sym in Hn. eapply ieq_true_false; eauto.
Qed.

(** ** What a statement leaves alone *)

Lemma same_connection_refl (db : DB) : same_connection db db.
Proof. repeat split. Qed.

Lemma same_connection_trans (a b c : DB) :
  same_connection a b -> same_connection b c -> same_connection a c.
Proof.
  unfold same_connection. intros (?&?&?&?) (?&?&?&?).
  repeat split; congruence.
Qed.

Lemma same_connection_with_tables (ts : list table) (db : DB) :
  same_connection db (with_tables ts db).
Proof. repeat split. Qed.

Create HintDb conn.

#[local] Hint Resolve same_connection_refl same_connection_with_tables
  : conn.

Lemma sql_select_run (n : string) (cond : row -> bool) (db : DB) (t : table) :
  find_table n (tables db) = Some t ->
  sql_select n cond db = (Ok (filter cond (t_rows t)), db).
Proof. intros H. unfold sql_select. now rewrite H. Qed.

Lemma getFirstAsync_run (n : string) (cond : row -> bool) (db : DB)
      (t : table) :
  find_table n (tables db) = Some t ->
  getFirstAsync n cond db = (Ok (hd_error (filter cond (t_rows t))), db).
Proof.
  intros H. unfold getFirstAsync, bind. now rewrite (sql_select_run _ _ _ _ H).
Qed.

(** The outcome of an INSERT: either the new row is appended to its table,
    or nothing changes. *)
Lemma sql_insert_inv (n : string) (vals : list (string * value)) (db db' : DB)
      (res : result Z) :
  sql_insert n vals db = (res, db') ->
  (exists e, res = Err e /\ db' = db)
  \/ (exists t rowid,
        res = Ok rowid /\ find_table n (tables db) = Some t
        /\ rowid = next_rowid t vals
        /\ has_rowid (t_rows t) (VNum rowid) = false
        /\ db' = with_tables
                   (set_table
                      (mkTable (t_schema t)
                         (t_rows t
                            ++ [new_row (t_schema t) vals rowid (now db)])
                         (Z.max (t_seq t) rowid))
                      (tables db)) db).
Proof.
  unfold sql_insert. intros H.
  destruct (find_table n (tables db)) as [t|] eqn:Hf;
    [|inversion H; left; eauto].
  destruct (unknown_column _ _); [inversion H; left; eauto|].
  destruct (notnull_violation _ _); [inversion H; left; eauto|].
  destruct (has_rowid _ _) eqn:Hr; [inversion H; left; eauto|].
  destruct (unique_violation _ _ _); [inversion H; left; eauto|].
  destruct (foreign_keys db && _); inversion H; [left; eauto|].
  right. exists t, (next_rowid t vals). repeat split. exact Hr.
Qed.

Lemma sql_insert_connection (n : string) (vals : list (string * value))
      (db db' : DB) (res : result Z) :
  sql_insert n vals db = (res, db') -> same_connection db db'.
Proof.
  intros H. apply sql_insert_inv in H.
  destruct H as [(e & _ & ->) | (t & rowid & _ & _ & _ & _ & ->)];
    auto with conn.
Qed.

Lemma sql_update_connection (n : string) (vals : list (string * value))
      (cond : row -> bool) (db db' : DB) (res : result Z) :
  sql_update n vals cond db = (res, db') -> same_connection db db'.
Proof.
  unfold sql_update. intros H.
  destruct (find_table n (tables db)) as [t|];
    [|inversion H; auto with conn].
  destruct (unknown_column _ _); [inversion H; auto with conn|].
  destruct (filter cond (t_rows t)); [inversion H; auto with conn|].
  destruct (find _ (ts_cols _)); [inversion H; auto with conn|].
  destruct (find _ (ts_unique _)); [inversion H; auto with conn|].
  destruct (foreign_keys db && _); inversion H; auto with conn.
Qed.

Lemma sql_delete_connection (n : string) (cond : row -> bool) (db db' : DB)
      (res : result Z) :
  sql_delete n cond db = (res, db') -> same_connection db db'.
Proof.
  unfold sql_delete. intros H.
  destruct (find_table n (tables db)); inversion H; auto with conn.
Qed.

Lemma sql_select_same (n : string) (cond : row -> bool) (db db' : DB)
      (res : result (list row)) :
  sql_select n cond db = (res, db') -> db' = db.
Proof.
  unfold sql_select. intros H.
  destruct (find_table n (tables db)); now inversion H.
Qed.

Lemma getFirstAsync_same (n : string) (cond : row -> bool) (db db' : DB)
      (res : result (option row)) :
  getFirstAsync n cond db = (res, db') -> db' = db.
Proof.
  unfold getFirstAsync, bind, ret. intros H.
  destruct (sql_select n cond db) as [[rs|e] db1] eqn:E;
    apply sql_select_same in E; inversion H; congruence.
Qed.

Lemma rows_find (db : DB) (n : string) (t : table) :
  find_table n (tables db) = Some t -> rows n db = t_rows t.
Proof. intros H. unfold rows. now rewrite H. Qed.

Lemma rows_same_tables (db db' : DB) (n : string) :
  tables db' = tables db -> rows n db' = rows n db.
Proof. intros H. unfold rows. now rewrite H. Qed.

Lemma initialized_same_tables (db db' : DB) :
  tables db' = tables db -> initialized db -> initialized db'.
Proof. unfold initialized. intros ->. auto. Qed.

Lemma parent_has_rows (db : DB) (n : string) (v : value) :
  parent_has (tables db) n v = has_rowid (rows n db) v.
Proof.
  unfold parent_has, rows. now destruct (find_table n (tables db)).
Qed.

Lemma has_rowid_above (rs : list row) (k : Z) :
  max_rowid rs < k -> has_rowid rs (VNum k) = false.
Proof.
  unfold has_rowid. induction rs as [|r rs IH]; simpl; intros H;
    [reflexivity|].
  destruct (col r "id") as [|i|s]; simpl.
  - now apply IH.
  - rewrite IH by lia. rewrite orb_false_r. apply Z.eqb_neq. lia.
  - now apply IH.
Qed.

(** A successful INSERT appends one row to its table and leaves the other
    tables, the catalog and the connection as they were. *)
Lemma sql_insert_ok (n : string) (vals : list (string * value)) (db db' : DB)
      (rowid : Z) :
  sql_insert n vals db = (Ok rowid, db') ->
  same_connection db db'
  /\ (initialized db -> initialized db')
  /\ (forall m, ieq n m = false -> rows m db' = rows m db)
  /\ exists t,
       find_table n (tables db) = Some t
       /\ has_rowid (rows n db) (VNum rowid) = false
       /\ rows n db'
          = rows n db ++ [new_row (t_schema t) vals rowid (now db)].
Proof.
  intros H. pose proof (sql_insert_connection _ _ _ _ _ H) as Hc.
  apply sql_insert_inv in H.
  destruct H as [(e & He & _) | (t & i & Hi & Hf & _ & Hr & ->)];
    [discriminate|].
  inversion Hi; subst i. split; [exact Hc|]. split; [|split].
  - intros Hinit. eapply initialized_set_table; eauto.
  - intros m Hm. eapply rows_set_table_other; eauto.
  - exists t. split; [exact Hf|]. unfold rows at 1 3. rewrite Hf.
    split; [exact Hr|].
    erewrite rows_set_table_same; eauto.
Qed.

Lemma sql_insert_err (n : string) (vals : list (string * value)) (db db' : DB)
      (e : string) :
  sql_insert n vals db = (Err e, db') -> db' = db.
Proof.
  intros H. apply sql_insert_inv in H.
  destruct H as [(e' & _ & ->) | (t & i & Hi & _)];
    [reflexivity | discriminate].
Qed.

(** The outcome of an UPDATE: nothing changes, or the rows of its table are
    rewritten in place. *)
Lemma sql_update_inv (n : string) (vals : list (string * value))
      (cond : row -> bool) (db db' : DB) (res : result Z) :
  sql_update n vals cond db = (res, db') ->
  db' = db
  \/ (exists t c,
        res = Ok c /\ find_table n (tables db) = Some t
        /\ db' = with_tables
                   (set_table
                      (mkTable (t_schema t)
                         (map (fun r => if cond r then assign vals r else r)
                              (t_rows t))
                         (t_seq t))
                      (tables db)) db).
Proof.
  unfold sql_update. intros H.
  destruct (find_table n (tables db)) as [t|] eqn:Hf;
    [|inversion H; now left].
  destruct (unknown_column _ _); [inversion H; now left|].
  destruct (filter cond (t_rows t)); [inversion H; now left|].
  destruct (find _ (ts_cols _)); [inversion H; now left|].
  destruct (find _ (ts_unique _)); [inversion H; now left|].
  destruct (foreign_keys db && _); inversion H; [now left|].
  right. eauto.
Qed.

Lemma sql_update_err (n : string) (vals : list (string * value))
      (cond : row -> bool) (db db' : DB) (e : string) :
  sql_update n vals cond db = (Err e, db') -> db' = db.
Proof.
  intros H. apply sql_update_inv in H.
  destruct H as [-> | (t & c & Hc & _)]; [reflexivity | discriminate].
Qed.

Lemma sql_update_frame (n : string) (vals : list (string * value))
      (cond : row -> bool) (db db' : DB) (res : result Z) :
  sql_update n vals cond db = (res, db') ->
  (initialized db -> initialized db')
  /\ (forall m, ieq n m = false -> rows m db' = rows m db).
Proof.
  intros H. apply sql_update_inv in H.
  destruct H as [-> | (t & c & _ & Hf & ->)]; [now split|].
  split.
  - intros Hi. eapply initialized_set_table; eauto.
  - intros m Hm. eapply rows_set_table_other; eauto.
Qed.

Lemma sql_update_rows (n : string) (vals : list (string * value))
      (cond : row -> bool) (db db' : DB) (c : Z) :
  sql_update n vals cond db = (Ok c, db') ->
  rows n db'
  = map (fun r => if cond r then assign vals r else r) (rows n db).
Proof.
  unfold sql_update. intros H.
  destruct (find_table n (tables db)) as [t|] eqn:Hf; [|discriminate].
  rewrite (rows_find _ _ _ Hf).
  destruct (unknown_column _ _); [discriminate|].
  destruct (filter cond (t_rows t)) eqn:Ehit.
  { inversion H; subst. rewrite (rows_find _ _ _ Hf).
    symmetry. now apply map_if_none. }
  destruct (find _ (ts_cols _)); [discriminate|].
  destruct (find _ (ts_unique _)); [discriminate|].
  destruct (foreign_keys db && _); inversion H.
  erewrite rows_set_table_same; eauto.
Qed.

Lemma assigned_ieq (vals : list (string * value)) (k c : string) :
  ieq k c = true -> assigned vals k = assigned vals c.
Proof.
  intros H. induction vals as [|[k' v] vals IH]; simpl; [reflexivity|].
  destruct (ieq k' k) eqn:E.
  - now rewrite (ieq_trans _ _ _ E H).
  - rewrite ieq_sym in E.
    rewrite (ieq_sym k' c), (ieq_true_false _ _ _ H E). exact IH.
Qed.

Lemma col_assign (vals : list (string * value)) (r : row) (c : string) :
  col (assign vals r) c
  = match assigned vals c with
    | Some v => if has_col r c then v else VNull
    | None => col r c
    end.
Proof.
  unfold assign. induction r as [|[k v] r IH]; simpl.
  - now destruct (assigned vals c).
  - destruct (ieq k c) eqn:E; simpl.
    + now rewrite (assigned_ieq vals k c E).
    + exact IH.
Qed.

Lemma has_col_conforms (s : tschema) (r : row) (c : string) :
  conforms s r -> has_col r c = existsb (fun k => ieq (c_name k) c) (ts_cols s).
Proof.
  unfold conforms. intros H.
  assert (G : has_col r c = existsb (fun k => ieq k c) (map fst r)).
  { clear H. induction r as [|[k v] r IH]; simpl; [reflexivity|].
    now rewrite IH. }
  rewrite G, H. clear. induction (ts_cols s) as [|k l IH]; simpl;
    [reflexivity | now rewrite IH].
Qed.

(** On a row that has the columns of its table, the NOT NULL check of an
    UPDATE looks at the assigned values only. *)
Lemma update_notnull_check (s : tschema) (vals : list (string * value))
      (r0 : row) :
  conforms s r0 ->
  find (fun c => c_notnull c && is_assigned vals (c_name c)
                 && is_null (col (assign vals r0) (c_name c))) (ts_cols s)
  = find (fun c => c_notnull c
                   && match assigned vals (c_name c) with
                      | Some v => is_null v
                      | None => false
                      end) (ts_cols s).
Proof.
  intros Hc. apply find_pointwise. intros c Hin.
  rewrite col_assign, (has_col_conforms s r0 _ Hc).
  assert (Hex : existsb (fun k => ieq (c_name k) (c_name c)) (ts_cols s)
                = true).
  { apply existsb_exists. exists c. split; [exact Hin | apply ieq_refl]. }
  rewrite Hex. unfold is_assigned.
  destruct (assigned vals (c_name c)); [|now rewrite andb_false_r].
  now rewrite andb_true_r.
Qed.

(** ** Loops *)

(** An invariant of the state that every iteration keeps, whatever it
    returns, holds when the loop ends. *)
Lemma for_of_invariant {A S} (P : DB -> Prop) (body : A -> S -> M S)
      (xs : list A) :
  (forall x s db res db', P db -> body x s db = (res, db') -> P db') ->
  forall s db res db',
    P db -> for_of xs body s db = (res, db') -> P db'.
Proof.
  intros Hbody. induction xs as [|x xs IH]; simpl; intros s db res db' HP H.
  - unfold ret in H. inversion H. now subst.
  - unfold bind in H. destruct (body x s db) as [[s1|e] db1] eqn:E.
    + eapply IH; [|exact H]. eapply Hbody; eauto.
    + inversion H; subst. eapply Hbody; eauto.
Qed.

(** ** [initDatabase] *)

(** The first run on a new database file creates the catalog and turns the
    foreign keys on. *)
Lemma initDatabase_first_run (ts : string) :
  exists db,
    initDatabase (new_database ts) = (Ok tt, db)
    /\ initialized db /\ foreign_keys db = true
    /\ user_version db = DATABASE_VERSION /\ txn db = None.
Proof. eexists. repeat split. Qed.

(** On a database that is already at [DATABASE_VERSION] the early return
    skips the pragmas with the tables: the connection keeps the
    [foreign_keys] setting it was opened with. *)
Lemma initDatabase_again (db : DB) :
  DATABASE_VERSION <= user_version db -> initDatabase db = (Ok tt, db).
Proof.
  intros H. unfold initDatabase, try_catch, bind, PRAGMA_user_version.
  apply Z.leb_le in H. now rewrite H.
Qed.

(** ** The junction table's name *)

(** C10: on every database whose catalog is the one of [createTablesSQL],
    [getStudentsInDepartmentById] throws for every department id: the table
    [student_department] of its query does not exist (the schema creates
    [student_departments]), so it never returns a list of students. *)
Theorem getStudentsInDepartmentById_always_throws (db : DB)
        (departmentId : Z) :
  initialized db ->
  find_table "student_department" (tables db) = None
  /\ getStudentsInDepartmentById departmentId db
     = (Err "no such table: student_department", db).
Proof.
  intros Hi.
  destruct (initialized_find db "students" students_table Hi eq_refl)
    as (t & Hf & _).
  pose proof (initialized_find_none db "student_department" Hi eq_refl) as Hn.
  split; [exact Hn|].
  unfold getStudentsInDepartmentById, try_catch, sql_select_join.
  now rewrite Hf, Hn.
Qed.

Lemma getStudentsInDepartmentById_always_throws_witness :
  find_table "student_department" (tables enrolled_db) = None
  /\ getStudentsInDepartmentById 1 enrolled_db
     = (Err "no such table: student_department", enrolled_db).
Proof.
  apply getStudentsInDepartmentById_always_throws. reflexivity.
Defined.

(** [createBillsForDepartment] reads the enrolled students from a table
    called [studentDepartments]; no initialized database has one, so the
    call ends in the outer handler whatever its arguments. *)
Lemma createBillsForDepartment_never_returns (db : DB) (departmentId : Z)
      (billItems : list BillItemRequest) (billName : string) :
  initialized db ->
  exists message,
    fst (createBillsForDepartment departmentId billItems billName db)
    = Err message.
Proof.
  intros Hi.
  destruct (initialized_find db "departments" departments_table Hi eq_refl)
    as (td & Hd & _).
  destruct (initialized_find db "students" students_table Hi eq_refl)
    as (t & Hf & _).
  pose proof (initialized_find_none db "studentDepartments" Hi eq_refl) as Hn.
  unfold createBillsForDepartment, bind, BEGIN_TRANSACTION.
  destruct (txn db) eqn:Ht; [eexists; reflexivity|].
  unfold try_catch, bind, getAllAsync, sql_select. simpl. rewrite Hd.
  destruct (filter (id_is departmentId) (t_rows td)); simpl.
  - eexists; reflexivity.
  - unfold sql_select_join. simpl. rewrite Hf, Hn. simpl.
    eexists; reflexivity.
Qed.

(** C1 (the scenario of the specification, on the code): department 1 has
    Tuition = 100 and Books = 20 and two students are actively enrolled,
    yet [createBillsForDepartment] throws "no such table: studentDepartments"
    and rolls back instead of returning billsCreated = 2, totalAmount = 240:
    no bill row is created. *)
Theorem createBillsForDepartment_scenario_throws :
  map (fun r => (col r "name", col r "amount", col r "departmentId"))
      (rows "bill_items" enrolled_db)
  = [ (VText "Tuition", VNum 100, VNum 1); (VText "Books", VNum 20, VNum 1) ]
  /\ option_map (map (fun r => col r "id"))
       (match fst (getEnrollmentsByDepartment 1 enrolled_db) with
        | Ok students => Some students
        | Err _ => None
        end)
     = Some [VNum 1; VNum 2]
  /\ createBillsForDepartment 1
       [mkBillItemRequest 1 None None; mkBillItemRequest 2 None None]
       "Term1" enrolled_db
     = (Err "no such table: studentDepartments", enrolled_db)
  /\ rows "bills" enrolled_db = [].
Proof. repeat split. Qed.

(** ** Transactions *)

Section Transactions.

(** The connection on which an operation is called. *)
Variable db0 : DB.
Hypothesis no_transaction : txn db0 = None.

Lemma BEGIN_TRANSACTION_run :
  exists db1, BEGIN_TRANSACTION db0 = (Ok tt, db1)
              /\ in_transaction_of db0 db1 /\ tables db1 = tables db0.
Proof.
  unfold BEGIN_TRANSACTION. rewrite no_transaction.
  eexists; split; [reflexivity|]. repeat split.
Qed.

Lemma in_transaction_step (db db' : DB) :
  in_transaction_of db0 db -> same_connection db db' ->
  in_transaction_of db0 db'.
Proof.
  unfold in_transaction_of, same_connection.
  intros (?&?&?&?) (?&?&?&?). repeat split; congruence.
Qed.

Lemma ROLLBACK_restores (db : DB) :
  in_transaction_of db0 db -> ROLLBACK db = (Ok tt, db0).
Proof.
  intros (Ht & Hf & Hu & Hn). unfold ROLLBACK. rewrite Ht, Hf, Hu, Hn.
  clear - no_transaction. destruct db0; simpl in *. now subst.
Qed.

(** The handler [catch (error) { ROLLBACK; throw error }]. *)
Lemma rollback_rethrows {A} (db : DB) (e : string) :
  in_transaction_of db0 db -> (ROLLBACK ;;; @throw A e) db = (Err e, db0).
Proof.
  intros H. unfold bind, throw. now rewrite (ROLLBACK_restores db H).
Qed.

Lemma COMMIT_run (db : DB) :
  in_transaction_of db0 db -> COMMIT db = (Ok tt, committed db).
Proof. intros (Ht & _). unfold COMMIT. now rewrite Ht. Qed.

Lemma committed_in_transaction (db : DB) :
  in_transaction_of db0 db -> tables db = tables db0 -> committed db = db0.
Proof.
  intros (_ & Hf & Hu & Hn) Ht. unfold committed.
  rewrite Ht, Hf, Hu, Hn. clear - no_transaction.
  destruct db0; simpl in *. now subst.
Qed.

End Transactions.

(** ** [createBillWithItems] *)

Lemma add_line_connection (billId : Z) (item : BillLine) (acc : Z)
      (db db' : DB) (res : result Z) :
  add_line billId item acc db = (res, db') -> same_connection db db'.
Proof.
  unfold add_line, bind, ret. intros H.
  destruct (sql_insert _ _ db) as [[i|e] db1] eqn:E;
    apply sql_insert_connection in E; inversion H; now subst.
Qed.

Lemma add_lines_connection (billId : Z) (items : list BillLine) (acc : Z)
      (db db' : DB) (res : result Z) :
  for_of items (add_line billId) acc db = (res, db') -> same_connection db db'.
Proof.
  intros H.
  apply (for_of_invariant (same_connection db) (add_line billId) items)
    with (s := acc) (db := db) (res := res); auto with conn.
  intros x s d r d' Hd Hx. eapply same_connection_trans; [exact Hd|].
  eapply add_line_connection; eauto.
Qed.

(** The accumulated total is the sum of the line totals, whatever the
    database holds: no stored amount is read. *)
Lemma add_lines_total (billId : Z) (items : list BillLine) :
  forall (acc : Z) (db db' : DB) (totalAmount : Z),
    for_of items (add_line billId) acc db = (Ok totalAmount, db') ->
    totalAmount = acc + sum_over line_total items.
Proof.
  induction items as [|item items IH]; simpl; intros acc db db' total H.
  - unfold ret in H. inversion H. lia.
  - unfold bind in H at 1.
    destruct (add_line billId item acc db) as [[acc1|e] db1] eqn:E;
      [|discriminate].
    apply IH in H. subst total.
    unfold add_line, bind, ret in E.
    destruct (sql_insert _ _ db) as [[i|e] db2]; inversion E.
    unfold line_total. lia.
Qed.

Lemma createBillWithItems_total (bill : CreateBillWithItemsPayload)
      (db db' : DB) (b : Bill) :
  createBillWithItems bill db = (Ok b, db') ->
  b_totalAmount b = sum_over line_total (p_items bill).
Proof.
  unfold createBillWithItems, try_catch. unfold bind at 1.
  destruct (BEGIN_TRANSACTION db) as [[[]|e0] db1].
  2:{ unfold bind, throw.
      destruct (ROLLBACK db1) as [[[]|e1] db2]; discriminate. }
  unfold bind at 1.
  destruct (sql_insert _ _ db1) as [[billId|e1] db2].
  2:{ unfold bind, throw.
      destruct (ROLLBACK db2) as [[[]|e2] db3]; discriminate. }
  unfold bind at 1.
  destruct (for_of _ _ _ db2) as [[totalAmount|e2] db3] eqn:Eloop.
  2:{ unfold bind, throw.
      destruct (ROLLBACK db3) as [[[]|e3] db4]; discriminate. }
  apply add_lines_total in Eloop.
  unfold bind at 1.
  destruct (sql_update _ _ _ db3) as [[c|e3] db4].
  2:{ unfold bind, throw.
      destruct (ROLLBACK db4) as [[[]|e4] db5]; discriminate. }
  unfold bind at 1.
  destruct (COMMIT db4) as [[[]|e4] db5].
  2:{ unfold bind, throw.
      destruct (ROLLBACK db5) as [[[]|e5] db6]; discriminate. }
  unfold ret. intros H. inversion H. simpl. lia.
Qed.

Lemma line_total_specified (item : BillLine) :
  ln_quantity item <> Some 0 -> line_total item = specified_line_total item.
Proof.
  unfold line_total, specified_line_total. intros H.
  destruct item as [i [[|a|a]|] [[|q|q]|] [[|c|c]|]]; simpl in *;
    try reflexivity; now contradiction H.
Qed.

(** Away from lines with quantity 0 the returned total is the sum of the
    specification. *)
Lemma createBillWithItems_total_specified (bill : CreateBillWithItemsPayload)
      (db db' : DB) (b : Bill) :
  (forall item, In item (p_items bill) -> ln_quantity item <> Some 0) ->
  createBillWithItems bill db = (Ok b, db') ->
  b_totalAmount b = sum_over specified_line_total (p_items bill).
Proof.
  intros Hq H. rewrite (createBillWithItems_total _ _ _ _ H).
  apply sum_over_pointwise. intros item Hin.
  apply line_total_specified. now apply Hq.
Qed.

(** C2 (the code at a line with quantity 0): [item.quantity || 1] bills the
    line once.  The returned bill and the stored row carry totalAmount 100,
    the stored relation carries quantity 1, while
    amount x quantity - discount for the submitted line is 0. *)
Theorem createBillWithItems_zero_quantity_billed_once :
  fst (createBillWithItems zero_quantity_bill enrolled_db)
  = Ok (mkBill 1 "Term1" 1 1 100 None None)
  /\ map (fun r => col r "totalAmount")
         (rows "bills" (exec (createBillWithItems zero_quantity_bill)
                             enrolled_db))
     = [VNum 100]
  /\ map (fun r => (col r "amount", col r "quantity"))
         (rows "bill_item_relations"
               (exec (createBillWithItems zero_quantity_bill) enrolled_db))
     = [(VNum 100, VNum 1)]
  /\ sum_over specified_line_total (p_items zero_quantity_bill) = 0.
Proof. repeat split. Qed.

Lemma add_line_dangling (billId : Z) (item : BillLine) (acc : Z) (db : DB) :
  initialized db -> foreign_keys db = true ->
  has_rowid (rows "bill_items" db) (VNum (ln_billItemId item)) = false ->
  exists e, add_line billId item acc db = (Err e, db).
Proof.
  intros Hi Hfk Hmiss.
  destruct (initialized_find db "bill_item_relations"
              bill_item_relations_table Hi eq_refl) as ([s rs q] & Hf & Hs).
  simpl in Hs. subst s.
  unfold add_line, bind, sql_insert. rewrite Hf, Hfk.
  cbn [t_schema t_rows t_seq].
  change (unknown_column bill_item_relations_table _) with (@None (string * value)).
  cbv iota.
  match goal with
  | |- context [notnull_violation ?s ?r] =>
      change (notnull_violation s r) with (@None column)
  end.
  cbv iota.
  destruct (has_rowid rs _); [eexists; reflexivity|].
  change (unique_violation bill_item_relations_table rs _)
    with (@None (list string)).
  cbv iota.
  match goal with
  | |- context [fk_violation ?s ?ts ?r] =>
      replace (fk_violation s ts r) with true
  end.
  - eexists; reflexivity.
  - symmetry. unfold fk_violation.
    cbn [ts_fks bill_item_relations_table existsb fk_col fk_table].
    rewrite !parent_has_rows.
    match goal with
    | |- context [col ?r "billItemId"] =>
        change (col r "billItemId") with (VNum (ln_billItemId item))
    end.
    rewrite Hmiss. cbn [is_null negb andb]. apply orb_true_iff. right.
    reflexivity.
Qed.

Lemma add_lines_dangling (billId : Z) (items : list BillLine) :
  forall (acc : Z) (db : DB),
    initialized db -> foreign_keys db = true ->
    (exists item, In item items
                  /\ has_rowid (rows "bill_items" db)
                               (VNum (ln_billItemId item)) = false) ->
    exists e db', for_of items (add_line billId) acc db = (Err e, db').
Proof.
  induction items as [|item items IH]; intros acc db Hi Hfk (bad & Hin & Hbad);
    [contradiction|].
  simpl. unfold bind at 1.
  destruct Hin as [->|Hin].
  - destruct (add_line_dangling billId bad acc db Hi Hfk Hbad) as (e & ->).
    eauto.
  - destruct (add_line billId item acc db) as [[acc1|e] db1] eqn:E; [|eauto].
    unfold add_line, bind, ret in E.
    destruct (sql_insert _ _ db) as [[i|e] db2] eqn:Eins; [|discriminate].
    inversion E; subst db2 acc1.
    apply sql_insert_ok in Eins.
    destruct Eins as ((_ & Hfk' & _) & Hinit & Hother & _).
    apply IH.
    + now apply Hinit.
    + congruence.
    + exists bad. split; [exact Hin|].
      rewrite Hother by reflexivity. exact Hbad.
Qed.

(** [createBillWithItems] step by step, from a connection with no open
    transaction: every failure ends in the state before the call. *)
Lemma createBillWithItems_run (bill : CreateBillWithItemsPayload) (db : DB) :
  txn db = None ->
  exists db1,
    in_transaction_of db db1 /\ tables db1 = tables db
    /\ createBillWithItems bill db
       = match sql_insert "bills"
                 [ ("name", VText (p_name bill));
                   ("studentId", VNum (p_studentId bill));
                   ("departmentId", VNum (p_departmentId bill));
                   ("totalAmount", VNum 0);
                   ("dueDate", text_or_null (p_dueDate bill));
                   ("note", text_or_null (p_note bill)) ] db1 with
         | (Err e, _) => (Err e, db)
         | (Ok billId, db2) =>
             match for_of (p_items bill) (add_line billId) 0 db2 with
             | (Err e, _) => (Err e, db)
             | (Ok totalAmount, db3) =>
                 match sql_update "bills" [ ("totalAmount", VNum totalAmount) ]
                         (id_is billId) db3 with
                 | (Err e, _) => (Err e, db)
                 | (Ok _, db4) =>
                     (Ok (mkBill billId (p_name bill) (p_studentId bill)
                                 (p_departmentId bill) totalAmount
                                 (p_dueDate bill) (p_note bill)),
                      committed db4)
                 end
             end
         end.
Proof.
  intros Hnone.
  destruct (BEGIN_TRANSACTION_run db Hnone) as (db1 & Hb & Ht1 & Htabs).
  exists db1. split; [exact Ht1|]. split; [exact Htabs|].
  pose proof (@rollback_rethrows db Hnone Bill) as Hrb.
  unfold createBillWithItems, try_catch. unfold bind at 1. rewrite Hb.
  unfold bind at 1.
  destruct (sql_insert _ _ db1) as [[billId|e1] db2] eqn:E1.
  2:{ apply sql_insert_err in E1. subst db2. now apply Hrb. }
  apply sql_insert_connection in E1.
  pose proof (in_transaction_step _ _ _ Ht1 E1) as Ht2.
  unfold bind at 1.
  destruct (for_of _ _ _ db2) as [[totalAmount|e2] db3] eqn:E2.
  2:{ apply add_lines_connection in E2. apply Hrb.
      eapply in_transaction_step; eauto. }
  apply add_lines_connection in E2.
  pose proof (in_transaction_step _ _ _ Ht2 E2) as Ht3.
  unfold bind at 1.
  destruct (sql_update _ _ _ db3) as [[c|e3] db4] eqn:E3.
  2:{ apply sql_update_connection in E3. apply Hrb.
      eapply in_transaction_step; eauto. }
  apply sql_update_connection in E3.
  pose proof (in_transaction_step _ _ _ Ht3 E3) as Ht4.
  unfold bind at 1. rewrite (COMMIT_run db db4 Ht4). reflexivity.
Qed.

(** C3: a call of [createBillWithItems] that fails, at whichever step,
    rethrows with the database exactly as it was before the call: no bill
    row, no relation row and no rowid of the call persists.  With foreign
    keys enforced, an item whose [billItemId] names no bill item makes the
    call fail in that way. *)
Theorem createBillWithItems_failure_rolls_back
        (bill : CreateBillWithItemsPayload) (db : DB) :
  txn db = None ->
  (forall e db', createBillWithItems bill db = (Err e, db') -> db' = db)
  /\ (initialized db -> foreign_keys db = true ->
      (exists item, In item (p_items bill)
                    /\ has_rowid (rows "bill_items" db)
                                 (VNum (ln_billItemId item)) = false) ->
      exists e, createBillWithItems bill db = (Err e, db)).
Proof.
  intros Hnone.
  destruct (createBillWithItems_run bill db Hnone)
    as (db1 & Ht1 & Htabs & ->).
  destruct (sql_insert _ _ db1) as [[billId|e1] db2] eqn:E1.
  2:{ split; [intros e d H; now inversion H | eauto]. }
  destruct (for_of _ _ _ db2) as [[totalAmount|e2] db3] eqn:E2.
  2:{ split; [intros e d H; now inversion H | eauto]. }
  split.
  - destruct (sql_update _ _ _ db3) as [[c|e3] db4];
      intros e d H; now inversion H.
  - intros Hinit Hfk Hbad. exfalso.
    pose proof (sql_insert_ok _ _ _ _ _ E1) as (Hc2 & Hi2 & Hother2 & _).
    destruct (add_lines_dangling billId (p_items bill) 0 db2) as (e & d & He).
    + apply Hi2. unfold initialized in *. now rewrite Htabs.
    + destruct Hc2 as (_ & -> & _). destruct Ht1 as (_ & -> & _). exact Hfk.
    + destruct Hbad as (item & Hin & Hmiss). exists item. split; [exact Hin|].
      rewrite Hother2 by reflexivity. unfold rows in *. now rewrite Htabs.
    + congruence.
Qed.

Lemma createBillWithItems_failure_rolls_back_witness :
  (exists e, createBillWithItems dangling_item_bill enrolled_db
             = (Err e, enrolled_db))
  /\ rows "bills" (exec (createBillWithItems dangling_item_bill) enrolled_db)
     = []
  /\ rows "bill_item_relations"
          (exec (createBillWithItems dangling_item_bill) enrolled_db)
     = [].
Proof.
  split.
  - apply (createBillWithItems_failure_rolls_back dangling_item_bill
             enrolled_db eq_refl); [reflexivity | reflexivity |].
    exists (mkBillLine 9 (Some 5) None None).
    split; [right; left; reflexivity | reflexivity].
  - split; reflexivity.
Defined.

(** ** [bulkEnroll]: one disposition per input id *)

(** Whatever the database holds, one iteration returns: it counts one
    success or appends one error for its id, and never throws. *)
Lemma enroll_student_returns (d sid : Z) (res : BulkEnrollmentResult)
      (db : DB) :
  exists res' db',
    enroll_student d sid res db = (Ok res', db')
    /\ same_connection db db'
    /\ (res' = enrolled res \/ exists msg, res' = push_error res sid msg).
Proof.
  unfold enroll_student, try_catch. unfold bind at 1.
  destruct (getFirstAsync "students" _ db) as [[student|e] db1] eqn:E1;
    apply getFirstAsync_same in E1; subst db1.
  2:{ unfold ret. eauto 8 with conn. }
  destruct student as [student|].
  2:{ unfold ret. eauto 8 with conn. }
  unfold bind at 1.
  destruct (getFirstAsync "student_departments" _ db)
    as [[existing|e] db1] eqn:E2;
    apply getFirstAsync_same in E2; subst db1.
  2:{ unfold ret. eauto 8 with conn. }
  destruct existing as [existing|].
  { unfold ret. eauto 8 with conn. }
  unfold bind, ret.
  destruct (sql_insert _ _ db) as [[i|e] db1] eqn:E3.
  - apply sql_insert_connection in E3. unfold enrolled. eauto 8.
  - apply sql_insert_err in E3. subst db1. eauto 8 with conn.
Qed.

Lemma enroll_loop_returns (d : Z) (ids : list Z) :
  forall (res : BulkEnrollmentResult) (db : DB),
  exists res' db' l,
    for_of ids (enroll_student d) res db = (Ok res', db')
    /\ same_connection db db'
    /\ map studentId (errors res') = map studentId (errors res) ++ l
    /\ incl l ids
    /\ (NoDup ids -> NoDup l)
    /\ successCount res' + Z.of_nat (List.length l)
       = successCount res + Z.of_nat (List.length ids).
Proof.
  induction ids as [|sid ids IH]; intros res db; simpl.
  - exists res, db, []. unfold ret. rewrite app_nil_r.
    repeat split; auto with conn; try lia.
    + apply incl_refl.
  - destruct (enroll_student_returns d sid res db)
      as (res1 & db1 & E1 & Hc1 & Hres1).
    destruct (IH res1 db1) as (res2 & db2 & l & E2 & Hc2 & Hl & Hincl & Hnd & Hn).
    unfold bind. rewrite E1, E2.
    destruct Hres1 as [-> | (msg & ->)].
    + exists res2, db2, l. simpl in *.
      split; [reflexivity|]. split; [eapply same_connection_trans; eauto|].
      split; [exact Hl|]. split; [now apply incl_tl|].
      split; [intros H; apply Hnd; now inversion H | lia].
    + exists res2, db2, (sid :: l). simpl in *.
      split; [reflexivity|]. split; [eapply same_connection_trans; eauto|].
      split.
      { rewrite Hl, map_app, <- app_assoc. reflexivity. }
      split.
      { intros x [->|Hx]; [now left | right; now apply Hincl]. }
      split.
      { intros H. inversion H; subst. constructor; [|now apply Hnd].
        intros Hin. apply Hincl in Hin. contradiction. }
      rewrite Zpos_P_of_succ_nat. lia.
Qed.

(** The result of [bulkEnroll], when it returns one, is the result of its
    loop. *)
Lemma bulkEnroll_returns_loop (d : Z) (ids : list Z) (db db' : DB)
      (r : BulkEnrollmentResult) :
  bulkEnroll d ids db = (Ok r, db') ->
  exists db1 db2,
    for_of ids (enroll_student d) (mkBulkEnrollmentResult 0 []) db1
    = (Ok r, db2).
Proof.
  unfold bulkEnroll. unfold bind at 1.
  destruct (BEGIN_TRANSACTION db) as [[[]|e] db1]; [|discriminate].
  unfold try_catch. unfold bind at 1.
  destruct (getFirstAsync "departments" _ db1) as [[dep|e] db2].
  2:{ unfold bind, throw. destruct (ROLLBACK db2) as [[[]|e'] db3];
      discriminate. }
  destruct dep as [dep|].
  2:{ unfold bind, throw. destruct (ROLLBACK db2) as [[[]|e'] db3];
      discriminate. }
  unfold bind at 1.
  destruct (for_of ids _ _ db2) as [[res|e] db3] eqn:E.
  2:{ unfold bind, throw. destruct (ROLLBACK db3) as [[[]|e'] db4];
      discriminate. }
  unfold bind at 1.
  destruct (COMMIT db3) as [[[]|e] db4].
  2:{ unfold bind, throw. destruct (ROLLBACK db4) as [[[]|e'] db5];
      discriminate. }
  unfold ret. intros H. inversion H; subst. eauto.
Qed.

Lemma bulkEnroll_one_disposition_per_id_count (d : Z) (ids : list Z)
      (db1 db2 : DB) (r : BulkEnrollmentResult) :
  for_of ids (enroll_student d) (mkBulkEnrollmentResult 0 []) db1
  = (Ok r, db2) ->
  successCount r + Z.of_nat (List.length (errors r))
  = Z.of_nat (List.length ids).
Proof.
  intros H.
  destruct (enroll_loop_returns d ids (mkBulkEnrollmentResult 0 []) db1)
    as (res' & db3 & l & E & _ & Hl & _ & _ & Hn).
  rewrite E in H. inversion H; subst res' db3. simpl in Hl, Hn.
  rewrite <- (length_map studentId), Hl. lia.
Qed.

(** C4, as the code has it: when [bulkEnroll] returns, [successCount] plus
    the number of entries of [errors] is the number of input ids, every id
    having exactly one disposition; an id given twice can have two error
    entries, so the count of distinct ids with an error fits only when the
    input ids are distinct. *)
Theorem bulkEnroll_one_disposition_per_id (d : Z) (ids : list Z) (db db' : DB)
        (r : BulkEnrollmentResult) :
  bulkEnroll d ids db = (Ok r, db') ->
  successCount r + Z.of_nat (List.length (errors r))
  = Z.of_nat (List.length ids)
  /\ (NoDup ids ->
      successCount r + Z.of_nat (distinct_error_ids r)
      = Z.of_nat (List.length ids)).
Proof.
  intros H. apply bulkEnroll_returns_loop in H. destruct H as (db1 & db2 & H).
  destruct (enroll_loop_returns d ids (mkBulkEnrollmentResult 0 []) db1)
    as (res' & db3 & l & E & _ & Hl & _ & Hnd & Hn).
  rewrite E in H. inversion H; subst res' db3. simpl in Hl, Hn.
  assert (Hlen : List.length (errors r) = List.length l).
  { rewrite <- (length_map studentId), Hl. reflexivity. }
  split; [rewrite Hlen; lia|].
  intros Hids. unfold distinct_error_ids.
  rewrite Hl, nodup_fixed_point by now apply Hnd. lia.
Qed.

Lemma bulkEnroll_one_disposition_per_id_witness :
  let r := mkBulkEnrollmentResult 1
             [mkStudentError 2 "Already enrolled";
              mkStudentError 7 "Student not found"] in
  bulkEnroll 1 [1; 2; 7] partly_enrolled_db = (Ok r, later_enrolled_db)
  /\ successCount r + Z.of_nat (List.length (errors r))
     = Z.of_nat (List.length [1; 2; 7])
  /\ successCount r + Z.of_nat (distinct_error_ids r)
     = Z.of_nat (List.length [1; 2; 7]).
Proof.
  assert (H : bulkEnroll 1 [1; 2; 7] partly_enrolled_db
              = (Ok (mkBulkEnrollmentResult 1
                       [mkStudentError 2 "Already enrolled";
                        mkStudentError 7 "Student not found"]),
                 later_enrolled_db))
    by (vm_compute; reflexivity).
  split; [exact H|].
  destruct (bulkEnroll_one_disposition_per_id _ _ _ _ _ H) as (Hall & Hdis).
  split; [exact Hall|]. apply Hdis.
  repeat constructor; simpl; intuition discriminate.
Defined.

(** C4 as stated fails on a repeated id: student 7 does not exist, both
    occurrences are reported, and 0 successes plus 1 distinct failing id is
    not the 2 ids of the input. *)
Lemma bulkEnroll_repeated_id_counted_once :
  exists r db',
    bulkEnroll 1 [7; 7] school_db = (Ok r, db')
    /\ successCount r + Z.of_nat (distinct_error_ids r)
       <> Z.of_nat (List.length [7; 7]).
Proof.
  eexists; eexists. split; [vm_compute; reflexivity|].
  vm_compute. discriminate.
Qed.

(** ** [bulkEnroll] on an initialized database *)

Lemma enroll_student_not_found (d sid : Z) (res : BulkEnrollmentResult)
      (db : DB) :
  initialized db ->
  has_rowid (rows "students" db) (VNum sid) = false ->
  enroll_student d sid res db
  = (Ok (push_error res sid "Student not found"), db).
Proof.
  intros Hi Hs.
  destruct (initialized_find db "students" students_table Hi eq_refl)
    as (t & Hf & _).
  rewrite (rows_find _ _ _ Hf) in Hs.
  unfold enroll_student, try_catch. unfold bind at 1.
  rewrite (getFirstAsync_run _ _ _ _ Hf).
  apply hd_error_filter_existsb in Hs. unfold id_is. now rewrite Hs.
Qed.

Lemma enroll_student_already (d sid : Z) (res : BulkEnrollmentResult)
      (db : DB) :
  initialized db ->
  has_rowid (rows "students" db) (VNum sid) = true ->
  existsb (enrollment_is sid d) (rows "student_departments" db) = true ->
  enroll_student d sid res db
  = (Ok (push_error res sid "Already enrolled"), db).
Proof.
  intros Hi Hs He.
  destruct (initialized_find db "students" students_table Hi eq_refl)
    as (t & Hf & _).
  destruct (initialized_find db "student_departments"
              student_departments_table Hi eq_refl) as (te & Hfe & _).
  rewrite (rows_find _ _ _ Hf) in Hs. rewrite (rows_find _ _ _ Hfe) in He.
  unfold enroll_student, try_catch. unfold bind at 1.
  rewrite (getFirstAsync_run _ _ _ _ Hf).
  destruct (first_row_exists (id_is sid) (t_rows t) Hs) as (r & ->).
  unfold bind at 1. rewrite (getFirstAsync_run _ _ _ _ Hfe).
  destruct (first_row_exists _ _ He) as (r' & ->). reflexivity.
Qed.

(** A student who exists and has no row for the department gets one: with
    the department present the INSERT passes every constraint. *)
Lemma enroll_student_new (d sid : Z) (res : BulkEnrollmentResult) (db : DB) :
  initialized db ->
  has_rowid (rows "departments" db) (VNum d) = true ->
  has_rowid (rows "students" db) (VNum sid) = true ->
  existsb (enrollment_is sid d) (rows "student_departments" db) = false ->
  exists db' r,
    enroll_student d sid res db = (Ok (enrolled res), db')
    /\ same_connection db db' /\ initialized db'
    /\ (forall m, ieq "student_departments" m = false ->
                  rows m db' = rows m db)
    /\ rows "student_departments" db' = rows "student_departments" db ++ [r]
    /\ enrollment_is sid d r = true
    /\ col r "status" = VText "active" /\ col r "isActive" = VNum 1.
Proof.
  intros Hi Hd Hs He.
  destruct (initialized_find db "students" students_table Hi eq_refl)
    as (t & Hf & _).
  destruct (initialized_find db "student_departments"
              student_departments_table Hi eq_refl) as ([s rs q] & Hfe & Hse).
  simpl in Hse. subst s.
  pose proof Hs as Hs'. rewrite (rows_find _ _ _ Hf) in Hs'.
  rewrite (rows_find _ _ _ Hfe) in He. simpl in He.
  assert (Hins : exists rowid db',
             sql_insert "student_departments"
               [ ("studentId", VNum sid); ("departmentId", VNum d);
                 ("status", VText "active"); ("isActive", VNum 1) ] db
             = (Ok rowid, db')).
  { unfold sql_insert. rewrite Hfe. cbn [t_schema t_rows t_seq].
    change (unknown_column student_departments_table _)
      with (@None (string * value)).
    cbv iota.
    match goal with
    | |- context [notnull_violation ?s ?r] =>
        change (notnull_violation s r) with (@None column)
    end.
    cbv iota.
    rewrite has_rowid_above
      by (unfold next_rowid; cbn [assigned ieq t_rows t_seq]; simpl; lia).
    match goal with
    | |- context [unique_violation ?s ?l ?r] =>
        replace (unique_violation s l r) with (@None (list string))
    end.
    2:{ unfold unique_violation.
        cbn [ts_unique student_departments_table find].
        match goal with
        | |- context [existsb ?f rs] =>
            replace (existsb f rs) with (existsb (enrollment_is sid d) rs)
        end.
        - now rewrite He.
        - apply existsb_pointwise. intros r. unfold same_key, enrollment_is.
          cbn [forallb]. rewrite andb_true_r. reflexivity. }
    match goal with
    | |- context [fk_violation ?s ?ts ?r] =>
        replace (fk_violation s ts r) with false
    end.
    - rewrite andb_false_r. eauto.
    - symmetry. unfold fk_violation.
      cbn [ts_fks student_departments_table existsb fk_col fk_table].
      rewrite !parent_has_rows.
      match goal with
      | |- context [col ?r "studentId"] =>
          change (col r "studentId") with (VNum sid)
      end.
      match goal with
      | |- context [col ?r "departmentId"] =>
          change (col r "departmentId") with (VNum d)
      end.
      rewrite Hs, Hd. reflexivity. }
  destruct Hins as (rowid & db' & Hins).
  pose proof (sql_insert_ok _ _ _ _ _ Hins)
    as (Hc & Hinit & Hother & t' & Hft & _ & Hrows).
  rewrite Hfe in Hft. inversion Hft; subst t'. cbn [t_schema] in Hrows.
  exists db'. eexists. split.
  - unfold enroll_student, try_catch. unfold bind at 1.
    rewrite (getFirstAsync_run _ _ _ _ Hf).
    destruct (first_row_exists (id_is sid) (t_rows t) Hs') as (r & ->).
    unfold bind at 1. rewrite (getFirstAsync_run _ _ _ _ Hfe).
    cbn [t_rows]. apply hd_error_filter_existsb in He. rewrite He.
    unfold bind, ret. rewrite Hins. reflexivity.
  - split; [exact Hc|]. split; [now apply Hinit|]. split; [exact Hother|].
    split; [exact Hrows|].
    unfold enrollment_is.
    split; [|split; reflexivity].
    change (col (new_row student_departments_table _ rowid (now db))
                "studentId") with (VNum sid).
    change (col (new_row student_departments_table _ rowid (now db))
                "departmentId") with (VNum d).
    simpl. now rewrite !Z.eqb_refl.
Qed.

(** [bulkEnroll] step by step, from an initialized database with no open
    transaction. *)
Lemma bulkEnroll_run (d : Z) (ids : list Z) (db : DB) :
  initialized db -> txn db = None ->
  exists db1,
    in_transaction_of db db1 /\ tables db1 = tables db
    /\ bulkEnroll d ids db
       = if has_rowid (rows "departments" db) (VNum d) then
           match for_of ids (enroll_student d)
                        (mkBulkEnrollmentResult 0 []) db1 with
           | (Ok r, db2) => (Ok r, committed db2)
           | (Err e, _) => (Err e, db)
           end
         else (Err (department_not_found d), db).
Proof.
  intros Hi Hnone.
  destruct (BEGIN_TRANSACTION_run db Hnone) as (db1 & Hb & Ht1 & Htabs).
  exists db1. split; [exact Ht1|]. split; [exact Htabs|].
  destruct (initialized_find db "departments" departments_table Hi eq_refl)
    as (t & Hf & _).
  assert (Hf1 : find_table "departments" (tables db1) = Some t)
    by now rewrite Htabs.
  pose proof (@rollback_rethrows db Hnone BulkEnrollmentResult) as Hrb.
  unfold bulkEnroll. unfold bind at 1. rewrite Hb.
  unfold try_catch. unfold bind at 1.
  rewrite (getFirstAsync_run _ _ _ _ Hf1), (rows_find _ _ _ Hf).
  change (has_rowid (t_rows t) (VNum d)) with (existsb (id_is d) (t_rows t)).
  destruct (hd_error (filter (id_is d) (t_rows t))) as [dep|] eqn:Edep.
  - rewrite (hd_error_filter_some _ _ _ Edep).
    unfold bind at 1.
    destruct (for_of ids _ _ db1) as [[r|e] db2] eqn:E.
    + destruct (enroll_loop_returns d ids (mkBulkEnrollmentResult 0 []) db1)
        as (r' & db2' & l & E' & Hc & _).
      rewrite E in E'. inversion E'; subst r' db2'.
      unfold bind at 1.
      rewrite (COMMIT_run db db2 (in_transaction_step _ _ _ Ht1 Hc)).
      reflexivity.
    + destruct (enroll_loop_returns d ids (mkBulkEnrollmentResult 0 []) db1)
        as (r' & db2' & l & E' & _).
      rewrite E in E'. discriminate.
  - apply hd_error_filter_existsb in Edep. rewrite Edep.
    unfold throw at 1. now apply Hrb.
Qed.

(** ** [bulkEnroll] twice *)

(** After the loop every input id whose student exists has a row for the
    department; students and departments are untouched. *)
Lemma enroll_loop_enrolls (d : Z) (ids : list Z) :
  forall (res : BulkEnrollmentResult) (db : DB),
    initialized db ->
    has_rowid (rows "departments" db) (VNum d) = true ->
    exists res' db' extra,
      for_of ids (enroll_student d) res db = (Ok res', db')
      /\ initialized db'
      /\ rows "students" db' = rows "students" db
      /\ rows "departments" db' = rows "departments" db
      /\ rows "student_departments" db'
         = rows "student_departments" db ++ extra
      /\ (forall sid, In sid ids ->
                      has_rowid (rows "students" db) (VNum sid) = true ->
                      existsb (enrollment_is sid d)
                              (rows "student_departments" db') = true).
Proof.
  induction ids as [|sid ids IH]; intros res db Hi Hd; simpl.
  - exists res, db, []. unfold ret. rewrite app_nil_r.
    repeat split; auto. all: try (intros sid []).
  - assert (Hstep : exists res1 db1 extra1,
               enroll_student d sid res db = (Ok res1, db1)
               /\ initialized db1
               /\ rows "students" db1 = rows "students" db
               /\ rows "departments" db1 = rows "departments" db
               /\ rows "student_departments" db1
                  = rows "student_departments" db ++ extra1
               /\ (has_rowid (rows "students" db) (VNum sid) = true ->
                   existsb (enrollment_is sid d)
                           (rows "student_departments" db1) = true)).
    { destruct (has_rowid (rows "students" db) (VNum sid)) eqn:Hs.
      - destruct (existsb (enrollment_is sid d)
                          (rows "student_departments" db)) eqn:He.
        + exists (push_error res sid "Already enrolled"), db, [].
          rewrite (enroll_student_already d sid res db Hi Hs He).
          rewrite app_nil_r. repeat split; auto.
        + destruct (enroll_student_new d sid res db Hi Hd Hs He)
            as (db1 & r & E & _ & Hi1 & Hother & Hrows & Hr & _).
          exists (enrolled res), db1, [r]. rewrite E.
          repeat split; auto.
          intros _. rewrite Hrows, existsb_app. simpl. rewrite Hr.
          now rewrite orb_true_r.
      - exists (push_error res sid "Student not found"), db, [].
        rewrite (enroll_student_not_found d sid res db Hi Hs).
        rewrite app_nil_r. repeat split; auto. discriminate. }
    destruct Hstep as (res1 & db1 & extra1 & E1 & Hi1 & Hs1 & Hd1 & Hr1 & He1).
    destruct (IH res1 db1 Hi1) as (res2 & db2 & extra2 & E2 & Hi2 & Hs2 & Hd2
                                   & Hr2 & He2).
    { now rewrite Hd1. }
    exists res2, db2, (extra1 ++ extra2). unfold bind. rewrite E1, E2.
    split; [reflexivity|]. split; [exact Hi2|].
    split; [congruence|]. split; [congruence|].
    split; [rewrite Hr2, Hr1; now rewrite app_assoc|].
    intros x [->|Hx] Hex.
    + rewrite Hr2, existsb_app, (He1 Hex). reflexivity.
    + apply He2; [exact Hx | now rewrite Hs1].
Qed.

(** When every existing student of the input already has a row, the loop
    changes nothing and reports each id. *)
Lemma enroll_loop_again (d : Z) (ids : list Z) :
  forall (res : BulkEnrollmentResult) (db : DB),
    initialized db ->
    (forall sid, In sid ids ->
                 has_rowid (rows "students" db) (VNum sid) = true ->
                 existsb (enrollment_is sid d)
                         (rows "student_departments" db) = true) ->
    for_of ids (enroll_student d) res db
    = (Ok (mkBulkEnrollmentResult (successCount res)
             (errors res ++ map (second_call_error db) ids)), db).
Proof.
  induction ids as [|sid ids IH]; intros res db Hi Hall; simpl.
  - unfold ret. rewrite app_nil_r. now destruct res.
  - unfold bind. unfold second_call_error at 1.
    destruct (has_rowid (rows "students" db) (VNum sid)) eqn:Hs.
    + rewrite (enroll_student_already d sid res db Hi Hs)
        by (apply Hall; [now left | exact Hs]).
      rewrite IH; [|exact Hi | intros x Hx; apply Hall; now right].
      simpl. now rewrite <- app_assoc.
    + rewrite (enroll_student_not_found d sid res db Hi Hs).
      rewrite IH; [|exact Hi | intros x Hx; apply Hall; now right].
      simpl. now rewrite <- app_assoc.
Qed.

(** C6: on an initialized database with no transaction open,
    [bulkEnroll] throws exactly when the department does not exist, and then
    the rollback leaves the database as it was; in every other case it
    commits and returns a result in which each input id has its
    disposition: a student who is not found or already enrolled does not
    stop the loop, and every input id whose student exists has its
    enrollment row in the committed database. *)
Theorem bulkEnroll_throws_iff_no_department (d : Z) (ids : list Z) (db : DB) :
  initialized db -> txn db = None ->
  (has_rowid (rows "departments" db) (VNum d) = false ->
   bulkEnroll d ids db = (Err (department_not_found d), db))
  /\ (has_rowid (rows "departments" db) (VNum d) = true ->
      exists r db',
        bulkEnroll d ids db = (Ok r, db') /\ txn db' = None
        /\ successCount r + Z.of_nat (List.length (errors r))
           = Z.of_nat (List.length ids)
        /\ (forall sid, In sid ids ->
                        has_rowid (rows "students" db) (VNum sid) = true ->
                        existsb (enrollment_is sid d)
                                (rows "student_departments" db') = true))
  /\ ((exists e, fst (bulkEnroll d ids db) = Err e)
      <-> has_rowid (rows "departments" db) (VNum d) = false).
Proof.
  intros Hi Hnone.
  destruct (bulkEnroll_run d ids db Hi Hnone) as (db1 & Ht1 & Htabs & Hrun).
  assert (Hyes : has_rowid (rows "departments" db) (VNum d) = true ->
                 exists r db',
                   bulkEnroll d ids db = (Ok r, db') /\ txn db' = None
                   /\ successCount r + Z.of_nat (List.length (errors r))
                      = Z.of_nat (List.length ids)
                   /\ (forall sid, In sid ids ->
                          has_rowid (rows "students" db) (VNum sid) = true ->
                          existsb (enrollment_is sid d)
                                  (rows "student_departments" db') = true)).
  { intros Hd. rewrite Hd in Hrun.
    assert (Hi1 : initialized db1)
      by (eapply initialized_same_tables; eauto).
    destruct (enroll_loop_enrolls d ids (mkBulkEnrollmentResult 0 []) db1 Hi1)
      as (r & db2 & extra & E & _ & _ & _ & _ & He2).
    { now rewrite (rows_same_tables db db1 _ Htabs). }
    rewrite E in Hrun.
    exists r, (committed db2). split; [exact Hrun|]. split; [reflexivity|].
    split; [eapply bulkEnroll_one_disposition_per_id_count; eauto|].
    intros sid Hin Hs.
    change (rows "student_departments" (committed db2))
      with (rows "student_departments" db2).
    apply He2; [exact Hin|]. now rewrite (rows_same_tables db db1 _ Htabs). }
  split; [|split].
  - intros Hd. now rewrite Hd in Hrun.
  - exact Hyes.
  - split.
    + intros (e & He).
      destruct (has_rowid (rows "departments" db) (VNum d)) eqn:Hd;
        [|reflexivity].
      destruct (Hyes eq_refl) as (r & db' & Hr & _).
      rewrite Hr in He. discriminate.
    + intros Hd. rewrite Hd in Hrun. rewrite Hrun. simpl. eauto.
Qed.

Lemma bulkEnroll_throws_iff_no_department_witness :
  bulkEnroll 5 [1; 7] school_db = (Err (department_not_found 5), school_db)
  /\ (exists r db',
        bulkEnroll 1 [1; 7] school_db = (Ok r, db') /\ txn db' = None
        /\ successCount r + Z.of_nat (List.length (errors r))
           = Z.of_nat (List.length [1; 7])
        /\ (forall sid, In sid [1; 7] ->
              has_rowid (rows "students" school_db) (VNum sid) = true ->
              existsb (enrollment_is sid 1)
                      (rows "student_departments" db') = true)).
Proof.
  split.
  - apply (proj1 (bulkEnroll_throws_iff_no_department 5 [1; 7] school_db
                    eq_refl eq_refl)).
    reflexivity.
  - apply (proj1 (proj2 (bulkEnroll_throws_iff_no_department 1 [1; 7]
                           school_db eq_refl eq_refl))).
    reflexivity.
Defined.

(** C5, as the code has it: after a call of [bulkEnroll] that returned, the
    same call again enrolls nobody, changes nothing and reports every id
    once, in input order: "Already enrolled" when a student with that id
    exists, "Student not found" (as in the first call) when none does. *)
Theorem bulkEnroll_twice (d : Z) (ids : list Z) (db db1 : DB)
        (r1 : BulkEnrollmentResult) :
  initialized db -> txn db = None ->
  bulkEnroll d ids db = (Ok r1, db1) ->
  bulkEnroll d ids db1
  = (Ok (mkBulkEnrollmentResult 0 (map (second_call_error db) ids)), db1).
Proof.
  intros Hi Hnone Hfirst.
  destruct (bulkEnroll_run d ids db Hi Hnone) as (dbb & Htb & Htabs & Hrun).
  rewrite Hrun in Hfirst.
  destruct (has_rowid (rows "departments" db) (VNum d)) eqn:Hd;
    [|discriminate].
  assert (Hib : initialized dbb) by (eapply initialized_same_tables; eauto).
  destruct (enroll_loop_enrolls d ids (mkBulkEnrollmentResult 0 []) dbb Hib)
    as (res' & db2 & extra & E & Hi2 & Hs2 & Hd2 & _ & He2).
  { now rewrite (rows_same_tables db dbb _ Htabs). }
  rewrite E in Hfirst. inversion Hfirst; subst res' db1. clear Hfirst.
  assert (Hi1 : initialized (committed db2)) by exact Hi2.
  destruct (bulkEnroll_run d ids (committed db2) Hi1 eq_refl)
    as (dbc & Htc & Htabc & Hrun2).
  rewrite Hrun2.
  assert (Hstud : forall n, rows n dbc = rows n db2).
  { intros n. now rewrite (rows_same_tables (committed db2) dbc n Htabc). }
  assert (Hsdb : rows "students" db2 = rows "students" db).
  { now rewrite Hs2, (rows_same_tables db dbb _ Htabs). }
  change (rows "departments" (committed db2)) with (rows "departments" db2).
  rewrite Hd2, (rows_same_tables db dbb _ Htabs), Hd.
  rewrite enroll_loop_again.
  - simpl.
    rewrite (committed_in_transaction (committed db2) eq_refl dbc Htc Htabc).
    do 3 f_equal. apply map_ext. intros sid. unfold second_call_error.
    now rewrite Hstud, Hsdb.
  - eapply initialized_same_tables; eauto.
  - intros sid Hin Hex. rewrite !Hstud in *. apply He2; [exact Hin|].
    rewrite Hsdb in Hex. now rewrite (rows_same_tables db dbb _ Htabs).
Qed.

Lemma bulkEnroll_twice_witness :
  bulkEnroll 1 [1; 7; 2] school_db
  = (Ok (mkBulkEnrollmentResult 2 [mkStudentError 7 "Student not found"]),
     enrolled_around_7_db)
  /\ bulkEnroll 1 [1; 7; 2] enrolled_around_7_db
     = (Ok (mkBulkEnrollmentResult 0
              [ mkStudentError 1 "Already enrolled";
                mkStudentError 7 "Student not found";
                mkStudentError 2 "Already enrolled" ]),
        enrolled_around_7_db).
Proof.
  assert (H : bulkEnroll 1 [1; 7; 2] school_db
              = (Ok (mkBulkEnrollmentResult 2
                       [mkStudentError 7 "Student not found"]),
                 enrolled_around_7_db))
    by (vm_compute; reflexivity).
  split; [exact H|].
  exact (bulkEnroll_twice 1 [1; 7; 2] school_db _ _ eq_refl eq_refl H).
Defined.

(** C5 as stated fails when an input id names no student: the second call
    reports "Student not found" for it, not "Already enrolled". *)
Lemma bulkEnroll_twice_student_not_found :
  ~ second_call_all_already_enrolled 1 [1; 7] school_db.
Proof.
  intros H.
  destruct (H _ _ eq_refl) as (r2 & db2 & Hrun & _ & Hall).
  vm_compute in Hrun. inversion Hrun; subst r2.
  specialize (Hall 7 (or_intror (or_introl eq_refl))).
  simpl in Hall. destruct Hall as [Hx|[Hx|[]]]; discriminate Hx.
Qed.

(** ** [unenrollStudent], then [bulkEnroll] *)

(** A student with a row for the department, in whatever state, is
    reported and the database does not change. *)
Lemma bulkEnroll_existing_row (s d : Z) (db : DB) :
  initialized db -> txn db = None ->
  has_rowid (rows "departments" db) (VNum d) = true ->
  has_rowid (rows "students" db) (VNum s) = true ->
  existsb (enrollment_is s d) (rows "student_departments" db) = true ->
  bulkEnroll d [s] db
  = (Ok (mkBulkEnrollmentResult 0 [mkStudentError s "Already enrolled"]), db).
Proof.
  intros Hi Hnone Hd Hs He.
  destruct (bulkEnroll_run d [s] db Hi Hnone) as (dbb & Htb & Htabs & ->).
  rewrite Hd. simpl. unfold bind.
  rewrite enroll_student_already.
  - unfold ret. simpl.
    now rewrite (committed_in_transaction db Hnone dbb Htb Htabs).
  - eapply initialized_same_tables; eauto.
  - now rewrite (rows_same_tables db dbb _ Htabs).
  - now rewrite (rows_same_tables db dbb _ Htabs).
Qed.

(** [unenrollStudent] on a student with a row for the department. *)
Lemma unenrollStudent_run (s d : Z) (db : DB) :
  initialized db ->
  existsb (enrollment_is s d) (rows "student_departments" db) = true ->
  exists db1,
    unenrollStudent s d db = (Ok true, db1)
    /\ initialized db1 /\ same_connection db db1
    /\ (forall m, ieq "student_departments" m = false ->
                  rows m db1 = rows m db)
    /\ rows "student_departments" db1
       = map (fun r => if enrollment_is s d r
                       then assign (withdrawal db) r else r)
             (rows "student_departments" db).
Proof.
  intros Hi He.
  destruct (initialized_find db "student_departments"
              student_departments_table Hi eq_refl) as ([sc rs q] & Hfe & Hse).
  simpl in Hse. subst sc.
  rewrite (rows_find _ _ _ Hfe) in *. cbn [t_rows] in *.
  unfold unenrollStudent, try_catch, CURRENT_TIMESTAMP_value.
  unfold bind at 1. unfold bind at 1. unfold sql_update. rewrite Hfe.
  cbn [t_schema t_rows t_seq].
  change (unknown_column student_departments_table _)
    with (@None (string * value)).
  cbv iota.
  destruct (filter (enrollment_is s d) rs) as [|r0 hit] eqn:Ehit.
  { assert (Hn : hd_error (filter (enrollment_is s d) rs) = None)
      by now rewrite Ehit.
    apply hd_error_filter_existsb in Hn. congruence. }
  match goal with
  | |- context [find ?f (ts_cols student_departments_table)] =>
      change (find f (ts_cols student_departments_table)) with (@None column)
  end.
  cbv iota.
  match goal with
  | |- context [find ?f (ts_unique student_departments_table)] =>
      change (find f (ts_unique student_departments_table))
        with (@None (list string))
  end.
  cbv iota.
  match goal with
  | |- context [existsb ?f (ts_fks student_departments_table)] =>
      change (existsb f (ts_fks student_departments_table)) with false
  end.
  rewrite andb_false_r.
  eexists. split; [reflexivity|].
  split; [eapply initialized_set_table; eauto|].
  split; [auto with conn|].
  split.
  - intros m Hm. eapply rows_set_table_other; eauto.
  - erewrite rows_set_table_same; eauto.
Qed.

(** C9: the already-enrolled check of [bulkEnroll] looks only at
    (studentId, departmentId): a student with a row for the department,
    whatever its isActive and status, is reported "Already enrolled" and the
    database is left as it was.  [unenrollStudent] keeps the row and sets
    isActive = 0 and status = 'withdrawn'; a [bulkEnroll] after it reports
    "Already enrolled" again and neither adds a row nor changes the
    withdrawn one. *)
Theorem bulkEnroll_after_unenroll (s d : Z) (db : DB) :
  initialized db -> txn db = None ->
  Forall (conforms student_departments_table)
         (rows "student_departments" db) ->
  has_rowid (rows "departments" db) (VNum d) = true ->
  has_rowid (rows "students" db) (VNum s) = true ->
  existsb (enrollment_is s d) (rows "student_departments" db) = true ->
  bulkEnroll d [s] db
  = (Ok (mkBulkEnrollmentResult 0 [mkStudentError s "Already enrolled"]), db)
  /\ exists db1,
       unenrollStudent s d db = (Ok true, db1)
       /\ List.length (rows "student_departments" db1)
          = List.length (rows "student_departments" db)
       /\ existsb (enrollment_is s d) (rows "student_departments" db1) = true
       /\ (forall r, In r (rows "student_departments" db1) ->
                     enrollment_is s d r = true ->
                     col r "isActive" = VNum 0
                     /\ col r "status" = VText "withdrawn")
       /\ bulkEnroll d [s] db1
          = (Ok (mkBulkEnrollmentResult 0
                   [mkStudentError s "Already enrolled"]), db1).
Proof.
  intros Hi Hnone Hconf Hd Hs He.
  split; [now apply bulkEnroll_existing_row|].
  destruct (unenrollStudent_run s d db Hi He)
    as (db1 & Hrun & Hi1 & Hc & Hother & Hrows).
  assert (Hkeep : forall r, enrollment_is s d (assign (withdrawal db) r)
                            = enrollment_is s d r).
  { intros r. unfold enrollment_is. now rewrite !col_assign. }
  assert (He1 : existsb (enrollment_is s d) (rows "student_departments" db1)
                = true).
  { rewrite Hrows, existsb_map_same; [exact He|].
    intros r. destruct (enrollment_is s d r) eqn:E; [|exact E].
    now rewrite Hkeep. }
  exists db1. split; [exact Hrun|].
  split; [now rewrite Hrows, length_map|].
  split; [exact He1|]. split.
  - intros r Hin Hr. rewrite Hrows in Hin. apply in_map_iff in Hin.
    destruct Hin as (r0 & Hr0 & Hin0).
    rewrite Forall_forall in Hconf. specialize (Hconf r0 Hin0).
    destruct (enrollment_is s d r0) eqn:E.
    + subst r. rewrite !col_assign.
      rewrite !(has_col_conforms _ _ _ Hconf). split; reflexivity.
    + subst r. congruence.
  - apply bulkEnroll_existing_row; auto.
    + destruct Hc as (-> & _). exact Hnone.
    + now rewrite Hother by reflexivity.
    + now rewrite Hother by reflexivity.
Qed.

Lemma bulkEnroll_after_unenroll_witness :
  bulkEnroll 1 [1] enrolled_db
  = (Ok (mkBulkEnrollmentResult 0 [mkStudentError 1 "Already enrolled"]),
     enrolled_db)
  /\ exists db1,
       unenrollStudent 1 1 enrolled_db = (Ok true, db1)
       /\ List.length (rows "student_departments" db1)
          = List.length (rows "student_departments" enrolled_db)
       /\ existsb (enrollment_is 1 1) (rows "student_departments" db1) = true
       /\ (forall r, In r (rows "student_departments" db1) ->
                     enrollment_is 1 1 r = true ->
                     col r "isActive" = VNum 0
                     /\ col r "status" = VText "withdrawn")
       /\ bulkEnroll 1 [1] db1
          = (Ok (mkBulkEnrollmentResult 0
                   [mkStudentError 1 "Already enrolled"]), db1).
Proof.
  apply (bulkEnroll_after_unenroll 1 1 enrolled_db eq_refl eq_refl);
    [repeat constructor | reflexivity | reflexivity | reflexivity].
Defined.

(** ** [updateDepartment] *)

Lemma initialized_shape (db : DB) :
  initialized db ->
  exists r1 q1 r2 q2 r3 q3 r4 q4 r5 q5 r6 q6 r7 q7,
    tables db
    = [ mkTable students_table r1 q1; mkTable departments_table r2 q2;
        mkTable student_departments_table r3 q3;
        mkTable bill_items_table r4 q4; mkTable bills_table r5 q5;
        mkTable bill_item_relations_table r6 q6;
        mkTable payments_table r7 q7 ].
Proof.
  unfold initialized, createTablesSQL. intros H.
  destruct (tables db) as [|[s1 r1 q1] [|[s2 r2 q2] [|[s3 r3 q3] [|[s4 r4 q4]
    [|[s5 r5 q5] [|[s6 r6 q6] [|[s7 r7 q7] [|? ?]]]]]]]]; try discriminate H.
  simpl in H. inversion H; subst.
  exists r1, q1, r2, q2, r3, q3, r4, q4, r5, q5, r6, q6, r7, q7. reflexivity.
Qed.

(** Deleting bill items reaches, through the cascade, only the relations
    that refer to them. *)
Lemma delete_rows_bill_items (dead : row -> bool) (fk : bool)
      (r1 r2 r3 r4 r5 r6 r7 : list row) (q1 q2 q3 q4 q5 q6 q7 : Z) :
  delete_rows 8 "bill_items" dead fk
    [ mkTable students_table r1 q1; mkTable departments_table r2 q2;
      mkTable student_departments_table r3 q3;
      mkTable bill_items_table r4 q4; mkTable bills_table r5 q5;
      mkTable bill_item_relations_table r6 q6;
      mkTable payments_table r7 q7 ]
  = [ mkTable students_table r1 q1; mkTable departments_table r2 q2;
      mkTable student_departments_table r3 q3;
      mkTable bill_items_table (filter (fun r => negb (dead r)) r4) q4;
      mkTable bills_table r5 q5;
      mkTable bill_item_relations_table
        (if fk
         then filter
                (fun r =>
                   negb (existsb (sql_eq (col r "billItemId"))
                                 (map (fun r' => col r' "id") (filter dead r4))))
                r6
         else r6)
        q6;
      mkTable payments_table r7 q7 ].
Proof. destruct fk; vm_compute; reflexivity. Qed.

Lemma sql_delete_bill_items (id : Z) (db : DB) :
  initialized db ->
  exists c db',
    sql_delete "bill_items" (departmentId_is id) db = (Ok c, db')
    /\ initialized db'
    /\ rows "bill_items" db'
       = filter (other_department id) (rows "bill_items" db)
    /\ rows "departments" db' = rows "departments" db.
Proof.
  intros Hi.
  destruct (initialized_shape db Hi)
    as (r1 & q1 & r2 & q2 & r3 & q3 & r4 & q4 & r5 & q5 & r6 & q6 & r7 & q7
        & Hshape).
  assert (Hfind : find_table "bill_items" (tables db)
                  = Some (mkTable bill_items_table r4 q4))
    by (rewrite Hshape; reflexivity).
  assert (Hrun : sql_delete "bill_items" (departmentId_is id) db
                 = (Ok (Z.of_nat (List.length
                                    (filter (departmentId_is id) r4))),
                    with_tables
                      (delete_rows 8 "bill_items" (departmentId_is id)
                                   (foreign_keys db) (tables db)) db)).
  { unfold sql_delete. rewrite Hfind. cbn [t_rows].
    replace (List.length (tables db)) with 7%nat
      by (rewrite Hshape; reflexivity).
    reflexivity. }
  rewrite Hshape, delete_rows_bill_items in Hrun.
  do 2 eexists. split; [exact Hrun|].
  unfold rows, initialized. rewrite Hshape.
  split; [reflexivity|]. split; reflexivity.
Qed.

Lemma addBillItem_connection (b : NewBillItem) (db db' : DB)
      (res : result BillItem) :
  addBillItem b db = (res, db') -> same_connection db db'.
Proof.
  unfold addBillItem, try_catch, bind, ret, throw. intros H.
  destruct (sql_insert _ _ db) as [[i|e] db1] eqn:E;
    apply sql_insert_connection in E; inversion H; now subst.
Qed.

Lemma add_department_items_connection (id : Z)
      (items : list DepartmentBillItem) (db db' : DB) (res : result unit) :
  for_of items (add_department_item id) tt db = (res, db') ->
  same_connection db db'.
Proof.
  intros H.
  apply (for_of_invariant (same_connection db) (add_department_item id) items)
    with (s := tt) (db := db) (res := res); auto with conn.
  intros x s d r d' Hd Hx. eapply same_connection_trans; [exact Hd|].
  unfold add_department_item, bind, ret in Hx.
  destruct (addBillItem _ d) as [[b|e] d1] eqn:E;
    apply addBillItem_connection in E; inversion Hx; now subst.
Qed.

(** The rows that the loop of [updateDepartment] appends are the supplied
    items, in order, tagged with the department. *)
Lemma add_department_items_rows (id : Z) (items : list DepartmentBillItem) :
  forall (db db' : DB),
    initialized db ->
    for_of items (add_department_item id) tt db = (Ok tt, db') ->
    initialized db'
    /\ rows "departments" db' = rows "departments" db
    /\ exists news,
         rows "bill_items" db' = rows "bill_items" db ++ news
         /\ map (project supplied_columns) news
            = map (supplied_values id) items
         /\ forallb (departmentId_is id) news = true.
Proof.
  induction items as [|item items IH]; intros db db' Hi H; simpl in H.
  - unfold ret in H. inversion H; subst db'.
    split; [exact Hi|]. split; [reflexivity|].
    exists []. now rewrite app_nil_r.
  - unfold bind in H at 1.
    destruct (add_department_item id item tt db) as [[[]|e] db1] eqn:E;
      [|discriminate].
    unfold add_department_item, addBillItem, try_catch, bind, ret, throw in E.
    destruct (sql_insert _ _ db) as [[rowid|e] db2] eqn:Eins;
      [|discriminate].
    inversion E; subst db2. clear E.
    pose proof (sql_insert_ok _ _ _ _ _ Eins)
      as (_ & Hinit & Hother & t & Hf & _ & Hrows).
    destruct (initialized_find db "bill_items" bill_items_table Hi eq_refl)
      as (t' & Hf' & Hs).
    rewrite Hf in Hf'. inversion Hf'; subst t'. rewrite Hs in Hrows.
    cbn [nb_name nb_amount nb_departmentId nb_description nb_category
         nb_isRequired] in Hrows.
    destruct (IH db1 db' (Hinit Hi) H) as (Hi' & Hdep & news & Hn & Hp & Hall).
    split; [exact Hi'|].
    split; [rewrite Hdep; now apply Hother|].
    eexists (_ :: news). split; [|split].
    + rewrite Hn, Hrows, <- app_assoc. reflexivity.
    + cbn [map]. rewrite Hp. f_equal.
    + cbn [forallb]. rewrite Hall, andb_true_r.
      unfold departmentId_is.
      match goal with
      | |- context [col ?r "departmentId"] =>
          change (col r "departmentId") with (VNum id)
      end.
      simpl. apply Z.eqb_refl.
Qed.

(** [updateDepartment] step by step, from a connection with no open
    transaction. *)
Lemma updateDepartment_run (department : Department) (id : Z) (db : DB) :
  txn db = None -> d_id department = Some id -> id <> 0 ->
  exists db1,
    in_transaction_of db db1 /\ tables db1 = tables db
    /\ updateDepartment department db
       = match sql_update "departments" (department_assignments department)
                 (id_is id) db1 with
         | (Err e, _) => (Err e, db)
         | (Ok _, db2) =>
             match d_billItems department with
             | None => (Ok department, committed db2)
             | Some billItems =>
                 match sql_delete "bill_items" (departmentId_is id) db2 with
                 | (Err e, _) => (Err e, db)
                 | (Ok _, db3) =>
                     match for_of billItems (add_department_item id) tt
                                  db3 with
                     | (Err e, _) => (Err e, db)
                     | (Ok _, db4) => (Ok department, committed db4)
                     end
                 end
             end
         end.
Proof.
  intros Hnone Hid Hnz.
  destruct (BEGIN_TRANSACTION_run db Hnone) as (db1 & Hb & Ht1 & Htabs).
  exists db1. split; [exact Ht1|]. split; [exact Htabs|].
  pose proof (@rollback_rethrows db Hnone Department) as Hrb.
  unfold updateDepartment. rewrite Hid.
  assert (Hbody : forall body : M Department,
             match id with
             | 0 => throw "Department ID is required for update"
             | _ => body
             end = body).
  { intros body. destruct id; [contradiction | reflexivity | reflexivity]. }
  rewrite Hbody. clear Hbody.
  unfold bind at 1. rewrite Hb.
  unfold try_catch. unfold bind at 1.
  change (sql_update "departments" _ (id_is id) db1)
    with (sql_update "departments" (department_assignments department)
                     (id_is id) db1).
  destruct (sql_update _ _ _ db1) as [[c|e] db2] eqn:E2.
  2:{ apply sql_update_err in E2. subst db2. now apply Hrb. }
  apply sql_update_connection in E2.
  pose proof (in_transaction_step _ _ _ Ht1 E2) as Ht2.
  unfold bind at 1.
  destruct (d_billItems department) as [billItems|].
  - unfold bind at 1.
    destruct (sql_delete _ _ db2) as [[c3|e3] db3] eqn:E3.
    2:{ apply sql_delete_connection in E3. apply Hrb.
        eapply in_transaction_step; eauto. }
    apply sql_delete_connection in E3.
    pose proof (in_transaction_step _ _ _ Ht2 E3) as Ht3.
    change (for_of billItems _ tt db3)
      with (for_of billItems (add_department_item id) tt db3).
    destruct (for_of billItems _ tt db3) as [[[]|e4] db4] eqn:E4.
    2:{ apply add_department_items_connection in E4. apply Hrb.
        eapply in_transaction_step; eauto. }
    apply add_department_items_connection in E4.
    pose proof (in_transaction_step _ _ _ Ht3 E4) as Ht4.
    unfold bind at 1. rewrite (COMMIT_run db db4 Ht4). reflexivity.
  - unfold ret at 1. unfold bind at 1.
    rewrite (COMMIT_run db db2 Ht2). reflexivity.
Qed.

(** With the department row present and well formed, the UPDATE of
    [updateDepartment] succeeds and keeps the row's id. *)
Lemma update_department_row (department : Department) (id : Z) (db : DB) :
  initialized db ->
  Forall (conforms departments_table) (rows "departments" db) ->
  has_rowid (rows "departments" db) (VNum id) = true ->
  exists c db',
    sql_update "departments" (department_assignments department) (id_is id) db
    = (Ok c, db')
    /\ has_rowid (rows "departments" db') (VNum id) = true.
Proof.
  intros Hi Hconf Hd.
  destruct (initialized_find db "departments" departments_table Hi eq_refl)
    as ([sc rs q] & Hf & Hs).
  simpl in Hs. subst sc. rewrite (rows_find _ _ _ Hf) in *. cbn [t_rows] in *.
  unfold sql_update. rewrite Hf. cbn [t_schema t_rows t_seq].
  change (unknown_column departments_table _) with (@None (string * value)).
  cbv iota.
  destruct (filter (id_is id) rs) as [|r0 hit] eqn:Ehit.
  { assert (Hn : hd_error (filter (id_is id) rs) = None) by now rewrite Ehit.
    apply hd_error_filter_existsb in Hn. unfold has_rowid, id_is in *.
    congruence. }
  assert (Hr0 : conforms departments_table r0).
  { rewrite Forall_forall in Hconf. apply Hconf.
    eapply (proj1 (filter_In (id_is id) r0 rs)). rewrite Ehit. now left. }
  rewrite (update_notnull_check departments_table _ r0 Hr0).
  match goal with
  | |- context [find ?f (ts_cols departments_table)] =>
      change (find f (ts_cols departments_table)) with (@None column)
  end.
  cbv iota. cbn [ts_unique ts_fks departments_table find existsb].
  rewrite andb_false_r.
  do 2 eexists. split; [reflexivity|].
  erewrite rows_set_table_same; eauto. cbn [t_rows].
  rewrite <- Hd. clear. unfold has_rowid.
  induction rs as [|r rs IH]; simpl; [reflexivity|].
  rewrite IH. f_equal.
  destruct (id_is id r) eqn:E; [|reflexivity].
  now rewrite col_assign.
Qed.

(** With the department present every bill item of the loop is
    inserted. *)
Lemma add_department_items_succeed (id : Z) (items : list DepartmentBillItem) :
  forall (db : DB),
    initialized db ->
    has_rowid (rows "departments" db) (VNum id) = true ->
    exists db', for_of items (add_department_item id) tt db = (Ok tt, db').
Proof.
  induction items as [|item items IH]; intros db Hi Hd; simpl.
  - unfold ret. eauto.
  - destruct (initialized_find db "bill_items" bill_items_table Hi eq_refl)
      as ([sc rs q] & Hf & Hs).
    simpl in Hs. subst sc.
    assert (Hins : exists rowid db1,
               sql_insert "bill_items"
                 [ ("name", VText (di_name item));
                   ("amount", VNum (di_amount item));
                   ("departmentId", VNum id);
                   ("description", text_nullish (di_description item));
                   ("category", text_nullish (di_category item));
                   ("isRequired", bool_nullish (di_isRequired item)) ] db
               = (Ok rowid, db1)).
    { unfold sql_insert. rewrite Hf. cbn [t_schema t_rows t_seq].
      change (unknown_column bill_items_table _)
        with (@None (string * value)).
      cbv iota.
      match goal with
      | |- context [notnull_violation ?s ?r] =>
          change (notnull_violation s r) with (@None column)
      end.
      cbv iota.
      rewrite has_rowid_above
        by (unfold next_rowid; cbn [assigned ieq t_rows t_seq]; simpl; lia).
      cbn [unique_violation ts_unique bill_items_table find].
      match goal with
      | |- context [fk_violation ?s ?ts ?r] =>
          replace (fk_violation s ts r) with false
      end.
      - rewrite andb_false_r. eauto.
      - symmetry. unfold fk_violation.
        cbn [ts_fks bill_items_table existsb fk_col fk_table].
        rewrite !parent_has_rows.
        match goal with
        | |- context [col ?r "departmentId"] =>
            change (col r "departmentId") with (VNum id)
        end.
        rewrite Hd. reflexivity. }
    destruct Hins as (rowid & db1 & Hins).
    pose proof (sql_insert_ok _ _ _ _ _ Hins) as (_ & Hinit & Hother & _).
    destruct (IH db1 (Hinit Hi)) as (db' & Hloop).
    { now rewrite Hother by reflexivity. }
    exists db'. unfold bind at 1.
    unfold add_department_item, addBillItem, try_catch, bind, ret.
    cbn [nb_name nb_amount nb_departmentId nb_description nb_category
         nb_isRequired].
    rewrite Hins. exact Hloop.
Qed.

Lemma updateDepartment_outcome (department : Department) (db : DB) :
  initialized db -> txn db = None ->
  (forall e db', updateDepartment department db = (Err e, db') -> db' = db)
  /\ (forall dep db',
        updateDepartment department db = (Ok dep, db') ->
        exists id,
          d_id department = Some id /\ txn db' = None
          /\ match d_billItems department with
             | Some billItems =>
                 map (project supplied_columns)
                     (filter (departmentId_is id) (rows "bill_items" db'))
                 = map (supplied_values id) billItems
                 /\ filter (other_department id) (rows "bill_items" db')
                    = filter (other_department id) (rows "bill_items" db)
             | None => rows "bill_items" db' = rows "bill_items" db
             end).
Proof.
  intros Hi Hnone.
  destruct (d_id department) as [id|] eqn:Hid.
  2:{ unfold updateDepartment. rewrite Hid. unfold throw.
      split; intros ? ? H; inversion H; reflexivity. }
  destruct (Z.eq_dec id 0) as [->|Hnz].
  { unfold updateDepartment. rewrite Hid. unfold throw.
    split; intros ? ? H; inversion H; reflexivity. }
  destruct (updateDepartment_run department id db Hnone Hid Hnz)
    as (db1 & Ht1 & Htabs & ->).
  assert (Hi1 : initialized db1) by (eapply initialized_same_tables; eauto).
  destruct (sql_update _ _ _ db1) as [[c|e] db2] eqn:E2.
  2:{ split; intros ? ? H; inversion H; reflexivity. }
  destruct (sql_update_frame _ _ _ _ _ _ E2) as (Hi2 & Hother2).
  assert (Hb2 : rows "bill_items" db2 = rows "bill_items" db).
  { rewrite Hother2 by reflexivity. now apply rows_same_tables. }
  destruct (d_billItems department) as [billItems|].
  2:{ split; [intros ? ? H; inversion H|].
      intros dep db' H. inversion H; subst. exists id.
      split; [reflexivity|]. split; [reflexivity | exact Hb2]. }
  destruct (sql_delete_bill_items id db2 (Hi2 Hi1))
    as (c3 & db3 & -> & Hi3 & Hb3 & _).
  destruct (for_of billItems _ tt db3) as [[[]|e4] db4] eqn:E4.
  2:{ split; intros ? ? H; inversion H; reflexivity. }
  split; [intros ? ? H; inversion H|].
  intros dep db' H. inversion H; subst. exists id.
  split; [reflexivity|]. split; [reflexivity|].
  destruct (add_department_items_rows id billItems db3 db4 Hi3 E4)
    as (_ & _ & news & Hn & Hp & Hall).
  change (rows "bill_items" (committed db4)) with (rows "bill_items" db4).
  destruct (filter_all _ _ Hall) as (Hkeep & Hdrop).
  assert (H1 : filter (departmentId_is id)
                 (filter (other_department id) (rows "bill_items" db)) = [])
    by apply (filter_filter_negb (departmentId_is id)).
  assert (H2 : filter (other_department id) news = []) by exact Hdrop.
  rewrite Hn, Hb3, Hb2, !filter_app, H1, H2, Hkeep, app_nil_r. simpl.
  split; [exact Hp|].
  apply filter_idempotent.
Qed.

Lemma updateDepartment_succeeds (department : Department) (id : Z) (db : DB) :
  initialized db -> txn db = None ->
  d_id department = Some id -> id <> 0 ->
  Forall (conforms departments_table) (rows "departments" db) ->
  has_rowid (rows "departments" db) (VNum id) = true ->
  exists db', updateDepartment department db = (Ok department, db').
Proof.
  intros Hi Hnone Hid Hnz Hconf Hd.
  destruct (updateDepartment_run department id db Hnone Hid Hnz)
    as (db1 & Ht1 & Htabs & ->).
  assert (Hi1 : initialized db1) by (eapply initialized_same_tables; eauto).
  destruct (update_department_row department id db1 Hi1)
    as (c & db2 & E2 & Hd2).
  { now rewrite (rows_same_tables db db1 _ Htabs). }
  { now rewrite (rows_same_tables db db1 _ Htabs). }
  rewrite E2.
  destruct (sql_update_frame _ _ _ _ _ _ E2) as (Hi2 & _).
  destruct (d_billItems department) as [billItems|]; [|eauto].
  destruct (sql_delete_bill_items id db2 (Hi2 Hi1))
    as (c3 & db3 & -> & Hi3 & _ & Hd3).
  destruct (add_department_items_succeed id billItems db3 Hi3)
    as (db4 & ->); [now rewrite Hd3 | eauto].
Qed.

(** C7: [updateDepartment] runs in one transaction.  When it fails the
    database is the one before the call.  When it returns and a
    [billItems] array was supplied, the bill items of the department are
    exactly the supplied ones, in order (the old ones are gone, the bill
    items of other departments stay as they were); when no array was
    supplied the bill items are left alone.  It does return when the
    department row exists. *)
Theorem updateDepartment_replaces_bill_items (department : Department)
        (db : DB) :
  initialized db -> txn db = None ->
  (forall e db', updateDepartment department db = (Err e, db') -> db' = db)
  /\ (forall dep db',
        updateDepartment department db = (Ok dep, db') ->
        exists id,
          d_id department = Some id /\ txn db' = None
          /\ match d_billItems department with
             | Some billItems =>
                 map (project supplied_columns)
                     (filter (departmentId_is id) (rows "bill_items" db'))
                 = map (supplied_values id) billItems
                 /\ filter (other_department id) (rows "bill_items" db')
                    = filter (other_department id) (rows "bill_items" db)
             | None => rows "bill_items" db' = rows "bill_items" db
             end)
  /\ (forall id,
        d_id department = Some id -> id <> 0 ->
        Forall (conforms departments_table) (rows "departments" db) ->
        has_rowid (rows "departments" db) (VNum id) = true ->
        exists db', updateDepartment department db = (Ok department, db')).
Proof.
  intros Hi Hnone.
  destruct (updateDepartment_outcome department db Hi Hnone) as (Herr & Hok).
  split; [exact Herr|]. split; [exact Hok|].
  intros id Hid Hnz Hconf Hd.
  now apply (updateDepartment_succeeds department id db).
Qed.

Lemma updateDepartment_replaces_bill_items_witness :
  updateDepartment lab_update enrolled_db = (Ok lab_update, lab_updated_db)
  /\ map (project supplied_columns)
         (filter (departmentId_is 1) (rows "bill_items" lab_updated_db))
     = [ supplied_values 1 (mkDepartmentBillItem "Lab" 50 None None
                                                 (Some true)) ]
  /\ exists db', updateDepartment lab_update enrolled_db
                 = (Ok lab_update, db').
Proof.
  assert (H : updateDepartment lab_update enrolled_db
              = (Ok lab_update, lab_updated_db))
    by (vm_compute; reflexivity).
  split; [exact H|].
  destruct (updateDepartment_replaces_bill_items lab_update enrolled_db
              eq_refl eq_refl) as (_ & Hok & Hsucc).
  split.
  - destruct (Hok _ _ H) as (id & Hid & _ & Hrows & _).
    inversion Hid; subst id. exact Hrows.
  - apply (Hsucc 1 eq_refl); [discriminate | repeat constructor | reflexivity].
Defined.

(** ** [searchStudents] and its pagination *)

Lemma insert_sorted_length (le : row -> row -> bool) (r : row)
      (l : list row) :
  List.length (insert_sorted le r l) = S (List.length l).
Proof.
  induction l as [|h l IH]; simpl; [reflexivity|].
  destruct (le r h); simpl; [reflexivity | now rewrite IH].
Qed.

Lemma order_by_length (c : string) (o : SortOrder) (l : list row) :
  List.length (order_by c o l) = List.length l.
Proof.
  unfold order_by. induction l as [|r l IH]; simpl; [reflexivity|].
  now rewrite insert_sorted_length, IH.
Qed.

Lemma select_students_same (conds : list condition)
      (order : option (string * SortOrder)) (lim : option (Z * Z))
      (db db' : DB) (res : result (list row)) :
  select_students conds order lim db = (res, db') -> db' = db.
Proof.
  unfold select_students. intros H.
  destruct (find_table "students" (tables db)) as [t|]; [|now inversion H].
  destruct (unknown_field _ _); [now inversion H|].
  destruct order as [[c o]|]; [|now inversion H].
  destruct (known_column _ _); now inversion H.
Qed.

(** LIMIT and OFFSET cut the rows of the same query without them. *)
Lemma select_students_limit (conds : list condition)
      (order : option (string * SortOrder)) (l off : Z) (db : DB) :
  select_students conds order (Some (l, off)) db
  = match select_students conds order None db with
    | (Ok rs, d) => (Ok (limit_offset l off rs), d)
    | (Err e, d) => (Err e, d)
    end.
Proof.
  unfold select_students.
  destruct (find_table "students" (tables db)) as [t|]; [|reflexivity].
  destruct (unknown_field _ _); [reflexivity|].
  destruct order as [[c o]|]; [|reflexivity].
  destruct (known_column _ _); reflexivity.
Qed.

(** The count query counts the rows of the unlimited query. *)
Lemma count_students_length (conds : list condition)
      (order : option (string * SortOrder)) (db db' : DB) (rs : list row) :
  select_students conds order None db = (Ok rs, db') ->
  count_students conds db = (Ok (Z.of_nat (List.length rs)), db).
Proof.
  unfold count_students, bind, ret, select_students.
  destruct (find_table "students" (tables db)) as [t|]; [|discriminate].
  destruct (unknown_field _ _); [discriminate|].
  destruct order as [[c o]|].
  - destruct (known_column _ _); [|discriminate].
    intros H. inversion H. now rewrite order_by_length.
  - intros H. now inversion H.
Qed.

Lemma limit_offset_zero (off : Z) (l : list row) : limit_offset 0 off l = [].
Proof. reflexivity. Qed.

Lemma limit_offset_page_zero (n : Z) (l : list row) :
  0 < n -> limit_offset n ((0 - 1) * n) l = firstn (Z.to_nat n) l.
Proof.
  intros H. unfold limit_offset.
  replace (Z.to_nat ((0 - 1) * n)) with 0%nat by lia. simpl.
  destruct (n <? 0) eqn:E; [apply Z.ltb_lt in E; lia | reflexivity].
Qed.

(** The paginated search is the search without pagination, cut by
    LIMIT and OFFSET; nothing looks at [page] or [pageSize] first. *)
Lemma searchStudents_paginated (options : SearchStudentsOptions)
      (p : PaginationOptions) (db : DB) :
  pagination options = Some p ->
  searchStudents options db
  = match searchStudents (without_pagination options) db with
    | (Ok all, _) =>
        (Ok (mkPaginatedResult
               (limit_offset (pageSize p) ((page p - 1) * pageSize p)
                             (data all))
               (total all) (page p) (pageSize p)
               (ceil_div (total all) (pageSize p))), db)
    | (Err e, _) => (Err e, db)
    end.
Proof.
  intros Hp. unfold searchStudents, without_pagination, try_catch.
  rewrite Hp. cbn [searchOptions pagination includeInactive].
  set (conds := (_ ++ _)%list).
  set (order := match searchOptions options with
                | Some so => _
                | None => None
                end).
  unfold bind at 1 3. rewrite select_students_limit.
  destruct (select_students conds order None db) as [[rs|e] d] eqn:E.
  - pose proof (select_students_same _ _ _ _ _ _ E) as ->.
    unfold bind at 1.
    rewrite (count_students_length conds order db db rs E).
    reflexivity.
  - pose proof (select_students_same _ _ _ _ _ _ E) as ->. reflexivity.
Qed.

(** C8, as the code has it: [searchStudents] never checks [page] or
    [pageSize].  With [pageSize = 0] it returns an empty page together with
    the count of matching students and a [totalPages] that is not a number
    of pages; with [page = 0] and a positive [pageSize] it returns the first
    [pageSize] matching students, as for page 1.  It fails only where the
    same search without pagination fails, with that error. *)
Theorem searchStudents_pagination_not_validated
        (options : SearchStudentsOptions) (p : PaginationOptions) (db : DB) :
  pagination options = Some p ->
  match fst (searchStudents (without_pagination options) db) with
  | Ok all =>
      (pageSize p = 0 ->
       searchStudents options db
       = (Ok (mkPaginatedResult [] (total all) (page p) 0
                (if total all =? 0 then JNaN else JInfinity)), db))
      /\ (page p = 0 -> 0 < pageSize p ->
          searchStudents options db
          = (Ok (mkPaginatedResult
                   (firstn (Z.to_nat (pageSize p)) (data all))
                   (total all) 0 (pageSize p)
                   (ceil_div (total all) (pageSize p))), db))
  | Err e => fst (searchStudents options db) = Err e
  end.
Proof.
  intros Hp. rewrite (searchStudents_paginated options p db Hp).
  destruct (searchStudents (without_pagination options) db)
    as [[all|e] d] eqn:E; [|reflexivity].
  cbn [fst]. split.
  - intros Hz. rewrite Hz, limit_offset_zero. do 3 f_equal.
    unfold ceil_div. simpl.
    assert (Hge : 0 <= total all).
    { unfold searchStudents, without_pagination, try_catch, bind, ret in E.
      cbn [pagination] in E.
      destruct (select_students _ _ None db) as [[rs|e] d']; inversion E.
      simpl. lia. }
    destruct (total all =? 0) eqn:Et; [reflexivity|].
    apply Z.eqb_neq in Et.
    destruct (0 <? total all) eqn:El; [reflexivity|].
    apply Z.ltb_ge in El. lia.
  - intros Hz Hpos. rewrite Hz, limit_offset_page_zero by exact Hpos.
    reflexivity.
Qed.

Lemma searchStudents_pagination_not_validated_witness :
  searchStudents page_size_zero enrolled_db
  = (Ok (mkPaginatedResult [] 2 1 0 JInfinity), enrolled_db)
  /\ option_map (map (fun r => col r "id"))
       (match fst (searchStudents page_zero enrolled_db) with
        | Ok r => Some (data r)
        | Err _ => None
        end)
     = Some [VNum 1].
Proof.
  split.
  - exact (proj1 (searchStudents_pagination_not_validated page_size_zero
                    (mkPaginationOptions 1 0) enrolled_db eq_refl) eq_refl).
  - rewrite (proj2 (searchStudents_pagination_not_validated page_zero
                      (mkPaginationOptions 0 1) enrolled_db eq_refl)
               eq_refl eq_refl).
    reflexivity.
Defined.

(** C8 as stated fails: neither [pageSize = 0] nor [page = 0] makes the
    search fail. *)
Lemma searchStudents_accepts_invalid_pagination :
  ~ rejects_invalid_pagination page_size_zero enrolled_db
  /\ ~ rejects_invalid_pagination page_zero enrolled_db.
Proof.
  split; intros H.
  - destruct (H _ eq_refl (or_introl eq_refl)) as (e & He).
    vm_compute in He. discriminate He.
  - destruct (H _ eq_refl (or_intror eq_refl)) as (e & He).
    vm_compute in He. discriminate He.
Qed.

(** ** The stored total of [createBillWithItems] *)

Lemma add_lines_bills (billId : Z) (items : list BillLine) (acc : Z)
      (db db' : DB) (res : result Z) :
  for_of items (add_line billId) acc db = (res, db') ->
  rows "bills" db' = rows "bills" db.
Proof.
  intros H.
  apply (for_of_invariant (fun d => rows "bills" d = rows "bills" db)
                          (add_line billId) items)
    with (s := acc) (db := db) (res := res); auto.
  intros x s d r d' Hd Hx. rewrite <- Hd.
  unfold add_line, bind, ret in Hx.
  destruct (sql_insert _ _ d) as [[i|e] d1] eqn:E; inversion Hx; subst.
  - apply sql_insert_ok in E. destruct E as (_ & _ & Hother & _).
    now apply Hother.
  - apply sql_insert_err in E. now subst.
Qed.

(** After a successful [createBillWithItems] the bill read back by its id
    carries the returned total. *)
Lemma createBillWithItems_stored_total (bill : CreateBillWithItemsPayload)
      (db db' : DB) (b : Bill) :
  initialized db -> txn db = None ->
  createBillWithItems bill db = (Ok b, db') ->
  exists r,
    getBillById (b_id b) db' = (Ok (Some r), db')
    /\ col r "totalAmount" = VNum (b_totalAmount b)
    /\ col r "status" = VText "pending".
Proof.
  intros Hi Hnone H.
  destruct (createBillWithItems_run bill db Hnone)
    as (db1 & Ht1 & Htabs & Hrun).
  rewrite Hrun in H. clear Hrun.
  destruct (sql_insert _ _ db1) as [[billId|e1] db2] eqn:E1; [|discriminate].
  destruct (for_of _ _ _ db2) as [[totalAmount|e2] db3] eqn:E2;
    [|discriminate].
  destruct (sql_update _ _ _ db3) as [[c|e3] db4] eqn:E3; [|discriminate].
  inversion H; subst b db'. clear H. cbn [b_id b_totalAmount].
  assert (Hi1 : initialized db1) by (eapply initialized_same_tables; eauto).
  pose proof (sql_insert_ok _ _ _ _ _ E1)
    as (_ & Hi2 & _ & t & Hf & Hfresh & Hrows2).
  destruct (initialized_find db1 "bills" bills_table Hi1 eq_refl)
    as (t' & Hf' & Hs).
  rewrite Hf in Hf'. inversion Hf'; subst t'. rewrite Hs in Hrows2.
  pose proof (add_lines_bills _ _ _ _ _ _ E2) as Hrows3.
  pose proof (sql_update_rows _ _ _ _ _ _ E3) as Hrows4.
  rewrite Hrows3, Hrows2 in Hrows4.
  assert (Hi4 : initialized db4).
  { destruct (sql_update_frame _ _ _ _ _ _ E3) as (Hi4 & _). apply Hi4.
    apply (for_of_invariant initialized (add_line billId) (p_items bill))
      with (s := 0) (db := db2) (res := Ok totalAmount); auto.
    intros x s d r d' Hd Hx. unfold add_line, bind, ret in Hx.
    destruct (sql_insert _ _ d) as [[i|e] d1] eqn:E; inversion Hx; subst.
    - apply sql_insert_ok in E. now apply E.
    - apply sql_insert_err in E. now subst. }
  destruct (initialized_find (committed db4) "bills" bills_table Hi4 eq_refl)
    as (t4 & Hf4 & _).
  unfold getBillById, try_catch.
  rewrite (getFirstAsync_run _ _ _ _ Hf4).
  assert (Hrows : t_rows t4 = rows "bills" db4).
  { unfold rows. change (tables db4) with (tables (committed db4)).
    now rewrite Hf4. }
  rewrite Hrows, Hrows4, map_app, filter_app.
  assert (Hold : filter (id_is billId)
                   (map (fun r => if id_is billId r
                                  then assign [("totalAmount", VNum totalAmount)]
                                              r
                                  else r) (rows "bills" db1)) = []).
  { unfold has_rowid in Hfresh. revert Hfresh. clear.
    induction (rows "bills" db1) as [|r l IH]; simpl; [reflexivity|].
    intros H. apply orb_false_iff in H. destruct H as (Hr & Hl).
    unfold id_is at 1 2. rewrite Hr. simpl. unfold id_is at 1. rewrite Hr.
    now apply IH. }
  rewrite Hold. cbn [app map].
  match goal with
  | |- context [id_is billId (new_row bills_table ?vals billId ?ts)] =>
      replace (id_is billId (new_row bills_table vals billId ts)) with true
        by (unfold id_is;
            change (col (new_row bills_table vals billId ts) "id")
              with (VNum billId);
            simpl; now rewrite Z.eqb_refl)
  end.
  cbn [filter].
  match goal with
  | |- context [id_is billId (assign ?a ?r)] =>
      replace (id_is billId (assign a r)) with true
        by (unfold id_is; rewrite col_assign;
            change (assigned a "id") with (@None value); cbv iota;
            change (col r "id") with (VNum billId);
            simpl; now rewrite Z.eqb_refl)
  end.
  cbn [hd_error]. eexists. split; [reflexivity|].
  rewrite !col_assign. split; reflexivity.
Qed.


(** * Further properties *)

(** ** [initDatabase] again *)





(** ** [createBillsForDepartment] on every initialized database *)

(** X2: on an initialized database with no transaction open,
    [createBillsForDepartment] throws for every argument and leaves the
    database as it was: "Department ... not found" when the department is
    missing, "no such table: studentDepartments" when it exists. *)
Theorem createBillsForDepartment_always_throws (departmentId : Z)
        (billItems : list BillItemRequest) (billName : string) (db : DB) :
  initialized db -> txn db = None ->
  createBillsForDepartment departmentId billItems billName db
  = (Err (if has_rowid (rows "departments" db) (VNum departmentId)
          then "no such table: studentDepartments"
          else department_not_found departmentId), db).
Proof.
  intros Hi Hnone.
  destruct (BEGIN_TRANSACTION_run db Hnone) as (db1 & Hb & Ht1 & Htabs).
  pose proof (@rollback_rethrows db Hnone BulkBillResult) as Hrb.
  destruct (initialized_find db "departments" departments_table Hi eq_refl)
    as (td & Hd & _).
  destruct (initialized_find db "students" students_table Hi eq_refl)
    as (t & Hf & _).
  pose proof (initialized_find_none db "studentDepartments" Hi eq_refl) as Hn.
  rewrite (rows_find _ _ _ Hd).
  unfold createBillsForDepartment. unfold bind at 1. rewrite Hb.
  unfold try_catch, getAllAsync. unfold bind at 1.
  rewrite (sql_select_run "departments" _ db1 td) by now rewrite Htabs.
  change (has_rowid (t_rows td) (VNum departmentId))
    with (existsb (id_is departmentId) (t_rows td)).
  destruct (filter (id_is departmentId) (t_rows td)) as [|r0 rs] eqn:Ef.
  - assert (Hx : existsb (id_is departmentId) (t_rows td) = false).
    { apply hd_error_filter_existsb. now rewrite Ef. }
    rewrite Hx. unfold throw at 1. now apply Hrb.
  - assert (Hx : existsb (id_is departmentId) (t_rows td) = true).
    { apply (hd_error_filter_some _ _ r0). now rewrite Ef. }
    rewrite Hx. unfold bind at 1. unfold sql_select_join.
    rewrite Htabs, Hf, Hn. now apply Hrb.
Qed.

Lemma createBillsForDepartment_always_throws_witness :
  createBillsForDepartment 5 [mkBillItemRequest 1 (Some 10) None] "Term2"
                           school_db
  = (Err (department_not_found 5), school_db)
  /\ createBillsForDepartment 1 [] "Term2" school_db
     = (Err "no such table: studentDepartments", school_db).
Proof.
  split.
  - exact (createBillsForDepartment_always_throws 5 _ "Term2" school_db
             eq_refl eq_refl).
  - exact (createBillsForDepartment_always_throws 1 [] "Term2" school_db
             eq_refl eq_refl).
Defined.

(** ** The query builders of [schema.ts] *)

Lemma placeholders_app (a b : string) :
  placeholders (a ++ b)%string = (placeholders a + placeholders b)%nat.
Proof.
  induction a as [|c a IH]; simpl; [reflexivity|]. rewrite IH. lia.
Qed.

(** Joining parts with a separator that holds no placeholder. *)
Lemma placeholders_join_sum (sep : string) (parts : list string) :
  placeholders sep = 0%nat ->
  placeholders (join sep parts) = list_sum (map placeholders parts).
Proof.
  intros Hsep. unfold join.
  induction parts as [|s parts IH]; simpl; [reflexivity|].
  destruct parts as [|s' parts'].
  - simpl. lia.
  - rewrite !placeholders_app, Hsep, IH. reflexivity.
Qed.

Lemma list_sum_ones (parts : list string) :
  Forall (fun s => placeholders s = 1%nat) parts ->
  list_sum (map placeholders parts) = List.length parts.
Proof.
  induction 1 as [|s parts Hs Hparts IH]; simpl; [reflexivity|].
  rewrite Hs, IH. reflexivity.
Qed.

Lemma placeholders_join (sep : string) (parts : list string) :
  placeholders sep = 0%nat ->
  Forall (fun s => placeholders s = 1%nat) parts ->
  placeholders (join sep parts) = List.length parts.
Proof.
  intros Hsep H. rewrite placeholders_join_sum by exact Hsep.
  now apply list_sum_ones.
Qed.

Lemma placeholders_join_cons (sep s : string) (parts : list string) :
  placeholders sep = 0%nat ->
  Forall (fun s => placeholders s = 1%nat) parts ->
  placeholders (join sep (s :: parts))
  = (placeholders s + List.length parts)%nat.
Proof.
  intros Hsep H. rewrite placeholders_join_sum by exact Hsep.
  rewrite <- (list_sum_ones parts H). reflexivity.
Qed.

Lemma filter_parts_placeholders (exclude : list string)
      (criteria : list (string * option value)) :
  Forall (fun kv => placeholders (fst kv) = 0%nat) criteria ->
  List.length (fst (filter_parts exclude criteria))
  = List.length (snd (filter_parts exclude criteria))
  /\ Forall (fun s => placeholders s = 1%nat)
            (fst (filter_parts exclude criteria)).
Proof.
  induction 1 as [|[key v] criteria Hk Hrest IH]; simpl; [now split|].
  destruct (filter_parts exclude criteria) as [w p]. simpl in *.
  destruct IH as (Hlen & Hall).
  destruct (existsb (String.eqb key) exclude); [now split|].
  destruct v as [x|]; [|now split].
  simpl. split; [now rewrite Hlen|].
  constructor; [|exact Hall]. rewrite placeholders_app, Hk. reflexivity.
Qed.

Lemma where_clause_placeholders (conditions : list string) :
  Forall (fun s => placeholders s = 1%nat) conditions ->
  placeholders match conditions with
               | [] => ""
               | _ => ("WHERE " ++ join " AND " conditions)%string
               end
  = List.length conditions.
Proof.
  intros H. destruct conditions as [|c cs]; [reflexivity|].
  rewrite placeholders_app, (placeholders_join " AND " (c :: cs)) by
      (reflexivity || exact H).
  reflexivity.
Qed.

(** X3: the clause of [buildFilter] has exactly one placeholder for each
    parameter it returns (the keys being column names, without [?]), and it
    is empty exactly when there is no parameter. *)
Theorem buildFilter_placeholders (criteria : list (string * option value))
        (exclude : list string) :
  Forall (fun kv => placeholders (fst kv) = 0%nat) criteria ->
  placeholders (bq_text (buildFilter criteria exclude))
  = List.length (bq_params (buildFilter criteria exclude))
  /\ (bq_text (buildFilter criteria exclude) = ""
      <-> bq_params (buildFilter criteria exclude) = []).
Proof.
  intros H. unfold buildFilter.
  destruct (filter_parts_placeholders exclude criteria H) as (Hlen & Hall).
  destruct (filter_parts exclude criteria) as [w p]. simpl in *.
  split.
  - rewrite where_clause_placeholders by exact Hall. exact Hlen.
  - destruct w as [|s w]; destruct p as [|x p]; simpl in *;
      try discriminate; split; intros E; try reflexivity; discriminate E.
Qed.

Lemma buildFilter_placeholders_witness :
  let q := buildFilter [ ("id", Some (VNum 3)); ("status", Some (VText "active"));
                         ("phone", None); ("isActive", Some (VNum 1)) ]
                       default_exclude in
  bq_text q = "WHERE status = ? AND isActive = ?"
  /\ placeholders (bq_text q) = List.length (bq_params q)
  /\ (bq_text q = "" <-> bq_params q = []).
Proof.
  split; [reflexivity|].
  apply buildFilter_placeholders. repeat constructor.
Defined.

(** X4: the statement that [buildSearchQuery] and then [applyPagination]
    build has, beyond the placeholders of the base query, exactly one
    placeholder for each parameter of the two (field names, filter keys and
    the sort column being names without [?]). *)
Theorem buildSearchQuery_placeholders (so : SearchOptions)
        (baseQuery totalCountQuery : string) (p : PaginationOptions) :
  Forall (fun field => placeholders field = 0%nat) (so_fields so) ->
  (forall entries, so_filters so = Some entries ->
                   Forall (fun kv => placeholders (fst kv) = 0%nat) entries) ->
  (forall sortBy, so_sortBy so = Some sortBy -> placeholders sortBy = 0%nat) ->
  let q := buildSearchQuery so baseQuery in
  let pq := applyPagination (bq_text q) p totalCountQuery in
  placeholders (bq_text q)
  = (placeholders baseQuery + List.length (bq_params q))%nat
  /\ placeholders (paginatedQuery pq)
     = (placeholders baseQuery
        + List.length (bq_params q ++ pq_params pq))%nat.
Proof.
  intros Hfields Hfilters Hsort q pq.
  assert (Hq : placeholders (bq_text q)
               = (placeholders baseQuery + List.length (bq_params q))%nat).
  { unfold q, buildSearchQuery. cbn [bq_text bq_params].
    set (search := if truthy (so_query so)
                      && negb (Nat.eqb (List.length (so_fields so)) 0)
                   then _ else _).
    set (filters := match so_filters so with
                    | Some entries => filter_parts [] entries
                    | None => ([], [])
                    end).
    assert (Hs : List.length (fst search) = List.length (snd search)
                 /\ Forall (fun s => placeholders s = 1%nat) (fst search)
                 \/ fst search
                    = [("(" ++ join " OR "
                                  (map (fun field => (field ++ " LIKE ?")%string)
                                       (so_fields so)) ++ ")")%string]
                      /\ List.length (snd search) = List.length (so_fields so)).
    { unfold search.
      destruct (truthy (so_query so)
                && negb (Nat.eqb (List.length (so_fields so)) 0));
        [right | left; now split].
      split; [reflexivity | apply repeat_length]. }
    assert (Hf : List.length (fst filters) = List.length (snd filters)
                 /\ Forall (fun s => placeholders s = 1%nat) (fst filters)).
    { unfold filters. destruct (so_filters so) as [entries|] eqn:E;
        [|now split].
      apply filter_parts_placeholders. now apply Hfilters. }
    assert (Ho : placeholders
                   match so_sortBy so with
                   | None | Some "" => ""
                   | Some sortBy =>
                       ("ORDER BY " ++ sortBy ++ " "
                          ++ match so_sortOrder so with
                             | Some o => sort_order_text o
                             | None => "ASC"
                             end)%string
                   end = 0%nat).
    { destruct (so_sortBy so) as [sortBy|] eqn:E; [|reflexivity].
      specialize (Hsort sortBy eq_refl).
      destruct sortBy as [|c s]; [reflexivity|].
      rewrite !placeholders_app, Hsort.
      destruct (so_sortOrder so) as [[]|]; reflexivity. }
    rewrite !placeholders_app, Ho, length_app.
    destruct Hf as (Hflen & Hfall).
    assert (Hw : placeholders
                   match (fst search ++ fst filters)%list with
                   | [] => ""
                   | _ => ("WHERE " ++ join " AND "
                                         (fst search ++ fst filters))%string
                   end
                 = (List.length (snd search) + List.length (snd filters))%nat).
    { destruct Hs as [(Hslen & Hsall) | (Hsone & Hslen)].
      - rewrite where_clause_placeholders by (apply Forall_app; now split).
        rewrite length_app. lia.
      - rewrite Hsone. cbn [app].
        rewrite placeholders_app, placeholders_join_cons by
            (reflexivity || exact Hfall).
        rewrite !placeholders_app, placeholders_join.
        + rewrite length_map, <- Hflen, Hslen. simpl. lia.
        + reflexivity.
        + apply Forall_map. eapply Forall_impl; [|exact Hfields].
          intros f Hf0. cbn beta. rewrite placeholders_app, Hf0.
          reflexivity. }
    rewrite Hw. simpl. lia. }
  split; [exact Hq|].
  unfold pq, applyPagination. cbn [paginatedQuery pq_params].
  rewrite placeholders_app, Hq, length_app. simpl. lia.
Qed.

Lemma buildSearchQuery_placeholders_witness :
  let so := mkSearchOptions "ama" ["firstname"; "phone"]
              (Some [("status", Some (VText "active")); ("address", None)])
              (Some "firstname") None in
  let q := buildSearchQuery so "SELECT * FROM students" in
  let pq := applyPagination (bq_text q) (mkPaginationOptions 2 10)
                            "SELECT COUNT(*) FROM students" in
  paginatedQuery pq
  = "SELECT * FROM students WHERE (firstname LIKE ? OR phone LIKE ?) AND status = ? ORDER BY firstname ASC LIMIT ? OFFSET ?"
  /\ bq_params q ++ pq_params pq
     = [VText "%ama%"; VText "%ama%"; VText "active"; VNum 10; VNum 10]
  /\ placeholders (paginatedQuery pq)
     = (placeholders "SELECT * FROM students"
        + List.length (bq_params q ++ pq_params pq))%nat.
Proof.
  split; [reflexivity|]. split; [reflexivity|].
  apply (buildSearchQuery_placeholders
           (mkSearchOptions "ama" ["firstname"; "phone"]
              (Some [("status", Some (VText "active")); ("address", None)])
              (Some "firstname") None)
           "SELECT * FROM students" "SELECT COUNT(*) FROM students"
           (mkPaginationOptions 2 10)).
  - repeat constructor.
  - intros entries H. inversion H. repeat constructor.
  - intros sortBy H. inversion H. reflexivity.
Defined.

(** ** [searchStudents]: pages, inactive students, filters *)











Lemma sql_eq_num (v : value) (i : Z) : sql_eq v (VNum i) = true -> v = VNum i.
Proof.
  destruct v as [|n|s]; simpl; try discriminate.
  intros H. apply Z.eqb_eq in H. now subst.
Qed.




(** X7: the filters of a search are looked at only when the query text is
    non-empty: two searches with an empty query that differ in their filters
    alone give the same result. *)
Theorem searchStudents_filters_need_query (so : SearchOptions)
        (filters : option (list (string * option value)))
        (p : option PaginationOptions) (inactive : option bool) :
  so_query so = "" ->
  searchStudents (mkSearchStudentsOptions (Some so) p inactive)
  = searchStudents
      (mkSearchStudentsOptions
         (Some (mkSearchOptions (so_query so) (so_fields so) filters
                                (so_sortBy so) (so_sortOrder so)))
         p inactive).
Proof.
  intros Hq. unfold searchStudents. cbn. rewrite Hq. reflexivity.
Qed.

Lemma searchStudents_filters_need_query_witness :
  searchStudents
    (mkSearchStudentsOptions
       (Some (mkSearchOptions "" [] None (Some "firstname") None)) None None)
  = searchStudents
      (mkSearchStudentsOptions
         (Some (mkSearchOptions "" []
                  (Some [("status", Some (VText "graduated"))])
                  (Some "firstname") None))
         None None).
Proof.
  exact (searchStudents_filters_need_query
           (mkSearchOptions "" [] None (Some "firstname") None)
           (Some [("status", Some (VText "graduated"))]) None None eq_refl).
Defined.

(** ** The students: [deleteStudent], [addStudent], [updateStudent] *)

Ltac open_table db n schema Hi rs q Hf :=
  let sc := fresh "sc" in
  let Hs := fresh "Hs" in
  destruct (initialized_find db n schema Hi eq_refl) as ([sc rs q] & Hf & Hs);
  simpl in Hs; subst sc.

Lemma sql_eq_num_refl (i : Z) : sql_eq (VNum i) (VNum i) = true.
Proof. apply Z.eqb_refl. Qed.

Lemma has_rowid_update (vals : list (string * value)) (cond : row -> bool)
      (rs : list row) (v : value) :
  assigned vals "id" = None ->
  has_rowid (map (fun r => if cond r then assign vals r else r) rs) v
  = has_rowid rs v.
Proof.
  intros Hid. unfold has_rowid. induction rs as [|r rs IH]; simpl;
    [reflexivity|].
  rewrite IH. f_equal. destruct (cond r); [|reflexivity].
  now rewrite col_assign, Hid.
Qed.

Lemma hd_error_filter_update (vals : list (string * value)) (id : Z)
      (rs : list row) :
  assigned vals "id" = None ->
  hd_error (filter (id_is id)
                   (map (fun r => if id_is id r then assign vals r else r) rs))
  = option_map (assign vals) (hd_error (filter (id_is id) rs)).
Proof.
  intros Hid. induction rs as [|r rs IH]; simpl; [reflexivity|].
  destruct (id_is id r) eqn:E.
  - unfold id_is at 1. rewrite col_assign, Hid. fold (id_is id r).
    now rewrite E.
  - now rewrite E.
Qed.

(** The soft delete, statement by statement. *)
Lemma deleteStudent_run (id : Z) (db : DB) :
  initialized db ->
  exists db',
    deleteStudent id db = (Ok (has_rowid (rows "students" db) (VNum id)), db')
    /\ initialized db' /\ same_connection db db'
    /\ (forall m, ieq "students" m = false -> rows m db' = rows m db)
    /\ rows "students" db'
       = map (fun r => if id_is id r then assign [("isActive", VNum 0)] r
                       else r)
             (rows "students" db).
Proof.
  intros Hi. open_table db "students" students_table Hi rs q Hf.
  assert (Hrun : exists c db',
             sql_update "students" [("isActive", VNum 0)] (id_is id) db
             = (Ok c, db')
             /\ (0 <? c) = has_rowid rs (VNum id)).
  { unfold sql_update. rewrite Hf. cbn [t_schema t_rows t_seq].
    change (unknown_column students_table _) with (@None (string * value)).
    cbv iota.
    destruct (filter (id_is id) rs) as [|r0 hit] eqn:Ehit.
    - exists 0, db. split; [reflexivity|].
      assert (Hn : hd_error (filter (id_is id) rs) = None) by now rewrite Ehit.
      apply hd_error_filter_existsb in Hn. unfold has_rowid.
      symmetry. exact Hn.
    - match goal with
      | |- context [find ?f (ts_cols students_table)] =>
          change (find f (ts_cols students_table)) with (@None column)
      end.
      cbv iota. cbn [ts_unique ts_fks students_table find existsb].
      rewrite andb_false_r.
      do 2 eexists. split; [reflexivity|].
      assert (Hex : existsb (id_is id) rs = true).
      { apply existsb_exists. exists r0.
        apply (filter_In (id_is id) r0 rs). rewrite Ehit. now left. }
      unfold has_rowid. fold (id_is id). rewrite Hex.
      apply Z.ltb_lt. simpl List.length. lia. }
  destruct Hrun as (c & db' & Hrun & Hc).
  exists db'. unfold deleteStudent, try_catch, bind, ret. rewrite Hrun.
  rewrite (rows_find _ _ _ Hf). cbn [t_rows]. rewrite Hc.
  split; [reflexivity|].
  destruct (sql_update_frame _ _ _ _ _ _ Hrun) as (Hinit & Hother).
  split; [now apply Hinit|].
  split; [eapply sql_update_connection; eauto|].
  split; [exact Hother|].
  rewrite (sql_update_rows _ _ _ _ _ _ Hrun), (rows_find _ _ _ Hf).
  reflexivity.
Qed.



Lemma rows_committed (db : DB) (n : string) : rows n (committed db) = rows n db.
Proof. reflexivity. Qed.

(** [bulkEnroll] of one student who exists and has no row for the
    department. *)
Lemma bulkEnroll_new_student (s d : Z) (db : DB) :
  initialized db -> txn db = None ->
  has_rowid (rows "departments" db) (VNum d) = true ->
  has_rowid (rows "students" db) (VNum s) = true ->
  existsb (enrollment_is s d) (rows "student_departments" db) = false ->
  exists db' r,
    bulkEnroll d [s] db = (Ok (mkBulkEnrollmentResult 1 []), db')
    /\ initialized db'
    /\ (forall m, ieq "student_departments" m = false ->
                  rows m db' = rows m db)
    /\ rows "student_departments" db'
       = rows "student_departments" db ++ [r]
    /\ enrollment_is s d r = true
    /\ col r "status" = VText "active" /\ col r "isActive" = VNum 1.
Proof.
  intros Hi Hnone Hd Hs He.
  destruct (bulkEnroll_run d [s] db Hi Hnone) as (dbb & Htb & Htabs & Hb).
  rewrite Hd in Hb.
  destruct (enroll_student_new d s (mkBulkEnrollmentResult 0 []) dbb)
    as (db2 & r & Hen & Hc2 & Hi2 & Hother2 & Hrows2 & Hr).
  - eapply initialized_same_tables; eauto.
  - now rewrite (rows_same_tables db dbb _ Htabs).
  - now rewrite (rows_same_tables db dbb _ Htabs).
  - now rewrite (rows_same_tables db dbb _ Htabs).
  - exists (committed db2), r.
    split; [|split; [exact Hi2|split; [|split]]].
    + rewrite Hb. simpl. unfold bind. rewrite Hen. reflexivity.
    + intros m Hm. rewrite rows_committed, Hother2 by exact Hm.
      apply (rows_same_tables db dbb _ Htabs).
    + rewrite rows_committed, Hrows2, (rows_same_tables db dbb _ Htabs).
      reflexivity.
    + exact Hr.
Qed.

(** X9: [bulkEnroll] looks for the student's row only, not at its
    [isActive]: a student removed with [deleteStudent] is enrolled like any
    other, with an active enrollment. *)
Theorem bulkEnroll_enrolls_deleted_student (s d : Z) (db : DB) :
  initialized db -> txn db = None ->
  has_rowid (rows "departments" db) (VNum d) = true ->
  has_rowid (rows "students" db) (VNum s) = true ->
  existsb (enrollment_is s d) (rows "student_departments" db) = false ->
  exists db1 db2 r,
    deleteStudent s db = (Ok true, db1)
    /\ bulkEnroll d [s] db1 = (Ok (mkBulkEnrollmentResult 1 []), db2)
    /\ rows "student_departments" db2
       = rows "student_departments" db ++ [r]
    /\ enrollment_is s d r = true
    /\ col r "status" = VText "active" /\ col r "isActive" = VNum 1.
Proof.
  intros Hi Hnone Hd Hs He.
  destruct (deleteStudent_run s db Hi)
    as (db1 & Hrun & Hi1 & Hc1 & Hother & Hrows).
  rewrite Hs in Hrun.
  assert (Hnone1 : txn db1 = None) by (destruct Hc1 as (-> & _); exact Hnone).
  destruct (bulkEnroll_new_student s d db1 Hi1 Hnone1)
    as (db2 & r & Hb & _ & _ & Hrows2 & Hr).
  - now rewrite Hother by reflexivity.
  - rewrite Hrows. now rewrite has_rowid_update.
  - now rewrite Hother by reflexivity.
  - exists db1, db2, r. split; [exact Hrun|]. split; [exact Hb|].
    split; [|exact Hr]. now rewrite Hrows2, Hother by reflexivity.
Qed.

Lemma bulkEnroll_enrolls_deleted_student_witness :
  exists db1 db2 r,
    deleteStudent 1 school_db = (Ok true, db1)
    /\ bulkEnroll 1 [1] db1 = (Ok (mkBulkEnrollmentResult 1 []), db2)
    /\ rows "student_departments" db2
       = rows "student_departments" school_db ++ [r]
    /\ enrollment_is 1 1 r = true
    /\ col r "status" = VText "active" /\ col r "isActive" = VNum 1.
Proof.
  apply (bulkEnroll_enrolls_deleted_student 1 1 school_db);
    reflexivity.
Defined.

(** ** [unenrollStudent] *)

(** X10: [unenrollStudent] never throws, whatever the state of the
    database; when it answers [false] nothing was changed, and on an
    initialized database it answers whether the student has a row for the
    department (active or not). *)
Theorem unenrollStudent_never_throws (s d : Z) (db : DB) :
  exists b db',
    unenrollStudent s d db = (Ok b, db')
    /\ (b = false -> db' = db)
    /\ (initialized db ->
        b = existsb (enrollment_is s d) (rows "student_departments" db)).
Proof.
  destruct (sql_update "student_departments" (withdrawal db)
                       (enrollment_is s d) db) as [[c|e] db'] eqn:E.
  - exists (0 <? c), db'. split; [|split].
    + unfold unenrollStudent, try_catch, CURRENT_TIMESTAMP_value, bind, ret.
      fold (withdrawal db). now rewrite E.
    + intros Hc. unfold sql_update in E.
      destruct (find_table _ (tables db)) as [t|]; [|discriminate].
      destruct (unknown_column _ _); [discriminate|].
      destruct (filter _ (t_rows t)) as [|r0 hit]; [now inversion E|].
      destruct (find _ (ts_cols _)); [discriminate|].
      destruct (find _ (ts_unique _)); [discriminate|].
      destruct (foreign_keys db && _); [discriminate|].
      inversion E; subst c. apply Z.ltb_ge in Hc. simpl List.length in Hc. lia.
    + intros Hi.
      destruct (existsb (enrollment_is s d) (rows "student_departments" db))
        eqn:He.
      * destruct (unenrollStudent_run s d db Hi He) as (db1 & Hrun & _).
        unfold unenrollStudent, try_catch, CURRENT_TIMESTAMP_value, bind, ret
          in Hrun.
        fold (withdrawal db) in Hrun. rewrite E in Hrun. now inversion Hrun.
      * open_table db "student_departments" student_departments_table Hi rs q
                   Hf.
        rewrite (rows_find _ _ _ Hf) in He. cbn [t_rows] in He.
        apply hd_error_filter_existsb in He.
        unfold sql_update in E. rewrite Hf in E.
        cbn [t_schema t_rows t_seq] in E.
        change (unknown_column student_departments_table _)
          with (@None (string * value)) in E.
        cbv iota in E.
        destruct (filter (enrollment_is s d) rs); [|discriminate He].
        now inversion E.
  - exists false, db'. split; [|split].
    + unfold unenrollStudent, try_catch, CURRENT_TIMESTAMP_value, bind, ret.
      fold (withdrawal db). now rewrite E.
    + intros _. now apply sql_update_err in E.
    + intros Hi.
      destruct (existsb (enrollment_is s d) (rows "student_departments" db))
        eqn:He; [|reflexivity].
      destruct (unenrollStudent_run s d db Hi He) as (db1 & Hrun & _).
      unfold unenrollStudent, try_catch, CURRENT_TIMESTAMP_value, bind, ret
        in Hrun.
      fold (withdrawal db) in Hrun. rewrite E in Hrun. now inversion Hrun.
Qed.

Lemma map_const_length {A B} (a : A) (l1 l2 : list B) :
  List.length l1 = List.length l2 ->
  map (fun _ => a) l1 = map (fun _ => a) l2.
Proof.
  revert l2. induction l1 as [|x l1 IH]; intros [|y l2]; simpl;
    try discriminate; [reflexivity|].
  intros H. f_equal. apply IH. now inversion H.
Qed.

Lemma filter_map_const {A B} (P : A -> bool) (a : A) (l : list B) :
  filter P (map (fun _ => a) l) = if P a then map (fun _ => a) l else [].
Proof.
  induction l as [|x l IH]; simpl; [now destruct (P a)|].
  rewrite IH. now destruct (P a).
Qed.

(** The active enrollments of a student in a department, before and after
    the rows of student [s] for the department are withdrawn. *)
Lemma withdrawn_enrollments (s d : Z) (vals : list (string * value))
      (a : row) (sds : list row) :
  assigned vals "studentId" = None ->
  assigned vals "departmentId" = None ->
  assigned vals "isActive" = Some (VNum 0) ->
  List.length
    (filter (fun b => sql_eq (col a "id") (col b "studentId")
                      && (sql_eq (col b "departmentId") (VNum d)
                          && sql_eq (col b "isActive") (VNum 1)))
            (map (fun r => if enrollment_is s d r then assign vals r else r)
                 sds))
  = if id_is s a then 0%nat
    else List.length
           (filter (fun b => sql_eq (col a "id") (col b "studentId")
                             && (sql_eq (col b "departmentId") (VNum d)
                                 && sql_eq (col b "isActive") (VNum 1)))
                   sds).
Proof.
  intros Hs Hd Ha.
  induction sds as [|b sds IH]; simpl; [now destruct (id_is s a)|].
  destruct (enrollment_is s d b) eqn:E.
  - rewrite !col_assign, Hs, Hd, Ha.
    assert (Hoff : sql_eq (if has_col b "isActive" then VNum 0 else VNull)
                          (VNum 1) = false)
      by now destruct (has_col b "isActive").
    rewrite Hoff, !andb_false_r. rewrite IH.
    destruct (id_is s a) eqn:Ea; [reflexivity|].
    unfold enrollment_is in E. apply andb_prop in E. destruct E as (E1 & E2).
    apply sql_eq_num in E1.
    assert (Hon : sql_eq (col a "id") (col b "studentId") = false).
    { rewrite E1. exact Ea. }
    now rewrite Hon.
  - destruct (id_is s a) eqn:Ea.
    + assert (Hno : sql_eq (col a "id") (col b "studentId")
                    && (sql_eq (col b "departmentId") (VNum d)
                        && sql_eq (col b "isActive") (VNum 1)) = false).
      { destruct (sql_eq (col a "id") (col b "studentId")) eqn:E1;
          [|reflexivity].
        destruct (sql_eq (col b "departmentId") (VNum d)) eqn:E2;
          [|reflexivity].
        exfalso. unfold id_is in Ea. apply sql_eq_num in Ea.
        rewrite Ea in E1. unfold enrollment_is in E. rewrite E2 in E.
        destruct (col b "studentId") as [|i|t]; simpl in E1; try discriminate.
        apply Z.eqb_eq in E1. subst i. simpl in E.
        rewrite Z.eqb_refl in E. discriminate. }
      rewrite Hno. exact IH.
    + destruct (sql_eq (col a "id") (col b "studentId")
                && (sql_eq (col b "departmentId") (VNum d)
                    && sql_eq (col b "isActive") (VNum 1)));
        simpl; now rewrite IH.
Qed.

(** X11: after [unenrollStudent] of a student with a row for the
    department, [getEnrollmentsByDepartment] lists the students it listed
    before except that student; the enrollments of the other students are
    kept. *)
Theorem unenrollStudent_leaves_the_list (s d : Z) (db : DB) (before : list row) :
  initialized db ->
  existsb (enrollment_is s d) (rows "student_departments" db) = true ->
  getEnrollmentsByDepartment d db = (Ok before, db) ->
  exists db1,
    unenrollStudent s d db = (Ok true, db1)
    /\ getEnrollmentsByDepartment d db1
       = (Ok (filter (fun x => negb (id_is s x)) before), db1).
Proof.
  intros Hi He Hbefore.
  destruct (unenrollStudent_run s d db Hi He)
    as (db1 & Hrun & Hi1 & _ & Hother & Hrows).
  exists db1. split; [exact Hrun|].
  open_table db "students" students_table Hi ss qs Hfs.
  open_table db "student_departments" student_departments_table Hi sds qd Hfd.
  open_table db1 "students" students_table Hi1 ss1 qs1 Hfs1.
  open_table db1 "student_departments" student_departments_table Hi1 sds1 qd1
             Hfd1.
  specialize (Hother "students" eq_refl).
  rewrite (rows_find _ _ _ Hfs), (rows_find _ _ _ Hfs1) in Hother.
  rewrite (rows_find _ _ _ Hfd), (rows_find _ _ _ Hfd1) in Hrows.
  cbn [t_rows] in *. subst ss1 sds1.
  unfold getEnrollmentsByDepartment, sql_select_join in *.
  rewrite Hfs, Hfd in Hbefore. rewrite Hfs1, Hfd1. cbn [t_rows] in *.
  inversion Hbefore as [Hb]. clear Hbefore Hb. do 2 f_equal.
  clear Hfs Hfs1.
  induction ss as [|a ss IH]; simpl; [reflexivity|].
  rewrite filter_app, <- IH. f_equal.
  rewrite filter_map_const.
  pose proof (withdrawn_enrollments s d (withdrawal db) a sds
                eq_refl eq_refl eq_refl) as Hlen.
  destruct (id_is s a); simpl.
  - destruct (filter _ (map _ sds)); [reflexivity | discriminate Hlen].
  - now apply map_const_length.
Qed.

Lemma unenrollStudent_leaves_the_list_witness :
  exists db1,
    unenrollStudent 1 1 enrolled_db = (Ok true, db1)
    /\ option_map (map (fun r => col r "id"))
         (match fst (getEnrollmentsByDepartment 1 db1) with
          | Ok l => Some l
          | Err _ => None
          end)
       = Some [VNum 2].
Proof.
  destruct (unenrollStudent_leaves_the_list 1 1 enrolled_db
              enrolled_students) as (db1 & Hrun & Hlist).
  - reflexivity.
  - reflexivity.
  - vm_compute. reflexivity.
  - exists db1. split; [exact Hrun|]. rewrite Hlist. reflexivity.
Defined.

(** ** [addStudent] and [updateStudent] *)

Lemma filter_none {A} (f : A -> bool) (l : list A) :
  existsb f l = false -> filter f l = [].
Proof.
  induction l as [|a l IH]; simpl; [reflexivity|].
  destruct (f a); [discriminate | exact IH].
Qed.

Lemma hd_error_filter_new (id : Z) (rs : list row) (r : row) :
  has_rowid rs (VNum id) = false -> col r "id" = VNum id ->
  hd_error (filter (id_is id) (rs ++ [r])) = Some r.
Proof.
  intros Hnew Hid. rewrite filter_app, (filter_none (id_is id) rs Hnew).
  simpl. unfold id_is. now rewrite Hid, sql_eq_num_refl.
Qed.

(** X12: [addStudent] never fails on an initialized database.  It appends
    one row under an id no student has, with the given names, phone and
    address, the given status or ['active'], and [isActive] 1, and
    [getStudentById] of that id returns the row.  The object it returns
    carries that id only when the argument had no id of its own: an [id] of
    the argument wins over the id of the new row. *)
Theorem addStudent_round_trip (student : Student) (db : DB) :
  initialized db ->
  exists id db' r,
    addStudent student db
    = (Ok (mkStudent (Some (match s_id student with
                            | Some own => own
                            | None => id
                            end))
                     (s_firstname student) (s_othernames student)
                     (s_phone student) (s_address student)
                     (s_status student)), db')
    /\ has_rowid (rows "students" db) (VNum id) = false
    /\ rows "students" db' = rows "students" db ++ [r]
    /\ (forall m, ieq "students" m = false -> rows m db' = rows m db)
    /\ getStudentById id db' = (Ok (Some r), db')
    /\ project ["id"; "firstname"; "othernames"; "phone"; "address"; "status";
                "isActive"] r
       = [ ("id", VNum id);
           ("firstname", VText (s_firstname student));
           ("othernames", VText (s_othernames student));
           ("phone", VText (s_phone student));
           ("address", VText (s_address student));
           ("status", VText (status_or_active student));
           ("isActive", VNum 1) ].
Proof.
  intros Hi. open_table db "students" students_table Hi rs q Hf.
  assert (Hins : exists rowid db',
             sql_insert "students"
               [ ("firstname", VText (s_firstname student));
                 ("othernames", VText (s_othernames student));
                 ("phone", VText (s_phone student));
                 ("address", VText (s_address student));
                 ("status", VText (status_or_active student)) ] db
             = (Ok rowid, db')).
  { unfold sql_insert. rewrite Hf. cbn [t_schema t_rows t_seq].
    change (unknown_column students_table _) with (@None (string * value)).
    cbv iota.
    match goal with
    | |- context [notnull_violation ?s ?r] =>
        change (notnull_violation s r) with (@None column)
    end.
    cbv iota.
    rewrite has_rowid_above
      by (unfold next_rowid; cbn [assigned ieq t_rows t_seq]; simpl; lia).
    cbn [unique_violation ts_unique students_table find].
    cbn [fk_violation ts_fks students_table existsb].
    rewrite andb_false_r. eauto. }
  destruct Hins as (rowid & db' & Hins).
  pose proof (sql_insert_ok _ _ _ _ _ Hins)
    as (_ & Hinit & Hother & t' & Hft & Hnew & Hrows).
  rewrite Hf in Hft. inversion Hft; subst t'. cbn [t_schema] in Hrows.
  exists rowid, db'. eexists.
  split; [|split; [exact Hnew|split; [exact Hrows|split; [exact Hother|]]]].
  - unfold addStudent, try_catch, bind, ret.
    fold (status_or_active student). rewrite Hins.
    destruct (s_id student); reflexivity.
  - split; [|reflexivity].
    specialize (Hinit Hi).
    open_table db' "students" students_table Hinit rs' q' Hf'.
    unfold getStudentById, try_catch.
    rewrite (getFirstAsync_run _ _ _ _ Hf').
    rewrite <- (rows_find _ _ _ Hf'), Hrows.
    rewrite hd_error_filter_new; [reflexivity | exact Hnew | reflexivity].
Qed.

Lemma addStudent_round_trip_witness :
  exists id db' r,
    addStudent (mkStudent (Some 40) "Ama" "Boateng" "0200000003" "Kumasi" None)
               school_db
    = (Ok (mkStudent (Some 40) "Ama" "Boateng" "0200000003" "Kumasi" None),
       db')
    /\ has_rowid (rows "students" school_db) (VNum id) = false
    /\ getStudentById id db' = (Ok (Some r), db')
    /\ col r "status" = VText "active".
Proof.
  destruct (addStudent_round_trip
              (mkStudent (Some 40) "Ama" "Boateng" "0200000003" "Kumasi" None)
              school_db eq_refl)
    as (id & db' & r & Hadd & Hnew & _ & _ & Hget & Hr).
  exists id, db', r. split; [exact Hadd|]. split; [exact Hnew|].
  split; [exact Hget|]. now inversion Hr.
Defined.

Lemma update_student_row (student : Student) (id : Z) (db : DB) :
  initialized db ->
  Forall (conforms students_table) (rows "students" db) ->
  exists db',
    sql_update "students" (student_assignments student) (id_is id) db
    = (Ok (Z.of_nat (List.length (filter (id_is id) (rows "students" db)))),
       db')
    /\ (has_rowid (rows "students" db) (VNum id) = false -> db' = db).
Proof.
  intros Hi Hconf. open_table db "students" students_table Hi rs q Hf.
  rewrite (rows_find _ _ _ Hf) in *. cbn [t_rows] in *.
  unfold sql_update. rewrite Hf. cbn [t_schema t_rows t_seq].
  change (unknown_column students_table _) with (@None (string * value)).
  cbv iota.
  destruct (filter (id_is id) rs) as [|r0 hit] eqn:Ehit.
  { exists db. now split. }
  assert (Hr0 : conforms students_table r0).
  { rewrite Forall_forall in Hconf. apply Hconf.
    eapply (proj1 (filter_In (id_is id) r0 rs)). rewrite Ehit. now left. }
  rewrite (update_notnull_check students_table _ r0 Hr0).
  match goal with
  | |- context [find ?f (ts_cols students_table)] =>
      change (find f (ts_cols students_table)) with (@None column)
  end.
  cbv iota. cbn [ts_unique ts_fks students_table find existsb].
  rewrite andb_false_r.
  eexists. split; [reflexivity|].
  intros Hno. exfalso.
  assert (Hex : existsb (id_is id) rs = true).
  { apply existsb_exists. exists r0.
    apply (filter_In (id_is id) r0 rs). rewrite Ehit. now left. }
  unfold has_rowid in Hno. fold (id_is id) in Hno. congruence.
Qed.

Lemma changes_positive {A} (f : A -> bool) (l : list A) :
  (0 <? Z.of_nat (List.length (filter f l))) = existsb f l.
Proof.
  induction l as [|a l IH]; simpl; [reflexivity|].
  destruct (f a); simpl; [|exact IH].
  apply Z.ltb_lt. lia.
Qed.

(** X13: [updateStudent] refuses a student without id (or with id 0) before
    touching the database.  Otherwise, on an initialized database, it
    answers whether a student has the id and changes nothing when none has.
    The row of the student then carries the given names, phone and address
    and the given status (or ['active']); its [isActive], [createdAt] and
    [updatedAt] are what they were, so the call neither brings back a
    student removed by [deleteStudent] nor records the time of the
    change. *)
Theorem updateStudent_outcome (student : Student) (db : DB) :
  initialized db ->
  Forall (conforms students_table) (rows "students" db) ->
  match s_id student with
  | None | Some 0 =>
      updateStudent student db = (Err "Student ID is required for update", db)
  | Some id =>
      exists db',
        updateStudent student db
        = (Ok (has_rowid (rows "students" db) (VNum id)), db')
        /\ (has_rowid (rows "students" db) (VNum id) = false -> db' = db)
        /\ (forall m, ieq "students" m = false -> rows m db' = rows m db)
        /\ forall r,
            getStudentById id db = (Ok (Some r), db) ->
            exists r',
              getStudentById id db' = (Ok (Some r'), db')
              /\ project ["firstname"; "othernames"; "phone"; "address";
                          "status"] r'
                 = [ ("firstname", VText (s_firstname student));
                     ("othernames", VText (s_othernames student));
                     ("phone", VText (s_phone student));
                     ("address", VText (s_address student));
                     ("status", VText (status_or_active student)) ]
              /\ project ["id"; "isActive"; "createdAt"; "updatedAt"] r'
                 = project ["id"; "isActive"; "createdAt"; "updatedAt"] r
  end.
Proof.
  intros Hi Hconf.
  destruct (s_id student) as [id|] eqn:Hid; [|unfold updateStudent, try_catch;
                                               now rewrite Hid].
  assert (Hmain :
      (exists db',
        updateStudent student db
        = (Ok (has_rowid (rows "students" db) (VNum id)), db')
        /\ (has_rowid (rows "students" db) (VNum id) = false -> db' = db)
        /\ (forall m, ieq "students" m = false -> rows m db' = rows m db)
        /\ forall r,
            getStudentById id db = (Ok (Some r), db) ->
            exists r',
              getStudentById id db' = (Ok (Some r'), db')
              /\ project ["firstname"; "othernames"; "phone"; "address";
                          "status"] r'
                 = [ ("firstname", VText (s_firstname student));
                     ("othernames", VText (s_othernames student));
                     ("phone", VText (s_phone student));
                     ("address", VText (s_address student));
                     ("status", VText (status_or_active student)) ]
              /\ project ["id"; "isActive"; "createdAt"; "updatedAt"] r'
                 = project ["id"; "isActive"; "createdAt"; "updatedAt"] r)
      \/ id = 0).
  2:{ destruct Hmain as [Hmain | ->]; [|unfold updateStudent, try_catch;
                                         now rewrite Hid].
      destruct id; try exact Hmain.
      unfold updateStudent, try_catch. now rewrite Hid. }
  destruct (Z.eq_dec id 0) as [Hz|Hz]; [now right | left].
  destruct (update_student_row student id db Hi Hconf) as (db' & Hrun & Hsame).
  exists db'.
  destruct (sql_update_frame _ _ _ _ _ _ Hrun) as (Hinit & Hother).
  pose proof (sql_update_rows _ _ _ _ _ _ Hrun) as Hrows.
  split; [|split; [exact Hsame | split; [exact Hother|]]].
  - unfold updateStudent, try_catch, bind, ret. rewrite Hid.
    destruct id; try congruence; rewrite Hrun, changes_positive; reflexivity.
  - intros r Hget. specialize (Hinit Hi).
    open_table db "students" students_table Hi rs q Hf.
    open_table db' "students" students_table Hinit rs' q' Hf'.
    rewrite (rows_find _ _ _ Hf), (rows_find _ _ _ Hf') in Hrows.
    cbn [t_rows] in Hrows. subst rs'.
    unfold getStudentById, try_catch in *.
    rewrite (getFirstAsync_run _ _ _ _ Hf) in Hget.
    rewrite (getFirstAsync_run _ _ _ _ Hf'). cbn [t_rows] in *.
    rewrite hd_error_filter_update by reflexivity.
    inversion Hget as [Hhd]. rewrite Hhd. cbn [option_map].
    eexists. split; [reflexivity|].
    assert (Hr : conforms students_table r).
    { rewrite (rows_find _ _ _ Hf) in Hconf. cbn [t_rows] in Hconf.
      rewrite Forall_forall in Hconf. apply Hconf.
      destruct (filter (id_is id) rs) as [|r1 l] eqn:E; [discriminate|].
      inversion Hhd; subst r1.
      eapply (proj1 (filter_In (id_is id) r rs)). rewrite E. now left. }
    unfold project. cbn [map].
    rewrite !col_assign, !(has_col_conforms _ _ _ Hr).
    split; reflexivity.
Qed.

Lemma updateStudent_outcome_witness :
  exists db',
    updateStudent (mkStudent (Some 2) "Esi" "Owusu" "0200000009" "Tema" None)
                  school_db
    = (Ok true, db')
    /\ (forall m, ieq "students" m = false -> rows m db' = rows m school_db).
Proof.
  destruct (updateStudent_outcome
              (mkStudent (Some 2) "Esi" "Owusu" "0200000009" "Tema" None)
              school_db eq_refl)
    as (db' & Hrun & _ & Hother & _).
  - repeat constructor.
  - exists db'. split; [exact Hrun | exact Hother].
Defined.

(** ** The bill items: [updateBillItem], [deleteBillItem] *)

Lemma filter_head_exists {A} (f : A -> bool) (l : list A) (a : A)
      (rest : list A) :
  filter f l = a :: rest -> existsb f l = true /\ In a l.
Proof.
  intros H.
  assert (Hin : In a (filter f l)) by (rewrite H; now left).
  apply filter_In in Hin. destruct Hin as (Hin & Hf).
  split; [|exact Hin]. apply existsb_exists. eauto.
Qed.

(** The UPDATE of [updateBillItem]. *)
Lemma update_bill_item_row (billItem : BillItemUpdate) (db : DB) :
  initialized db ->
  Forall (conforms bill_items_table) (rows "bill_items" db) ->
  exists db',
    sql_update "bill_items" (bill_item_assignments billItem)
               (id_is (bu_id billItem)) db
    = (if update_blocked billItem db
       then Err "FOREIGN KEY constraint failed"
       else Ok (Z.of_nat (List.length (filter (id_is (bu_id billItem))
                                              (rows "bill_items" db)))),
       db')
    /\ (update_blocked billItem db = true
        \/ has_rowid (rows "bill_items" db) (VNum (bu_id billItem)) = false ->
        db' = db).
Proof.
  intros Hi Hconf. open_table db "bill_items" bill_items_table Hi rs q Hf.
  unfold update_blocked.
  rewrite (rows_find _ _ _ Hf) in *. cbn [t_rows] in *.
  unfold sql_update. rewrite Hf. cbn [t_schema t_rows t_seq].
  change (unknown_column bill_items_table _) with (@None (string * value)).
  cbv iota.
  destruct (filter (id_is (bu_id billItem)) rs) as [|r0 hit] eqn:Ehit.
  { assert (Hn : has_rowid rs (VNum (bu_id billItem)) = false).
    { apply hd_error_filter_existsb. fold (id_is (bu_id billItem)).
      now rewrite Ehit. }
    rewrite Hn. exists db. now split. }
  destruct (filter_head_exists _ _ _ _ Ehit) as (Hex & Hin).
  assert (Hr0 : conforms bill_items_table r0).
  { rewrite Forall_forall in Hconf. now apply Hconf. }
  rewrite (update_notnull_check bill_items_table _ r0 Hr0).
  match goal with
  | |- context [find ?f (ts_cols bill_items_table)] =>
      change (find f (ts_cols bill_items_table)) with (@None column)
  end.
  cbv iota. cbn [ts_unique ts_fks bill_items_table find existsb].
  cbn [fk_col fk_table].
  rewrite col_assign, (has_col_conforms _ _ _ Hr0), parent_has_rows.
  change (assigned (bill_item_assignments billItem) "departmentId")
    with (Some (VNum (bu_departmentId billItem))).
  change (is_assigned (bill_item_assignments billItem) "departmentId")
    with true.
  change (existsb (fun k => ieq (c_name k) "departmentId")
                  (ts_cols bill_items_table)) with true.
  cbv iota. cbn [is_null negb andb orb].
  assert (Hhas : has_rowid rs (VNum (bu_id billItem)) = true) by exact Hex.
  rewrite !Hhas. cbn [andb]. rewrite orb_false_r.
  destruct (foreign_keys db); cbn [andb].
  - destruct (has_rowid (rows "departments" db)
                        (VNum (bu_departmentId billItem))); cbn [negb].
    + eexists. split; [reflexivity|]. intros [H|H]; cbn in H; discriminate H.
    + exists db. now split.
  - eexists. split; [reflexivity|]. intros [H|H]; cbn in H; discriminate H.
Qed.

(** X14: [updateBillItem] returns its argument whether or not a bill item
    has the id, and without one it changes nothing.  It fails, leaving the
    database as it was, only when the bill item exists, foreign keys are
    enforced and the given department does not exist.  An omitted
    [description], [category], [isRequired] or [isActive] is stored as NULL:
    the update erases what the row held there. *)
Theorem updateBillItem_outcome (billItem : BillItemUpdate) (db : DB) :
  initialized db ->
  Forall (conforms bill_items_table) (rows "bill_items" db) ->
  exists db',
    updateBillItem billItem db
    = (if update_blocked billItem db
       then Err "FOREIGN KEY constraint failed" else Ok billItem, db')
    /\ (update_blocked billItem db = true
        \/ has_rowid (rows "bill_items" db) (VNum (bu_id billItem)) = false ->
        db' = db)
    /\ (update_blocked billItem db = false ->
        forall r,
          getBillItemById (bu_id billItem) db = (Ok (Some r), db) ->
          exists r',
            getBillItemById (bu_id billItem) db' = (Ok (Some r'), db')
            /\ project ["id"; "name"; "amount"; "departmentId"; "description";
                        "category"; "isRequired"; "isActive"] r'
               = [ ("id", col r "id");
                   ("name", VText (bu_name billItem));
                   ("amount", VNum (bu_amount billItem));
                   ("departmentId", VNum (bu_departmentId billItem));
                   ("description", text_nullish (bu_description billItem));
                   ("category", text_nullish (bu_category billItem));
                   ("isRequired", bool_nullish (bu_isRequired billItem));
                   ("isActive", bool_nullish (bu_isActive billItem)) ]).
Proof.
  intros Hi Hconf.
  destruct (update_bill_item_row billItem db Hi Hconf) as (db' & Hrun & Hsame).
  exists db'. split; [|split; [exact Hsame|]].
  - unfold updateBillItem, try_catch, bind, ret. rewrite Hrun.
    now destruct (update_blocked billItem db).
  - intros Hfree r Hget. rewrite Hfree in Hrun.
    destruct (sql_update_frame _ _ _ _ _ _ Hrun) as (Hinit & _).
    pose proof (sql_update_rows _ _ _ _ _ _ Hrun) as Hrows.
    specialize (Hinit Hi).
    open_table db "bill_items" bill_items_table Hi rs q Hf.
    open_table db' "bill_items" bill_items_table Hinit rs' q' Hf'.
    rewrite (rows_find _ _ _ Hf), (rows_find _ _ _ Hf') in Hrows.
    cbn [t_rows] in Hrows. subst rs'.
    unfold getBillItemById, try_catch in *.
    rewrite (getFirstAsync_run _ _ _ _ Hf) in Hget.
    rewrite (getFirstAsync_run _ _ _ _ Hf'). cbn [t_rows] in *.
    rewrite hd_error_filter_update by reflexivity.
    inversion Hget as [Hhd]. rewrite Hhd. cbn [option_map].
    eexists. split; [reflexivity|].
    assert (Hr : conforms bill_items_table r).
    { rewrite (rows_find _ _ _ Hf) in Hconf. cbn [t_rows] in Hconf.
      rewrite Forall_forall in Hconf. apply Hconf.
      destruct (filter (id_is (bu_id billItem)) rs) as [|r1 l] eqn:E;
        [discriminate|].
      inversion Hhd; subst r1.
      now destruct (filter_head_exists _ _ _ _ E). }
    unfold project. cbn [map].
    rewrite !col_assign, !(has_col_conforms _ _ _ Hr).
    reflexivity.
Qed.

Lemma updateBillItem_outcome_witness :
  exists db',
    updateBillItem (mkBillItemUpdate 2 "Books" 25 1 None None None None)
                   school_db
    = (Ok (mkBillItemUpdate 2 "Books" 25 1 None None None None), db')
    /\ exists r',
         getBillItemById 2 db' = (Ok (Some r'), db')
         /\ col r' "amount" = VNum 25 /\ col r' "isActive" = VNull.
Proof.
  destruct (updateBillItem_outcome
              (mkBillItemUpdate 2 "Books" 25 1 None None None None)
              school_db eq_refl)
    as (db' & Hrun & _ & Hget).
  - repeat constructor.
  - exists db'. split; [exact Hrun|].
    destruct (Hget eq_refl
                (hd [] (filter (id_is 2) (rows "bill_items" school_db)))
                eq_refl)
      as (r' & Hr' & Hcols).
    exists r'. split; [exact Hr'|].
    split.
    + exact (f_equal (fun l => snd (nth 2 l ("", VNull))) Hcols).
    + exact (f_equal (fun l => snd (nth 7 l ("", VNull))) Hcols).
Defined.

(** ** The hard deletes and [ON DELETE CASCADE] *)

(** The rows that refer to one of the ids of the rows with id [id]. *)
Lemma refers_ids (c : string) (id : Z) (rs : list row) (r : row) :
  refers c (ids_of (filter (id_is id) rs)) r
  = has_rowid rs (VNum id) && column_is c id r.
Proof.
  unfold refers, ids_of, has_rowid, column_is.
  induction rs as [|r' rs IH]; simpl; [reflexivity|].
  fold (id_is id r'). destruct (id_is id r') eqn:E; simpl.
  - rewrite IH. unfold id_is in E. apply sql_eq_num in E. rewrite E.
    destruct (sql_eq (col r c) (VNum id)); simpl;
      [reflexivity | now rewrite andb_false_r].
  - exact IH.
Qed.

Lemma filter_pointwise {A} (f g : A -> bool) (l : list A) :
  (forall a, f a = g a) -> filter f l = filter g l.
Proof.
  intros H. induction l as [|a l IH]; simpl; [reflexivity|].
  now rewrite H, IH.
Qed.

Lemma filter_true {A} (f : A -> bool) (l : list A) :
  (forall a, f a = true) -> filter f l = l.
Proof.
  intros H. induction l as [|a l IH]; simpl; [reflexivity|].
  now rewrite H, IH.
Qed.

(** The rows left once those referring to the row [id] are gone. *)
Lemma filter_not_referring (c : string) (id : Z) (rs l : list row) :
  filter (not_referring c (ids_of (filter (id_is id) rs))) l
  = if has_rowid rs (VNum id) then filter (column_is_not c id) l else l.
Proof.
  destruct (has_rowid rs (VNum id)) eqn:E.
  - apply filter_pointwise. intros r. unfold not_referring, column_is_not.
    now rewrite refers_ids, E.
  - apply filter_true. intros r. unfold not_referring.
    now rewrite refers_ids, E.
Qed.

Lemma filter_referring (c : string) (id : Z) (rs l : list row) :
  has_rowid rs (VNum id) = true ->
  filter (refers c (ids_of (filter (id_is id) rs))) l
  = filter (column_is c id) l.
Proof.
  intros E. apply filter_pointwise. intros r. now rewrite refers_ids, E.
Qed.

(** Deleting bills reaches their lines and their payments. *)
Lemma delete_rows_bills (dead : row -> bool) (fk : bool)
      (r1 r2 r3 r4 r5 r6 r7 : list row) (q1 q2 q3 q4 q5 q6 q7 : Z) :
  delete_rows 8 "bills" dead fk
    [ mkTable students_table r1 q1; mkTable departments_table r2 q2;
      mkTable student_departments_table r3 q3;
      mkTable bill_items_table r4 q4; mkTable bills_table r5 q5;
      mkTable bill_item_relations_table r6 q6;
      mkTable payments_table r7 q7 ]
  = [ mkTable students_table r1 q1; mkTable departments_table r2 q2;
      mkTable student_departments_table r3 q3;
      mkTable bill_items_table r4 q4;
      mkTable bills_table (filter (fun r => negb (dead r)) r5) q5;
      mkTable bill_item_relations_table
        (if fk
         then filter (not_referring "billId" (ids_of (filter dead r5))) r6
         else r6)
        q6;
      mkTable payments_table
        (if fk
         then filter (not_referring "billId" (ids_of (filter dead r5))) r7
         else r7)
        q7 ].
Proof.
  destruct fk;
    cbv -[filter col sql_eq existsb negb ids_of refers not_referring];
    reflexivity.
Qed.

(** Deleting departments reaches the enrollments, the bill items and the
    bills of the departments, and through these the lines and payments of
    the bills and the lines that name the bill items. *)
Lemma delete_rows_departments (dead : row -> bool) (fk : bool)
      (r1 r2 r3 r4 r5 r6 r7 : list row) (q1 q2 q3 q4 q5 q6 q7 : Z) :
  delete_rows 8 "departments" dead fk
    [ mkTable students_table r1 q1; mkTable departments_table r2 q2;
      mkTable student_departments_table r3 q3;
      mkTable bill_items_table r4 q4; mkTable bills_table r5 q5;
      mkTable bill_item_relations_table r6 q6;
      mkTable payments_table r7 q7 ]
  = let gone := ids_of (filter dead r2) in
    let items := ids_of (filter (refers "departmentId" gone) r4) in
    let bills := ids_of (filter (refers "departmentId" gone) r5) in
    [ mkTable students_table r1 q1;
      mkTable departments_table (filter (fun r => negb (dead r)) r2) q2;
      mkTable student_departments_table
        (if fk then filter (not_referring "departmentId" gone) r3 else r3) q3;
      mkTable bill_items_table
        (if fk then filter (not_referring "departmentId" gone) r4 else r4) q4;
      mkTable bills_table
        (if fk then filter (not_referring "departmentId" gone) r5 else r5) q5;
      mkTable bill_item_relations_table
        (if fk
         then filter (not_referring "billId" bills)
                     (filter (not_referring "billItemId" items) r6)
         else r6)
        q6;
      mkTable payments_table
        (if fk then filter (not_referring "billId" bills) r7 else r7) q7 ].
Proof.
  destruct fk;
    cbv -[filter col sql_eq existsb negb ids_of refers not_referring];
    reflexivity.
Qed.

Lemma sql_delete_run (n : string) (cond : row -> bool) (db : DB) :
  initialized db ->
  existsb (fun s => ieq (ts_name s) n) createTablesSQL = true ->
  sql_delete n cond db
  = (Ok (Z.of_nat (List.length (filter cond (rows n db)))),
     with_tables (delete_rows 8 n cond (foreign_keys db) (tables db)) db).
Proof.
  intros Hi Hn. unfold sql_delete, rows.
  assert (Hlen : List.length (tables db) = 7%nat).
  { unfold initialized in Hi.
    now rewrite <- (length_map t_schema), Hi. }
  destruct (find_table n (tables db)) as [t|] eqn:Hf.
  - now rewrite Hlen.
  - exfalso. unfold find_table in Hf.
    assert (Hnone : existsb (fun t => ieq (t_name t) n) (tables db) = false).
    { destruct (existsb (fun t => ieq (t_name t) n) (tables db)) eqn:E;
        [|reflexivity].
      apply existsb_exists in E. destruct E as (t & Hin & Ht).
      pose proof (find_none _ _ Hf t Hin) as Hno. cbv beta in Hno.
      congruence. }
    unfold initialized in Hi. rewrite <- Hi in Hn.
    clear - Hn Hnone. unfold t_name in Hnone.
    induction (tables db) as [|t ts IH]; simpl in *; [discriminate|].
    destruct (ieq (ts_name (t_schema t)) n); simpl in *;
      [discriminate | auto].
Qed.

(** The seven tables of an initialized database, with their rows. *)
Lemma initialized_rows (db : DB) :
  initialized db ->
  exists q1 q2 q3 q4 q5 q6 q7,
    tables db
    = [ mkTable students_table (rows "students" db) q1;
        mkTable departments_table (rows "departments" db) q2;
        mkTable student_departments_table (rows "student_departments" db) q3;
        mkTable bill_items_table (rows "bill_items" db) q4;
        mkTable bills_table (rows "bills" db) q5;
        mkTable bill_item_relations_table (rows "bill_item_relations" db) q6;
        mkTable payments_table (rows "payments" db) q7 ].
Proof.
  intros Hi.
  destruct (initialized_shape db Hi)
    as (r1 & q1 & r2 & q2 & r3 & q3 & r4 & q4 & r5 & q5 & r6 & q6 & r7 & q7
        & Hshape).
  exists q1, q2, q3, q4, q5, q6, q7. unfold rows. rewrite Hshape. reflexivity.
Qed.

(** X15: [deleteBillItem] removes the bill item for good; it returns even
    when no bill item has the id.  When foreign keys are enforced the lines
    of bills that name the item go with it, and the bills keep their
    [totalAmount]: every other table is left as it was.  When they are not
    enforced the lines stay, naming a bill item that is gone. *)
Theorem deleteBillItem_cascade (id : Z) (db : DB) :
  initialized db ->
  exists db',
    deleteBillItem id db = (Ok tt, db')
    /\ rows "bill_items" db'
       = filter (column_is_not "id" id) (rows "bill_items" db)
    /\ rows "bill_item_relations" db'
       = (if foreign_keys db
             && has_rowid (rows "bill_items" db) (VNum id)
          then filter (column_is_not "billItemId" id)
                      (rows "bill_item_relations" db)
          else rows "bill_item_relations" db)
    /\ unchanged ["students"; "departments"; "student_departments"; "bills";
                  "payments"] db db'.
Proof.
  intros Hi.
  pose proof (sql_delete_run "bill_items" (id_is id) db Hi eq_refl) as Hrun.
  destruct (initialized_rows db Hi) as (q1 & q2 & q3 & q4 & q5 & q6 & q7 & Hshape).
  rewrite Hshape, delete_rows_bill_items in Hrun.
  eexists. split; [|split; [|split]].
  - unfold deleteBillItem, try_catch, bind, ret. rewrite Hrun. reflexivity.
  - reflexivity.
  - destruct (foreign_keys db); [|reflexivity].
    exact (filter_not_referring "billItemId" id (rows "bill_items" db)
                                (rows "bill_item_relations" db)).
  - unfold unchanged. repeat constructor.
Qed.

Lemma deleteBillItem_cascade_witness :
  exists db',
    deleteBillItem 2 billed_db = (Ok tt, db')
    /\ map (fun r => col r "billItemId") (rows "bill_item_relations" db')
       = [VNum 1]
    /\ map (fun r => col r "totalAmount") (rows "bills" db') = [VNum 140].
Proof.
  destruct (deleteBillItem_cascade 2 billed_db eq_refl)
    as (db' & Hrun & _ & Hrel & Hsame).
  exists db'. split; [exact Hrun|]. split.
  - rewrite Hrel. reflexivity.
  - unfold unchanged in Hsame. rewrite Forall_forall in Hsame.
    rewrite (Hsame "bills") by (simpl; tauto). reflexivity.
Defined.

Lemma changes_has_rowid (id : Z) (rs : list row) :
  (0 <? Z.of_nat (List.length (filter (id_is id) rs)))
  = has_rowid rs (VNum id).
Proof. apply changes_positive. Qed.

Lemma filter_commute {A} (f g : A -> bool) (l : list A) :
  filter f (filter g l) = filter g (filter f l).
Proof.
  induction l as [|a l IH]; simpl; [reflexivity|].
  destruct (f a) eqn:Ef, (g a) eqn:Eg; simpl; rewrite ?Ef, ?Eg, IH;
    reflexivity.
Qed.

(** X16: [deleteBill] answers whether a bill had the id and removes it, so
    that [getBillsByStudentId] lists the other bills of a student as before.
    When foreign keys are enforced its lines and its payments go with it;
    when they are not, they stay behind.  Students, departments, enrollments
    and bill items are left as they were. *)
Theorem deleteBill_cascade (id : Z) (db : DB) :
  initialized db ->
  exists db',
    deleteBill id db = (Ok (has_rowid (rows "bills" db) (VNum id)), db')
    /\ rows "bills" db' = filter (column_is_not "id" id) (rows "bills" db)
    /\ (if foreign_keys db && has_rowid (rows "bills" db) (VNum id)
        then rows "bill_item_relations" db'
             = filter (column_is_not "billId" id)
                      (rows "bill_item_relations" db)
             /\ rows "payments" db'
                = filter (column_is_not "billId" id) (rows "payments" db)
        else unchanged ["bill_item_relations"; "payments"] db db')
    /\ unchanged ["students"; "departments"; "student_departments";
                  "bill_items"] db db'
    /\ (forall studentId bills,
          getBillsByStudentId studentId db = (Ok bills, db) ->
          getBillsByStudentId studentId db'
          = (Ok (filter (column_is_not "id" id) bills), db')).
Proof.
  intros Hi.
  pose proof (sql_delete_run "bills" (id_is id) db Hi eq_refl) as Hrun.
  destruct (initialized_rows db Hi) as (q1 & q2 & q3 & q4 & q5 & q6 & q7 & Hshape).
  rewrite Hshape, delete_rows_bills in Hrun.
  eexists. split; [|split; [|split; [|split]]].
  - unfold deleteBill, try_catch, bind, ret. rewrite Hrun.
    now rewrite changes_has_rowid.
  - reflexivity.
  - pose proof (filter_not_referring "billId" id (rows "bills" db)
                                     (rows "bill_item_relations" db)) as H6.
    pose proof (filter_not_referring "billId" id (rows "bills" db)
                                     (rows "payments" db)) as H7.
    unfold unchanged.
    destruct (foreign_keys db); [|repeat constructor].
    cbn [andb].
    destruct (has_rowid (rows "bills" db) (VNum id)).
    + split; [exact H6 | exact H7].
    + repeat constructor; [exact H6 | exact H7].
  - unfold unchanged. repeat constructor.
  - intros studentId bills Hbills.
    unfold getBillsByStudentId, try_catch, getAllAsync in *.
    erewrite sql_select_run in Hbills by (rewrite Hshape; reflexivity).
    erewrite sql_select_run by reflexivity.
    cbn [t_rows] in *. injection Hbills as <-.
    do 2 f_equal. apply filter_commute.
Qed.

Lemma deleteBill_cascade_witness :
  exists db',
    deleteBill 1 billed_db = (Ok true, db')
    /\ rows "bills" db' = []
    /\ rows "bill_item_relations" db' = [].
Proof.
  destruct (deleteBill_cascade 1 billed_db eq_refl)
    as (db' & Hrun & Hbills & Hrel & _).
  exists db'. split; [exact Hrun|]. split.
  - rewrite Hbills. reflexivity.
  - destruct Hrel as (Hrel & _). rewrite Hrel. reflexivity.
Defined.

(** X17: [deleteDepartment] answers whether a department had the id and
    removes it, so that [getDepartmentById] then returns [null]; the
    students are never touched.  When foreign keys are
    enforced the enrollments, the bill items and the bills of the department
    go with it, and with the bills their lines and payments, and with the
    bill items the lines that name them.  When they are not enforced, or no
    department had the id, every other table is left as it was. *)
Theorem deleteDepartment_cascade (id : Z) (db : DB) :
  initialized db ->
  exists db',
    deleteDepartment id db
    = (Ok (has_rowid (rows "departments" db) (VNum id)), db')
    /\ rows "departments" db'
       = filter (column_is_not "id" id) (rows "departments" db)
    /\ getDepartmentById id db' = (Ok None, db')
    /\ rows "students" db' = rows "students" db
    /\ (if foreign_keys db && has_rowid (rows "departments" db) (VNum id)
        then
          let bills := ids_of (filter (column_is "departmentId" id)
                                      (rows "bills" db)) in
          let items := ids_of (filter (column_is "departmentId" id)
                                      (rows "bill_items" db)) in
          rows "student_departments" db'
          = filter (column_is_not "departmentId" id)
                   (rows "student_departments" db)
          /\ rows "bill_items" db'
             = filter (column_is_not "departmentId" id) (rows "bill_items" db)
          /\ rows "bills" db'
             = filter (column_is_not "departmentId" id) (rows "bills" db)
          /\ rows "bill_item_relations" db'
             = filter (not_referring "billId" bills)
                      (filter (not_referring "billItemId" items)
                              (rows "bill_item_relations" db))
          /\ rows "payments" db'
             = filter (not_referring "billId" bills) (rows "payments" db)
        else unchanged ["student_departments"; "bill_items"; "bills";
                        "bill_item_relations"; "payments"] db db').
Proof.
  intros Hi.
  pose proof (sql_delete_run "departments" (id_is id) db Hi eq_refl) as Hrun.
  destruct (initialized_rows db Hi) as (q1 & q2 & q3 & q4 & q5 & q6 & q7 & Hshape).
  rewrite Hshape, delete_rows_departments in Hrun. cbv zeta in Hrun.
  eexists. split; [|split; [|split; [|split]]].
  - unfold deleteDepartment, try_catch, bind, ret. rewrite Hrun.
    now rewrite changes_has_rowid.
  - reflexivity.
  - unfold getDepartmentById, try_catch.
    erewrite getFirstAsync_run by reflexivity. cbn [t_rows].
    now rewrite (filter_filter_negb (id_is id)).
  - reflexivity.
  - set (deps := rows "departments" db).
    pose proof (filter_not_referring "departmentId" id deps
                  (rows "student_departments" db)) as H3.
    pose proof (filter_not_referring "departmentId" id deps
                  (rows "bill_items" db)) as H4.
    pose proof (filter_not_referring "departmentId" id deps
                  (rows "bills" db)) as H5.
    unfold unchanged.
    destruct (foreign_keys db); [|repeat constructor].
    cbn [andb].
    destruct (has_rowid deps (VNum id)) eqn:Ehas.
    + cbv zeta. split; [exact H3|]. split; [exact H4|]. split; [exact H5|].
      rewrite <- !(filter_referring "departmentId" id deps) by exact Ehas.
      split; reflexivity.
    + assert (Hnone : forall c l,
                 filter (refers c (ids_of (filter (id_is id) deps))) l = []).
      { intros c l. apply filter_none.
        apply not_true_is_false. intros Hex. apply existsb_exists in Hex.
        destruct Hex as (r & _ & Hr). rewrite refers_ids, Ehas in Hr.
        discriminate. }
      assert (Hall : forall c (l : list row),
                 filter (not_referring c []) l = l).
      { intros c l. now apply filter_true. }
      set (gone := ids_of (filter (id_is id) deps)) in *.
      assert (G6 : filter
                     (not_referring "billId"
                        (ids_of (filter (refers "departmentId" gone)
                                        (rows "bills" db))))
                     (filter
                        (not_referring "billItemId"
                           (ids_of (filter (refers "departmentId" gone)
                                           (rows "bill_items" db))))
                        (rows "bill_item_relations" db))
                   = rows "bill_item_relations" db).
      { rewrite !Hnone. cbn [ids_of map]. now rewrite !Hall. }
      assert (G7 : filter
                     (not_referring "billId"
                        (ids_of (filter (refers "departmentId" gone)
                                        (rows "bills" db))))
                     (rows "payments" db)
                   = rows "payments" db).
      { rewrite !Hnone. cbn [ids_of map]. now rewrite !Hall. }
      repeat constructor;
        [exact H3 | exact H4 | exact H5 | exact G6 | exact G7].
Qed.

Lemma deleteDepartment_cascade_witness :
  exists db',
    deleteDepartment 1 billed_db = (Ok true, db')
    /\ rows "students" db' = rows "students" billed_db
    /\ rows "student_departments" db' = []
    /\ rows "bill_items" db' = []
    /\ rows "bills" db' = []
    /\ rows "bill_item_relations" db' = [].
Proof.
  destruct (deleteDepartment_cascade 1 billed_db eq_refl)
    as (db' & Hrun & _ & _ & Hstudents & Hsd & Hitems & Hbills & Hrel & _).
  exists db'. split; [exact Hrun|]. split; [exact Hstudents|].
  split; [rewrite Hsd; reflexivity|].
  split; [rewrite Hitems; reflexivity|].
  split; [rewrite Hbills; reflexivity|].
  rewrite Hrel. reflexivity.
Defined.

(** ** [addBillItem] and [createDepartment] *)

(** The INSERT of [addBillItem]. *)
Lemma addBillItem_run (billItem : NewBillItem) (db : DB) :
  initialized db ->
  foreign_keys db
  && negb (has_rowid (rows "departments" db)
                     (VNum (nb_departmentId billItem))) = false ->
  exists id db',
    addBillItem billItem db = (Ok (mkBillItem id billItem), db')
    /\ initialized db' /\ same_connection db db'
    /\ (forall m, ieq "bill_items" m = false -> rows m db' = rows m db)
    /\ has_rowid (rows "bill_items" db) (VNum id) = false
    /\ rows "bill_items" db'
       = rows "bill_items" db
           ++ [new_row bill_items_table (bill_item_values billItem) id
                       (now db)].
Proof.
  intros Hi Hfk. open_table db "bill_items" bill_items_table Hi rs q Hf.
  assert (Hins : exists rowid db1,
             sql_insert "bill_items" (bill_item_values billItem) db
             = (Ok rowid, db1)).
  { unfold sql_insert. rewrite Hf. cbn [t_schema t_rows t_seq].
    change (unknown_column bill_items_table _)
      with (@None (string * value)).
    cbv iota.
    match goal with
    | |- context [notnull_violation ?s ?r] =>
        change (notnull_violation s r) with (@None column)
    end.
    cbv iota.
    rewrite has_rowid_above
      by (unfold next_rowid; cbn [assigned ieq t_rows t_seq]; simpl; lia).
    cbn [unique_violation ts_unique bill_items_table find].
    match goal with
    | |- context [fk_violation ?s ?ts ?r] =>
        replace (fk_violation s ts r)
          with (negb (has_rowid (rows "departments" db)
                                (VNum (nb_departmentId billItem))))
    end.
    - rewrite Hfk. eauto.
    - unfold fk_violation.
      cbn [ts_fks bill_items_table existsb fk_col fk_table].
      rewrite !parent_has_rows.
      match goal with
      | |- context [col ?r "departmentId"] =>
          change (col r "departmentId") with (VNum (nb_departmentId billItem))
      end.
      cbn [is_null negb andb]. now rewrite orb_false_r. }
  destruct Hins as (rowid & db1 & Hins).
  pose proof (sql_insert_ok _ _ _ _ _ Hins)
    as (Hc & Hinit & Hother & t' & Hft & Hnew & Hrows).
  rewrite Hf in Hft. inversion Hft; subst t'. cbn [t_schema] in Hrows.
  exists rowid, db1.
  split; [|split; [now apply Hinit|split; [exact Hc|split; [exact Hother|]]]].
  - unfold addBillItem, try_catch, bind, ret.
    fold (bill_item_values billItem). now rewrite Hins.
  - split; [exact Hnew | exact Hrows].
Qed.

(** X18: [addBillItem] fails, changing nothing, exactly when foreign keys
    are enforced and no department has the [departmentId].  Otherwise it
    appends one bill item under a new id, which [getBillItemById] returns:
    the row holds the given values, NULL where [description], [category] or
    [isRequired] was omitted (not the default 0 of [isRequired]), and
    [isActive] 1. *)
Theorem addBillItem_outcome (billItem : NewBillItem) (db : DB) :
  initialized db ->
  if foreign_keys db
     && negb (has_rowid (rows "departments" db)
                        (VNum (nb_departmentId billItem)))
  then addBillItem billItem db = (Err "FOREIGN KEY constraint failed", db)
  else
    exists id db' r,
      addBillItem billItem db = (Ok (mkBillItem id billItem), db')
      /\ has_rowid (rows "bill_items" db) (VNum id) = false
      /\ rows "bill_items" db' = rows "bill_items" db ++ [r]
      /\ (forall m, ieq "bill_items" m = false -> rows m db' = rows m db)
      /\ getBillItemById id db' = (Ok (Some r), db')
      /\ project (supplied_columns ++ ["id"; "isActive"]) r
         = bill_item_values billItem ++ [("id", VNum id); ("isActive", VNum 1)].
Proof.
  intros Hi.
  destruct (foreign_keys db
            && negb (has_rowid (rows "departments" db)
                               (VNum (nb_departmentId billItem)))) eqn:Hfk.
  - open_table db "bill_items" bill_items_table Hi rs q Hf.
    unfold addBillItem, try_catch, bind, ret, throw, sql_insert.
    rewrite Hf. cbn [t_schema t_rows t_seq].
    change (unknown_column bill_items_table _)
      with (@None (string * value)).
    cbv iota.
    match goal with
    | |- context [notnull_violation ?s ?r] =>
        change (notnull_violation s r) with (@None column)
    end.
    cbv iota.
    rewrite has_rowid_above
      by (unfold next_rowid; cbn [assigned ieq t_rows t_seq]; simpl; lia).
    cbn [unique_violation ts_unique bill_items_table find].
    match goal with
    | |- context [fk_violation ?s ?ts ?r] =>
        replace (fk_violation s ts r)
          with (negb (has_rowid (rows "departments" db)
                                (VNum (nb_departmentId billItem))))
    end.
    + now rewrite Hfk.
    + unfold fk_violation.
      cbn [ts_fks bill_items_table existsb fk_col fk_table].
      rewrite !parent_has_rows.
      match goal with
      | |- context [col ?r "departmentId"] =>
          change (col r "departmentId") with (VNum (nb_departmentId billItem))
      end.
      cbn [is_null negb andb]. now rewrite orb_false_r.
  - destruct (addBillItem_run billItem db Hi Hfk)
      as (id & db' & Hrun & Hi' & _ & Hother & Hnew & Hrows).
    exists id, db'. eexists.
    split; [exact Hrun|]. split; [exact Hnew|]. split; [exact Hrows|].
    split; [exact Hother|]. split; [|reflexivity].
    open_table db' "bill_items" bill_items_table Hi' rs' q' Hf'.
    unfold getBillItemById, try_catch.
    rewrite (getFirstAsync_run _ _ _ _ Hf').
    rewrite <- (rows_find _ _ _ Hf'), Hrows.
    rewrite hd_error_filter_new; [reflexivity | exact Hnew | reflexivity].
Qed.

Lemma addBillItem_outcome_witness :
  addBillItem (mkNewBillItem "Lab" 50 9 None None None) school_db
  = (Err "FOREIGN KEY constraint failed", school_db).
Proof.
  exact (addBillItem_outcome (mkNewBillItem "Lab" 50 9 None None None)
                             school_db eq_refl).
Defined.



Lemma create_department_items_connection (id : Z)
      (items : list DepartmentBillItem) (acc : list BillItem * Z)
      (db db' : DB) (res : result (list BillItem * Z)) :
  for_of items (create_department_item id) acc db = (res, db') ->
  same_connection db db'.
Proof.
  intros H.
  apply (for_of_invariant (same_connection db) (create_department_item id)
                          items)
    with (s := acc) (db := db) (res := res); auto with conn.
  intros x s d r d' Hd Hx. eapply same_connection_trans; [exact Hd|].
  unfold create_department_item, bind, ret in Hx.
  destruct (addBillItem _ d) as [[b|e] d1] eqn:E;
    apply addBillItem_connection in E; inversion Hx; now subst.
Qed.








(** ** Calls inside an open transaction *)

(** X20: called while a transaction is open, [bulkEnroll],
    [createBillsForDepartment], [createDepartment] and [updateDepartment]
    fail at their BEGIN TRANSACTION, which stands before the [try], and leave
    the open transaction as it is.  [createBillWithItems] has its BEGIN
    inside the [try]: its handler runs ROLLBACK and so undoes the work of
    the transaction that was open. *)
Theorem begin_inside_transaction (snapshot : list table) (db : DB) :
  txn db = Some snapshot ->
  exists e,
    BEGIN_TRANSACTION db = (Err e, db)
    /\ (forall d ids, bulkEnroll d ids db = (Err e, db))
    /\ (forall d items name,
          createBillsForDepartment d items name db = (Err e, db))
    /\ (forall department, createDepartment department db = (Err e, db))
    /\ (forall department id,
          d_id department = Some id -> id <> 0 ->
          updateDepartment department db = (Err e, db))
    /\ (forall bill,
          createBillWithItems bill db = (Err e, exec ROLLBACK db))
    /\ tables (exec ROLLBACK db) = snapshot
    /\ txn (exec ROLLBACK db) = None.
Proof.
  intros Ht.
  assert (Hb : BEGIN_TRANSACTION db
               = (Err "cannot start a transaction within a transaction", db))
    by (unfold BEGIN_TRANSACTION; now rewrite Ht).
  eexists. split; [exact Hb|].
  split; [|split; [|split; [|split; [|split; [|split]]]]].
  - intros d ids. unfold bulkEnroll. unfold bind at 1. now rewrite Hb.
  - intros d items name. unfold createBillsForDepartment. unfold bind at 1.
    now rewrite Hb.
  - intros department. unfold createDepartment. unfold bind at 1.
    now rewrite Hb.
  - intros department id Hid Hnz. unfold updateDepartment. rewrite Hid.
    destruct id; [contradiction| |]; unfold bind at 1; now rewrite Hb.
  - intros bill. unfold createBillWithItems, try_catch. unfold bind at 1.
    rewrite Hb. unfold bind, throw, exec, ROLLBACK. rewrite Ht. reflexivity.
  - unfold exec, ROLLBACK. rewrite Ht. reflexivity.
  - unfold exec, ROLLBACK. rewrite Ht. reflexivity.
Qed.

Lemma begin_inside_transaction_witness :
  exists e,
    bulkEnroll 1 [1] open_transaction_db = (Err e, open_transaction_db)
    /\ createBillWithItems term_bill open_transaction_db = (Err e, school_db).
Proof.
  destruct (begin_inside_transaction (tables school_db) open_transaction_db
              eq_refl)
    as (e & _ & Henroll & _ & _ & _ & Hbill & _).
  exists e. split; [apply Henroll | apply Hbill].
Defined.

(** ** When [createBillWithItems] succeeds *)







(** ** [updateBill] *)

(** The UPDATE of [updateBill]. *)
Lemma update_bill_row (bill : BillData) (id : Z) (db : DB) :
  initialized db ->
  Forall (conforms bills_table) (rows "bills" db) ->
  exists db',
    sql_update "bills" (bill_assignments bill) (id_is id) db
    = (if bill_update_blocked bill id db
       then Err foreign_key_failed
       else Ok (Z.of_nat (List.length (filter (id_is id) (rows "bills" db)))),
       db')
    /\ (bill_update_blocked bill id db = true
        \/ has_rowid (rows "bills" db) (VNum id) = false ->
        db' = db).
Proof.
  intros Hi Hconf. open_table db "bills" bills_table Hi rs q Hf.
  unfold bill_update_blocked.
  rewrite (rows_find _ _ _ Hf) in *. cbn [t_rows] in *.
  unfold sql_update. rewrite Hf. cbn [t_schema t_rows t_seq].
  change (unknown_column bills_table _) with (@None (string * value)).
  cbv iota.
  destruct (filter (id_is id) rs) as [|r0 hit] eqn:Ehit.
  { assert (Hn : has_rowid rs (VNum id) = false).
    { apply hd_error_filter_existsb. fold (id_is id). now rewrite Ehit. }
    rewrite Hn. exists db. now split. }
  destruct (filter_head_exists _ _ _ _ Ehit) as (Hex & Hin).
  assert (Hr0 : conforms bills_table r0).
  { rewrite Forall_forall in Hconf. now apply Hconf. }
  rewrite (update_notnull_check bills_table _ r0 Hr0).
  match goal with
  | |- context [find ?f (ts_cols bills_table)] =>
      change (find f (ts_cols bills_table)) with (@None column)
  end.
  cbv iota. cbn [ts_unique ts_fks bills_table find existsb].
  cbn [fk_col fk_table].
  rewrite !col_assign, !(has_col_conforms _ _ _ Hr0), !parent_has_rows.
  change (assigned (bill_assignments bill) "studentId")
    with (Some (VNum (bd_studentId bill))).
  change (assigned (bill_assignments bill) "departmentId")
    with (Some (VNum (bd_departmentId bill))).
  change (is_assigned (bill_assignments bill) "studentId") with true.
  change (is_assigned (bill_assignments bill) "departmentId") with true.
  change (existsb (fun k => ieq (c_name k) "studentId") (ts_cols bills_table))
    with true.
  change (existsb (fun k => ieq (c_name k) "departmentId")
                  (ts_cols bills_table)) with true.
  cbv iota. cbn [is_null negb andb orb].
  assert (Hhas : has_rowid rs (VNum id) = true) by exact Hex.
  rewrite !Hhas. cbn [andb]. rewrite orb_false_r, <- negb_andb.
  destruct (foreign_keys db); cbn [andb].
  - destruct (has_rowid (rows "students" db) (VNum (bd_studentId bill))
              && has_rowid (rows "departments" db)
                           (VNum (bd_departmentId bill))); cbn [negb].
    + eexists. split; [reflexivity|]. intros [H|H]; discriminate H.
    + exists db. now split.
  - eexists. split; [reflexivity|]. intros [H|H]; discriminate H.
Qed.

(** X22: [updateBill] refuses a bill without id (or with id 0) before
    touching the database.  Otherwise it answers whether a bill has the id
    and changes nothing when none has; it fails, changing nothing, only when
    the bill exists, foreign keys are enforced and the student or the
    department given does not exist.  The row then holds the given values;
    an omitted or empty [dueDate], [status] or [note] and an omitted or zero
    [discount] are stored as NULL, and [totalAmount] is the number given:
    the lines of the bill are neither read nor changed. *)
Theorem updateBill_outcome (bill : BillData) (db : DB) :
  initialized db ->
  Forall (conforms bills_table) (rows "bills" db) ->
  match bd_id bill with
  | None | Some 0 =>
      updateBill bill db = (Err "Bill ID is required for update", db)
  | Some id =>
      exists db',
        updateBill bill db
        = (if bill_update_blocked bill id db
           then Err foreign_key_failed
           else Ok (has_rowid (rows "bills" db) (VNum id)), db')
        /\ (bill_update_blocked bill id db = true
            \/ has_rowid (rows "bills" db) (VNum id) = false ->
            db' = db)
        /\ (forall m, ieq "bills" m = false -> rows m db' = rows m db)
        /\ (bill_update_blocked bill id db = false ->
            forall r,
              getBillById id db = (Ok (Some r), db) ->
              exists r',
                getBillById id db' = (Ok (Some r'), db')
                /\ project ["name"; "studentId"; "departmentId"; "totalAmount";
                            "dueDate"; "status"; "discount"; "note"] r'
                   = bill_assignments bill
                /\ project ["id"; "isActive"; "createdAt"; "updatedAt"] r'
                   = project ["id"; "isActive"; "createdAt"; "updatedAt"] r)
  end.
Proof.
  intros Hi Hconf.
  destruct (bd_id bill) as [id|] eqn:Hid;
    [|unfold updateBill, try_catch; now rewrite Hid].
  destruct (Z.eq_dec id 0) as [->|Hz];
    [unfold updateBill, try_catch; now rewrite Hid|].
  assert (Hgoal :
      exists db',
        updateBill bill db
        = (if bill_update_blocked bill id db
           then Err foreign_key_failed
           else Ok (has_rowid (rows "bills" db) (VNum id)), db')
        /\ (bill_update_blocked bill id db = true
            \/ has_rowid (rows "bills" db) (VNum id) = false ->
            db' = db)
        /\ (forall m, ieq "bills" m = false -> rows m db' = rows m db)
        /\ (bill_update_blocked bill id db = false ->
            forall r,
              getBillById id db = (Ok (Some r), db) ->
              exists r',
                getBillById id db' = (Ok (Some r'), db')
                /\ project ["name"; "studentId"; "departmentId"; "totalAmount";
                            "dueDate"; "status"; "discount"; "note"] r'
                   = bill_assignments bill
                /\ project ["id"; "isActive"; "createdAt"; "updatedAt"] r'
                   = project ["id"; "isActive"; "createdAt"; "updatedAt"] r)).
  2:{ destruct id; [congruence | exact Hgoal | exact Hgoal]. }
  destruct (update_bill_row bill id db Hi Hconf) as (db' & Hrun & Hsame).
  exists db'.
  destruct (sql_update_frame _ _ _ _ _ _ Hrun) as (Hinit & Hother).
  split; [|split; [exact Hsame | split; [exact Hother|]]].
  - unfold updateBill, try_catch, bind, ret. rewrite Hid.
    destruct id; try congruence; rewrite Hrun;
      (destruct (bill_update_blocked bill _ db);
       [reflexivity | now rewrite changes_positive]).
  - intros Hfree r Hget. rewrite Hfree in Hrun.
    pose proof (sql_update_rows _ _ _ _ _ _ Hrun) as Hrows.
    specialize (Hinit Hi).
    open_table db "bills" bills_table Hi rs q Hf.
    open_table db' "bills" bills_table Hinit rs' q' Hf'.
    rewrite (rows_find _ _ _ Hf), (rows_find _ _ _ Hf') in Hrows.
    cbn [t_rows] in Hrows. subst rs'.
    unfold getBillById, try_catch in *.
    rewrite (getFirstAsync_run _ _ _ _ Hf) in Hget.
    rewrite (getFirstAsync_run _ _ _ _ Hf'). cbn [t_rows] in *.
    rewrite hd_error_filter_update by reflexivity.
    inversion Hget as [Hhd]. rewrite Hhd. cbn [option_map].
    eexists. split; [reflexivity|].
    assert (Hr : conforms bills_table r).
    { rewrite (rows_find _ _ _ Hf) in Hconf. cbn [t_rows] in Hconf.
      rewrite Forall_forall in Hconf. apply Hconf.
      destruct (filter (id_is id) rs) as [|r1 l] eqn:E; [discriminate|].
      inversion Hhd; subst r1.
      now destruct (filter_head_exists _ _ _ _ E). }
    unfold project. cbn [map].
    rewrite !col_assign, !(has_col_conforms _ _ _ Hr).
    split; reflexivity.
Qed.

Lemma updateBill_outcome_witness :
  exists db' r',
    updateBill (mkBillData (Some 1) "Term1" 1 1 500 None None None None)
               billed_db
    = (Ok true, db')
    /\ rows "bill_item_relations" db' = rows "bill_item_relations" billed_db
    /\ getBillById 1 db' = (Ok (Some r'), db')
    /\ col r' "totalAmount" = VNum 500 /\ col r' "status" = VNull.
Proof.
  destruct (updateBill_outcome
              (mkBillData (Some 1) "Term1" 1 1 500 None None None None)
              billed_db eq_refl)
    as (db' & Hrun & _ & Hother & Hget).
  - repeat constructor.
  - destruct (Hget eq_refl (hd [] (filter (id_is 1) (rows "bills" billed_db)))
                   eq_refl)
      as (r' & Hr' & Hcols & _).
    exists db', r'. split; [exact Hrun|].
    split; [apply Hother; reflexivity|]. split; [exact Hr'|].
    split.
    + exact (f_equal (fun l => snd (nth 3 l ("", VNull))) Hcols).
    + exact (f_equal (fun l => snd (nth 5 l ("", VNull))) Hcols).
Defined.

(** ** [addBillItemRelation] *)

(** X23: [addBillItemRelation] fails, changing nothing, exactly when foreign
    keys are enforced and the bill or the bill item does not exist.
    Otherwise it appends one line under a new id with the given amount (0
    when omitted), quantity 1, discount 0 and [isActive] 1, which
    [getBillItemRelationById] returns; the bill itself, with its
    [totalAmount], is left as it was. *)
Theorem addBillItemRelation_outcome (relation : NewBillItemRelation)
        (db : DB) :
  initialized db ->
  if foreign_keys db
     && negb (has_rowid (rows "bills" db) (VNum (nr_billId relation))
              && has_rowid (rows "bill_items" db)
                           (VNum (nr_billItemId relation)))
  then addBillItemRelation relation db = (Err foreign_key_failed, db)
  else
    exists id db' r,
      addBillItemRelation relation db
      = (Ok (mkBillItemRelation id (nr_billId relation)
                                (nr_billItemId relation)
                                (nullish (nr_amount relation) 0)), db')
      /\ has_rowid (rows "bill_item_relations" db) (VNum id) = false
      /\ rows "bill_item_relations" db'
         = rows "bill_item_relations" db ++ [r]
      /\ (forall m, ieq "bill_item_relations" m = false ->
                    rows m db' = rows m db)
      /\ getBillItemRelationById id db' = (Ok (Some r), db')
      /\ project ["id"; "billId"; "billItemId"; "amount"; "quantity";
                  "discount"; "isActive"] r
         = [ ("id", VNum id); ("billId", VNum (nr_billId relation));
             ("billItemId", VNum (nr_billItemId relation));
             ("amount", VNum (nullish (nr_amount relation) 0));
             ("quantity", VNum 1); ("discount", VNum 0);
             ("isActive", VNum 1) ].
Proof.
  intros Hi.
  open_table db "bill_item_relations" bill_item_relations_table Hi rs q Hf.
  set (vals := [ ("billId", VNum (nr_billId relation));
                 ("billItemId", VNum (nr_billItemId relation));
                 ("amount", VNum (nullish (nr_amount relation) 0)) ]).
  set (blocked := foreign_keys db
                  && negb (has_rowid (rows "bills" db)
                                     (VNum (nr_billId relation))
                           && has_rowid (rows "bill_items" db)
                                        (VNum (nr_billItemId relation)))).
  assert (Hrun : sql_insert "bill_item_relations" vals db
                 = if blocked
                   then (Err foreign_key_failed, db)
                   else
                     let t := mkTable bill_item_relations_table rs q in
                     (Ok (next_rowid t vals),
                      with_tables
                        (set_table
                           (mkTable bill_item_relations_table
                              (rs ++ [new_row bill_item_relations_table vals
                                              (next_rowid t vals) (now db)])
                              (Z.max q (next_rowid t vals)))
                           (tables db)) db)).
  { unfold sql_insert. rewrite Hf. cbn [t_schema t_rows t_seq].
    change (unknown_column bill_item_relations_table vals)
      with (@None (string * value)).
    cbv iota.
    match goal with
    | |- context [notnull_violation ?s ?r] =>
        change (notnull_violation s r) with (@None column)
    end.
    cbv iota.
    rewrite has_rowid_above
      by (unfold next_rowid; cbn [assigned ieq t_rows t_seq]; simpl; lia).
    cbn [unique_violation ts_unique bill_item_relations_table find].
    match goal with
    | |- context [fk_violation ?s ?ts ?r] =>
        replace (fk_violation s ts r)
          with (negb (has_rowid (rows "bills" db) (VNum (nr_billId relation))
                      && has_rowid (rows "bill_items" db)
                                   (VNum (nr_billItemId relation))))
    end.
    - reflexivity.
    - unfold fk_violation.
      cbn [ts_fks bill_item_relations_table existsb fk_col fk_table].
      rewrite !parent_has_rows.
      match goal with
      | |- context [col ?r "billId"] =>
          change (col r "billId") with (VNum (nr_billId relation))
      end.
      match goal with
      | |- context [col ?r "billItemId"] =>
          change (col r "billItemId") with (VNum (nr_billItemId relation))
      end.
      cbn [is_null negb andb]. rewrite orb_false_r.
      now rewrite negb_andb. }
  unfold addBillItemRelation, try_catch, bind, ret, throw. fold vals.
  rewrite Hrun.
  destruct blocked; [reflexivity|]. cbv zeta in Hrun.
  pose proof (sql_insert_ok _ _ _ _ _ Hrun)
    as (_ & Hinit & Hother & t' & Hft & Hnew & Hrows).
  rewrite Hf in Hft. inversion Hft; subst t'. cbn [t_schema] in Hrows.
  do 3 eexists. split; [reflexivity|]. split; [exact Hnew|].
  split; [exact Hrows|]. split; [exact Hother|].
  split; [|reflexivity].
  specialize (Hinit Hi).
  match type of Hrun with _ = (_, ?d) => set (db' := d) in * end.
  open_table db' "bill_item_relations" bill_item_relations_table Hinit rs' q'
             Hf'.
  unfold getBillItemRelationById, try_catch.
  rewrite (getFirstAsync_run _ _ _ _ Hf').
  rewrite <- (rows_find _ _ _ Hf'), Hrows.
  rewrite hd_error_filter_new; [reflexivity | exact Hnew | reflexivity].
Qed.

Lemma addBillItemRelation_outcome_witness :
  addBillItemRelation (mkNewBillItemRelation 5 1 None) billed_db
  = (Err foreign_key_failed, billed_db).
Proof.
  exact (addBillItemRelation_outcome (mkNewBillItemRelation 5 1 None)
                                     billed_db eq_refl).
Defined.

(** ** Enrolling, then listing *)

Lemma join_lists (n1 n2 : string) (on_ cond : row -> row -> bool) (db : DB)
      (t1 t2 : table) (a b : row) :
  find_table n1 (tables db) = Some t1 ->
  find_table n2 (tables db) = Some t2 ->
  In a (t_rows t1) -> In b (t_rows t2) ->
  on_ a b = true -> cond a b = true ->
  exists l, sql_select_join n1 n2 on_ cond db = (Ok l, db) /\ In a l.
Proof.
  intros H1 H2 Ha Hb Hon Hc. unfold sql_select_join. rewrite H1, H2.
  eexists. split; [reflexivity|].
  apply in_flat_map. exists a. split; [exact Ha|].
  apply in_map_iff. exists b. split; [reflexivity|].
  apply filter_In. split; [exact Hb|]. now rewrite Hon, Hc.
Qed.

Lemma has_rowid_row (rs : list row) (i : Z) :
  has_rowid rs (VNum i) = true -> exists r, In r rs /\ col r "id" = VNum i.
Proof.
  unfold has_rowid. intros H. apply existsb_exists in H.
  destruct H as (r & Hin & Hr). exists r. split; [exact Hin|].
  now apply sql_eq_num.
Qed.

(** X24: after [bulkEnroll] of a student who exists and has no row for the
    department, both views show the enrollment:
    [getEnrollmentsByDepartment] of the department lists the student and
    [getStudentDepartments] of the student lists the department. *)
Theorem bulkEnroll_then_listed (s d : Z) (db : DB) :
  initialized db -> txn db = None ->
  has_rowid (rows "departments" db) (VNum d) = true ->
  has_rowid (rows "students" db) (VNum s) = true ->
  existsb (enrollment_is s d) (rows "student_departments" db) = false ->
  exists db' students departments x y,
    bulkEnroll d [s] db = (Ok (mkBulkEnrollmentResult 1 []), db')
    /\ getEnrollmentsByDepartment d db' = (Ok students, db')
    /\ In x students /\ In x (rows "students" db) /\ col x "id" = VNum s
    /\ getStudentDepartments s db' = (Ok departments, db')
    /\ In y departments /\ In y (rows "departments" db)
    /\ col y "id" = VNum d.
Proof.
  intros Hi Hnone Hd Hs He.
  destruct (bulkEnroll_new_student s d db Hi Hnone Hd Hs He)
    as (db' & r & Hrun & Hi' & Hother & Hrows & Hr & _ & Hactive).
  destruct (has_rowid_row _ _ Hs) as (x & Hx & Hxid).
  destruct (has_rowid_row _ _ Hd) as (y & Hy & Hyid).
  unfold enrollment_is in Hr. apply andb_prop in Hr.
  destruct Hr as (Hrs & Hrd).
  pose proof (sql_eq_num _ _ Hrs) as Hrs'.
  pose proof (sql_eq_num _ _ Hrd) as Hrd'.
  open_table db' "students" students_table Hi' ss qs Hfs.
  open_table db' "departments" departments_table Hi' ds qd Hfd.
  open_table db' "student_departments" student_departments_table Hi' sds qsd
             Hfsd.
  assert (Hss : ss = rows "students" db).
  { rewrite <- (Hother "students" eq_refl). symmetry.
    apply (rows_find _ _ _ Hfs). }
  assert (Hds : ds = rows "departments" db).
  { rewrite <- (Hother "departments" eq_refl). symmetry.
    apply (rows_find _ _ _ Hfd). }
  assert (Hin : In r sds).
  { rewrite <- (rows_find _ _ _ Hfsd : rows _ db' = sds), Hrows.
    apply in_or_app. right. now left. }
  destruct (join_lists "students" "student_departments"
              (fun s0 sd => sql_eq (col s0 "id") (col sd "studentId"))
              (fun _ sd => sql_eq (col sd "departmentId") (VNum d)
                           && sql_eq (col sd "isActive") (VNum 1))
              db' _ _ x r Hfs Hfsd)
    as (students & Hstudents & Hxin).
  { cbn [t_rows]. now rewrite Hss. }
  { exact Hin. }
  { rewrite Hxid, Hrs'. apply sql_eq_num_refl. }
  { rewrite Hrd, Hactive. reflexivity. }
  destruct (join_lists "departments" "student_departments"
              (fun d0 sd => sql_eq (col d0 "id") (col sd "departmentId"))
              (fun _ sd => sql_eq (col sd "studentId") (VNum s)
                           && sql_eq (col sd "isActive") (VNum 1))
              db' _ _ y r Hfd Hfsd)
    as (departments & Hdepartments & Hyin).
  { cbn [t_rows]. now rewrite Hds. }
  { exact Hin. }
  { rewrite Hyid, Hrd'. apply sql_eq_num_refl. }
  { rewrite Hrs, Hactive. reflexivity. }
  exists db', students, departments, x, y.
  repeat split; assumption.
Qed.

Lemma bulkEnroll_then_listed_witness :
  exists db' students departments x y,
    bulkEnroll 1 [2] school_db = (Ok (mkBulkEnrollmentResult 1 []), db')
    /\ getEnrollmentsByDepartment 1 db' = (Ok students, db')
    /\ In x students /\ In x (rows "students" school_db) /\ col x "id" = VNum 2
    /\ getStudentDepartments 2 db' = (Ok departments, db')
    /\ In y departments /\ In y (rows "departments" school_db)
    /\ col y "id" = VNum 1.
Proof.
  apply (bulkEnroll_then_listed 2 1 school_db); reflexivity.
Defined.

(** ** The listings: [getAllStudents] and the like *)

Lemma value_leb_total (a b : value) :
  value_leb a b = true \/ value_leb b a = true.
Proof.
  destruct a as [|x|x], b as [|y|y]; simpl; auto.
  - destruct (Z.leb_spec x y); [now left | right; apply Z.leb_le; lia].
  - apply String.leb_total.
Qed.

Lemma insert_sorted_perm (le : row -> row -> bool) (r : row) (l : list row) :
  Permutation (insert_sorted le r l) (r :: l).
Proof.
  induction l as [|h l IH]; simpl; [reflexivity|].
  destruct (le r h); [reflexivity|].
  rewrite IH. apply perm_swap.
Qed.

Lemma order_by_perm (c : string) (o : SortOrder) (l : list row) :
  Permutation (order_by c o l) l.
Proof.
  unfold order_by. induction l as [|r l IH]; simpl; [reflexivity|].
  rewrite insert_sorted_perm. now constructor.
Qed.

Lemma insert_sorted_sorted (le : row -> row -> bool) (r : row) (l : list row) :
  (forall a b, le a b = true \/ le b a = true) ->
  Sorted (fun a b => le a b = true) l ->
  Sorted (fun a b => le a b = true) (insert_sorted le r l).
Proof.
  intros Htotal Hl. induction Hl as [|h l Hl IH Hhd]; simpl.
  - repeat constructor.
  - destruct (le r h) eqn:E.
    + constructor; [now constructor | now constructor].
    + constructor; [exact IH|].
      assert (Hhr : le h r = true)
        by (destruct (Htotal r h) as [H|H]; [congruence | exact H]).
      destruct l as [|h' l']; simpl.
      * now constructor.
      * destruct (le r h'); constructor; [exact Hhr|].
        now inversion Hhd.
Qed.

Lemma order_by_sorted (c : string) (l : list row) :
  Sorted (fun a b => value_leb (col a c) (col b c) = true) (order_by c asc l).
Proof.
  unfold order_by. induction l as [|r l IH]; simpl; [constructor|].
  apply (insert_sorted_sorted (before c asc)); [|exact IH].
  intros a b. apply value_leb_total.
Qed.

Lemma sql_select_ordered_all (n c : string) (s : tschema) (db : DB) :
  initialized db ->
  find (fun s => ieq (ts_name s) n) createTablesSQL = Some s ->
  known_column s c = true ->
  exists l,
    try_catch (sql_select_ordered n every_row c asc) (fun error => throw error)
              db = (Ok l, db)
    /\ listing n c db l.
Proof.
  intros Hi Hs Hc.
  destruct (initialized_find db n s Hi Hs) as (t & Hf & Ht).
  exists (order_by c asc (t_rows t)). split.
  - unfold try_catch, sql_select_ordered. rewrite Hf, Ht, Hc.
    now rewrite (filter_true every_row).
  - unfold listing. rewrite (rows_find _ _ _ Hf).
    split; [apply order_by_perm | apply order_by_sorted].
Qed.

(** X25: on an initialized database the five listings never fail and leave
    the database alone; each returns every row of its table, whatever its
    [isActive], in ascending order of its sort column (NULL first, then
    numbers, then text): [getAllStudents] by [firstname], [getAllDepartments],
    [getAllBillItems] and [getAllBills] by [name], and
    [getAllBillItemRelations] by [billId]. *)
Theorem listings_return_every_row (db : DB) :
  initialized db ->
  (exists l, getAllStudents db = (Ok l, db)
             /\ listing "students" "firstname" db l)
  /\ (exists l, getAllDepartments db = (Ok l, db)
                /\ listing "departments" "name" db l)
  /\ (exists l, getAllBillItems db = (Ok l, db)
                /\ listing "bill_items" "name" db l)
  /\ (exists l, getAllBills db = (Ok l, db) /\ listing "bills" "name" db l)
  /\ (exists l, getAllBillItemRelations db = (Ok l, db)
                /\ listing "bill_item_relations" "billId" db l).
Proof.
  intros Hi. repeat split.
  - exact (sql_select_ordered_all "students" "firstname" students_table db Hi
                                  eq_refl eq_refl).
  - exact (sql_select_ordered_all "departments" "name" departments_table db Hi
                                  eq_refl eq_refl).
  - exact (sql_select_ordered_all "bill_items" "name" bill_items_table db Hi
                                  eq_refl eq_refl).
  - exact (sql_select_ordered_all "bills" "name" bills_table db Hi eq_refl
                                  eq_refl).
  - exact (sql_select_ordered_all "bill_item_relations" "billId"
                                  bill_item_relations_table db Hi eq_refl
                                  eq_refl).
Qed.

Lemma listings_return_every_row_witness :
  exists l, getAllStudents school_db = (Ok l, school_db)
            /\ listing "students" "firstname" school_db l.
Proof.
  exact (proj1 (listings_return_every_row school_db eq_refl)).
Defined.

(** ** Searching by name *)

Lemma like_anything (t : string) : like "%" t = true.
Proof.
  induction t as [|c t IH]; [reflexivity|].
  change (like "%" (String c t)) with (like "" (String c t) || like "%" t).
  rewrite IH. apply orb_true_r.
Qed.

Lemma like_empty_term (v : value) :
  v <> VNull -> like_value ("%" ++ "" ++ "%") v = true.
Proof.
  intros Hv.
  assert (H : forall t, like "%%" t = true).
  { intros t.
    change (like "%%" t)
      with ((fix star (u : string) : bool :=
               like "%" u || match u with
                             | EmptyString => false
                             | String _ u' => star u'
                             end) t).
    destruct t; now rewrite like_anything. }
  destruct v as [|n|s]; [contradiction | apply H | apply H].
Qed.

Lemma search_empty_term (n : string) (db : DB) :
  names_present n db ->
  try_catch (sql_select_ordered n (name_like "") "name" asc)
            (fun error => throw error) db
  = try_catch (sql_select_ordered n every_row "name" asc)
              (fun error => throw error) db.
Proof.
  unfold names_present, rows, try_catch, sql_select_ordered. intros H.
  destruct (find_table n (tables db)) as [t|]; [|reflexivity].
  destruct (known_column (t_schema t) "name"); [|reflexivity].
  rewrite (filter_true every_row) by reflexivity.
  assert (Hall : filter (name_like "") (t_rows t) = t_rows t).
  { induction H as [|r l Hr Hl IH]; simpl; [reflexivity|].
    unfold name_like at 1. rewrite (like_empty_term _ Hr). now rewrite IH. }
  now rewrite Hall.
Qed.

(** X26: with the empty search term, [searchDepartments], [searchBillItems]
    and [searchBills] return what [getAllDepartments], [getAllBillItems] and
    [getAllBills] return (the names being NOT NULL): the pattern is then
    ['%%'], which every name matches. *)
Theorem search_with_empty_term (db : DB) :
  (names_present "departments" db ->
   searchDepartments "" db = getAllDepartments db)
  /\ (names_present "bill_items" db ->
      searchBillItems "" db = getAllBillItems db)
  /\ (names_present "bills" db -> searchBills "" db = getAllBills db).
Proof.
  split; [|split]; apply search_empty_term.
Qed.

(** ** The bill items of a department, seen two ways *)



Lemma search_with_empty_term_witness :
  searchDepartments "" school_db = getAllDepartments school_db.
Proof.
  apply (proj1 (search_with_empty_term school_db)).
  unfold names_present. simpl. repeat constructor. discriminate.
Defined.
